(** * kaggleMate: the CSV ingestion and profiling engine ([services/csvParser.ts])

    A shallow embedding of [parseCSV] and of the helpers it closes over
    ([splitLine], the delimiter detection, the structural check, the column
    classifier and the statistics builder), followed by the properties of the
    engine.

    Conventions of the embedding:
    - a JavaScript string is the list of its UTF-16 code units ([N]);
    - a JavaScript number is an IEEE 754 binary64 value, Rocq's primitive
      [float]; array lengths and counters, which the code only ever
      increments from zero, are [nat] and are converted with [num_of_nat]
      where the code does floating-point arithmetic on them;
    - [Record<number, string[]>] is a [gmap nat (list jsstring)], [Set] is a
      [gset]; the object [counts], whose key order [Object.entries] exposes,
      is an association list kept in own-property order;
    - the promise settles exactly once: [Resolved summary] or
      [Rejected error].

    The callers of the engine follow it: the CSV export and the chart data
    of the dashboard ([components/Dashboard.tsx]), the file intake of the
    application ([App.tsx]) and the progress steps
    ([components/AgentProgress.tsx]). *)

From Stdlib Require Import ZArith NArith List String Ascii Bool Lia.
From Stdlib Require Import Floats Uint63 Permutation Sorted.
From stdpp Require Import gmap.
Import ListNotations.

Set Warnings "-inexact-float".
Open Scope nat_scope.

(** ** JavaScript strings *)

Abbreviation char := N (only parsing).
Abbreviation jsstring := (list N) (only parsing).

Module JSString.

Definition TAB : char := 9%N.
Definition LF : char := 10%N.
Definition CR : char := 13%N.
Definition DQUOTE : char := 34%N.
Definition COMMA : char := 44%N.
Definition SEMICOLON : char := 59%N.
Definition PIPE : char := 124%N.
Definition REPLACEMENT_CHARACTER : char := 65533%N.

(** A string literal of the development, read as code units (ASCII only). *)
Definition js (s : string) : jsstring :=
  List.map N_of_ascii (list_ascii_of_string s).

(** ECMAScript [WhiteSpace] and [LineTerminator] code points: what
    [String.prototype.trim] removes and what [Number] skips around a
    literal. *)
Definition isWhiteSpace (c : char) : bool :=
  ((9 <=? c) && (c <=? 13) || (c =? 32) || (c =? 160) || (c =? 5760)
   || (8192 <=? c) && (c <=? 8202) || (c =? 8232) || (c =? 8233)
   || (c =? 8239) || (c =? 8287) || (c =? 12288) || (c =? 65279))%N.

Fixpoint trimStart (s : jsstring) : jsstring :=
  match s with
  | c :: rest => if isWhiteSpace c then trimStart rest else s
  | [] => []
  end.

Definition trimEnd (s : jsstring) : jsstring := rev (trimStart (rev s)).

(** [s.trim()] *)
Definition trim (s : jsstring) : jsstring := trimEnd (trimStart s).

(** [text.includes(c)] for a one-unit needle. *)
Definition includes (c : char) (text : jsstring) : bool :=
  existsb (N.eqb c) text.

(** Prepends a code unit to the field being read. *)
Definition cons_field (c : char) (fields : list jsstring) : list jsstring :=
  match fields with
  | f :: fs => (c :: f) :: fs
  | [] => [[c]]
  end.

(** [text.split(/\r\n|\n/)]: the alternation tries CR LF first, a lone LF
    next; a lone CR is an ordinary code unit. *)
Fixpoint splitNewlines (text : jsstring) : list jsstring :=
  match text with
  | [] => [[]]
  | c :: rest =>
      match rest with
      | c' :: rest' =>
          if ((c =? CR) && (c' =? LF))%N then [] :: splitNewlines rest'
          else if (c =? LF)%N then [] :: splitNewlines rest
          else cons_field c (splitNewlines rest)
      | [] => if (c =? LF)%N then [[]; []] else [[c]]
      end
  end.

(** [line.split(d)] for a one-unit separator [d]. *)
Fixpoint splitChar (d : char) (line : jsstring) : list jsstring :=
  match line with
  | [] => [[]]
  | c :: rest =>
      if (c =? d)%N then [] :: splitChar d rest
      else cons_field c (splitChar d rest)
  end.

(** [s.replace(/^Q|Q$/g, '')], where Q is the double quote: the global
    replace removes a quote standing first, then a quote standing last in
    what follows it. *)
Definition stripQuotes (s : jsstring) : jsstring :=
  let s1 := match s with
            | c :: rest => if (c =? DQUOTE)%N then rest else s
            | [] => []
            end in
  match rev s1 with
  | c :: rest => if (c =? DQUOTE)%N then rev rest else s1
  | [] => []
  end.

(** [name.substring(0, n)] *)
Definition substring0 (n : nat) (s : jsstring) : jsstring := firstn n s.

End JSString.
Import JSString.

(** ** The tokenizer *)

(** The lookahead [(?=(?:(?:[^Q]*Q){2})*[^Q]*$)] of [splitRegex] (Q is the
    double quote), run on the rest of the line: pairs of quotes, each quote
    preceded by any run of other units, then a run free of quotes up to the
    end of the input. It holds exactly when the quotes of the rest pair up:
    [evenQuotes] flips at every quote and accepts the end of the input in
    the state where every quote read so far has its partner. *)
Fixpoint evenQuotes (rest : jsstring) : bool :=
  match rest with
  | [] => true
  | c :: r => if (c =? DQUOTE)%N then negb (evenQuotes r) else evenQuotes r
  end.

(** [line.split(splitRegex)]: a delimiter is a separator when the lookahead
    holds behind it. The pattern consumes one code unit, so the split never
    yields an empty list. *)
Fixpoint splitRegex (bestDelimiter : char) (line : jsstring) : list jsstring :=
  match line with
  | [] => [[]]
  | c :: rest =>
      if ((c =? bestDelimiter)%N && evenQuotes rest)
      then [] :: splitRegex bestDelimiter rest
      else cons_field c (splitRegex bestDelimiter rest)
  end.

(** [splitLine]: split, trim each field, drop one enclosing quote on each
    side. *)
Definition splitLine (bestDelimiter : char) (line : jsstring) : list jsstring :=
  List.map (fun v => stripQuotes (trim v)) (splitRegex bestDelimiter line).

(** ** Delimiter detection *)

Definition possibleDelimiters : list char := [COMMA; SEMICOLON; TAB; PIPE].

(** [firstLine.split(d).length - 1] *)
Definition delimiterCount (firstLine : jsstring) (d : char) : nat :=
  length (splitChar d firstLine) - 1.

(** The [forEach] over the candidates, with its two mutable variables
    [(bestDelimiter, maxCount)] threaded as the state. *)
Definition detectStep (firstLine : jsstring) (st : char * nat) (d : char)
  : char * nat :=
  let count := delimiterCount firstLine d in
  if snd st <? count then (d, count) else st.

Definition detectDelimiter (firstLine : jsstring) : char :=
  fst (fold_left (detectStep firstLine) possibleDelimiters (COMMA, 0)).

(** ** JavaScript numbers *)

Abbreviation number := float (only parsing).

Module JSNumber.

Definition isNaN (x : number) : bool := negb (x =? x)%float.

(** A length or a counter as a number (exact below 2^53; array lengths stay
    below 2^32). *)
Definition num_of_nat (n : nat) : number :=
  PrimFloat.of_uint63 (Uint63.of_Z (Z.of_nat n)).

(** *** [Number(string)]: the StringToNumber grammar of ECMAScript *)

Definition digitValue (radix : N) (c : char) : option N :=
  let v := (if (48 <=? c) && (c <=? 57) then Some (c - 48)
            else if (97 <=? c) && (c <=? 122) then Some (c - 87)
            else if (65 <=? c) && (c <=? 90) then Some (c - 55)
            else None)%N in
  match v with
  | Some d => if (d <? radix)%N then Some d else None
  | None => None
  end.

(** Reads the longest run of digits of [s], continuing the value [acc];
    yields the value, the number of digits read and the rest. *)
Fixpoint readDigits (radix : N) (s : jsstring) (acc : N) (count : nat)
  : N * nat * jsstring :=
  match s with
  | c :: rest =>
      match digitValue radix c with
      | Some d => readDigits radix rest (acc * radix + d)%N (S count)
      | None => (acc, count, s)
      end
  | [] => (acc, count, [])
  end.

(** The value [m * 10^e] of a decimal literal, rounded to the nearest
    double, ties to even. For [e < 0] the quotient is taken with 64 extra
    bits and the remainder is kept as the rounding location. *)
Definition roundDecimal (negative : bool) (m : N) (e : Z) : number :=
  match m with
  | N0 => if negative then neg_zero else zero
  | Npos p =>
      if (0 <=? e)%Z then
        let v := (Zpos p * 10 ^ e)%Z in
        SF2Prim (binary_normalize prec emax (if negative then (- v)%Z else v)
                                  0%Z false)
      else
        let den := (10 ^ (- e))%Z in
        let s := (64 + Z.log2_up den)%Z in
        let (q, r) := Z.div_eucl (Z.shiftl (Zpos p) s) den in
        SF2Prim (binary_round_aux prec emax negative q (- s)%Z
                                  (new_location den r))
  end.

Definition isSignChar (c : char) : bool := ((c =? 43) || (c =? 45))%N.
Definition isExponentChar (c : char) : bool := ((c =? 101) || (c =? 69))%N.

(** [ExponentPart_opt] followed by the end of the literal. *)
Definition parseExponent (s : jsstring) : option Z :=
  match s with
  | [] => Some 0%Z
  | c :: rest =>
      if isExponentChar c then
        let (negative, digits) :=
          match rest with
          | c' :: rest' => if isSignChar c' then ((c' =? 45)%N, rest')
                           else (false, rest)
          | [] => (false, rest)
          end in
        match readDigits 10 digits 0%N 0 with
        | (v, S _, []) => Some (if negative then (- Z.of_N v)%Z else Z.of_N v)
        | _ => None
        end
      else None
  end.

(** [StrUnsignedDecimalLiteral] other than [Infinity]: the digits as one
    integer and the power of ten that scales it. *)
Definition parseUnsignedDecimal (s : jsstring) : option (N * Z) :=
  match readDigits 10 s 0%N 0 with
  | (intPart, n1, rest) =>
      match rest with
      | c :: rest' =>
          if (c =? 46)%N then
            match readDigits 10 rest' intPart 0 with
            | (mantissa, n2, rest'') =>
                if (n1 + n2 =? 0) then None
                else match parseExponent rest'' with
                     | Some e => Some (mantissa, (e - Z.of_nat n2)%Z)
                     | None => None
                     end
            end
          else if (n1 =? 0) then None
          else match parseExponent rest with
               | Some e => Some (intPart, e)
               | None => None
               end
      | [] => if (n1 =? 0) then None else Some (intPart, 0%Z)
      end
  end.

(** [StrDecimalLiteral]: an optional sign, then [Infinity] or digits. *)
Definition parseDecimal (s : jsstring) : number :=
  let (negative, body) :=
    match s with
    | c :: rest => if isSignChar c then ((c =? 45)%N, rest) else (false, s)
    | [] => (false, s)
    end in
  if bool_decide (body = js "Infinity")
  then (if negative then neg_infinity else infinity)
  else match parseUnsignedDecimal body with
       | Some (m, e) => roundDecimal negative m e
       | None => nan
       end.

(** [NonDecimalIntegerLiteral]: [0b], [0o] or [0x] (either case) and at
    least one digit of that radix, with no sign. *)
Definition parseNonDecimal (s : jsstring) : option number :=
  match s with
  | zero_c :: p :: digits =>
      let radix := (if (p =? 98) || (p =? 66) then Some 2
                    else if (p =? 111) || (p =? 79) then Some 8
                    else if (p =? 120) || (p =? 88) then Some 16
                    else None)%N in
      match radix with
      | Some r =>
          if (zero_c =? 48)%N then
            match readDigits r digits 0%N 0 with
            | (v, S _, []) => Some (roundDecimal false v 0%Z)
            | _ => None
            end
          else None
      | None => None
      end
  | _ => None
  end.

(** [Number(v)] on a string: white space around the literal is skipped, the
    empty literal is [+0], anything outside the grammar is [NaN]. *)
Definition Number (v : jsstring) : number :=
  match trim v with
  | [] => zero
  | s => match parseNonDecimal s with
         | Some x => x
         | None => parseDecimal s
         end
  end.

(** *** [Math.min], [Math.max], [Math.floor] as an index *)

Definition isNegativeZero (x : number) : bool :=
  (x =? zero)%float && get_sign x.
Definition isPositiveZero (x : number) : bool :=
  (x =? zero)%float && negb (get_sign x).

(** One step of [Math.min]: [NaN] is absorbing, [-0] is below [+0]. *)
Definition minStep (lowest x : number) : number :=
  if isNaN lowest then lowest
  else if isNaN x then nan
  else if isNegativeZero x && isPositiveZero lowest then x
  else if (x <? lowest)%float then x
  else lowest.

Definition maxStep (highest x : number) : number :=
  if isNaN highest then highest
  else if isNaN x then nan
  else if isPositiveZero x && isNegativeZero highest then x
  else if (highest <? x)%float then x
  else highest.

(** [Math.min(...values)], [Math.max(...values)] *)
Definition Math_min (values : list number) : number :=
  fold_left minStep values infinity.
Definition Math_max (values : list number) : number :=
  fold_left maxStep values neg_infinity.

(** [values[Math.floor(x)]]: the element when [Math.floor(x)] is an index
    of the array, [undefined] ([None]) otherwise. *)
Definition floorIndex (x : number) : option nat :=
  match Prim2SF x with
  | S754_zero _ => Some 0
  | S754_finite false m e => Some (Z.to_nat (Z.shiftl (Zpos m) e))
  | _ => None
  end.

Definition atFloor {A} (values : list A) (x : number) : option A :=
  match floorIndex x with
  | Some i => nth_error values i
  | None => None
  end.

(** *** [Array.prototype.sort] with a comparator

    The sort is stable and orders by the sign of the comparator's result, a
    [NaN] result counting as [+0]. For a comparator that is consistent on
    the array, every stable sort yields the same array; insertion from the
    right is one of them. *)
Definition comparatorLe (cmp : number) : bool :=
  if isNaN cmp then true else (cmp <=? zero)%float.

Fixpoint sortInsert {A} (comparefn : A -> A -> number) (x : A) (l : list A)
  : list A :=
  match l with
  | [] => [x]
  | y :: l' => if comparatorLe (comparefn x y) then x :: l
               else y :: sortInsert comparefn x l'
  end.

Fixpoint sort {A} (comparefn : A -> A -> number) (l : list A) : list A :=
  match l with
  | [] => []
  | x :: l' => sortInsert comparefn x (sort comparefn l')
  end.

End JSNumber.
Import JSNumber.

(** ** JavaScript objects used as dictionaries

    The own string-keyed properties of an object created by a literal, in
    creation order. [entries] is [Object.entries]: the keys that are array
    indices (canonical decimal numerals below 2^32 - 1) come first in
    ascending numeric order, the other keys follow in creation order. The
    properties an object literal inherits from [Object.prototype] are not
    part of this model: a key such as [constructor] is read as absent. *)
Module JSObject.

Section Dict.
Context {V : Type}.

Fixpoint get (k : jsstring) (o : list (jsstring * V)) : option V :=
  match o with
  | [] => None
  | (k', v) :: o' => if bool_decide (k = k') then Some v else get k o'
  end.

(** [o[k] = v]: overwrites in place, or creates the property last. *)
Fixpoint set (k : jsstring) (v : V) (o : list (jsstring * V))
  : list (jsstring * V) :=
  match o with
  | [] => [(k, v)]
  | (k', v') :: o' =>
      if bool_decide (k = k') then (k, v) :: o' else (k', v') :: set k v o'
  end.

Definition arrayIndex (k : jsstring) : option N :=
  match k with
  | [] => None
  | c :: rest =>
      if (c =? 48)%N && negb (bool_decide (rest = [])) then None
      else match readDigits 10 k 0%N 0 with
           | (n, _, []) => if (n <? 4294967295)%N then Some n else None
           | _ => None
           end
  end.

Fixpoint insertIndexed (i : N) (kv : jsstring * V)
  (l : list (N * (jsstring * V))) : list (N * (jsstring * V)) :=
  match l with
  | [] => [(i, kv)]
  | (j, kv') :: l' => if (i <? j)%N then (i, kv) :: l
                      else (j, kv') :: insertIndexed i kv l'
  end.

Definition indexedEntries (o : list (jsstring * V))
  : list (N * (jsstring * V)) :=
  fold_left (fun acc kv => match arrayIndex (fst kv) with
                           | Some i => insertIndexed i kv acc
                           | None => acc
                           end) o [].

Definition entries (o : list (jsstring * V)) : list (jsstring * V) :=
  List.map snd (indexedEntries o)
  ++ List.filter (fun kv => match arrayIndex (fst kv) with
                            | Some _ => false
                            | None => true
                            end) o.

End Dict.
End JSObject.

(** ** The result types ([types.ts]) *)

Inductive ColumnType : Set :=
| type_numeric | type_string | type_date | type_boolean | type_unknown.

Module Bin.
Record t : Type := mk { name : jsstring; value : nat }.
End Bin.

Module Quantiles.
(** An element read past the end of an array is [undefined] ([None]). *)
Record t : Type := mk { q1 : option number; median : option number;
                        q3 : option number }.
End Quantiles.

Module ColumnStats.
Record t : Type := mk {
  histogram : option (list Bin.t);
  topValues : option (list Bin.t);
  min : option number;
  max : option number;
  mean : option number;
  quantiles : option Quantiles.t }.
(** The literal [{}]. *)
Definition empty : t := mk None None None None None None.
End ColumnStats.

Module ColumnInfo.
Record t : Type := mk {
  name : jsstring;
  type : ColumnType;
  missing : Z;
  unique : nat;
  example : option jsstring;
  stats : ColumnStats.t }.
End ColumnInfo.

Module DatasetSummary.
(** [contextImages] and [contextDocuments] are optional and [parseCSV]
    leaves them out. A preview row is the object the code fills with
    [row[h] = values[i]]. *)
Record t : Type := mk {
  rowCount : nat;
  columns : list ColumnInfo.t;
  preview : list (list (jsstring * option jsstring));
  fileName : jsstring }.
End DatasetSummary.

(** The four messages [parseCSV] throws, by what they say; the integrity
    message interpolates the three numbers it carries. *)
Inductive Error : Set :=
| EncodingError
| InsufficientDataError
| ColumnDetectionError
| DataIntegrityError (malformedCount validationLimit expectedColumnCount : nat).

Inductive Promise (A : Type) : Type :=
| Resolved (a : A)
| Rejected (e : Error).
Arguments Resolved {A} a.
Arguments Rejected {A} e.

(** ** The engine *)

Definition isEmpty (s : jsstring) : bool :=
  match s with [] => true | _ => false end.

(** [text.split(/\r\n|\n/).filter(l => l.trim() !== '')] *)
Definition nonBlankLines (text : jsstring) : list jsstring :=
  List.filter (fun l => negb (isEmpty (trim l))) (splitNewlines text).

(** *** Structural integrity check *)

(** The loop [for (let i = 1; i < validationLimit; i++)] with its counter
    [malformedCount] as the state. *)
Definition malformedStep (bestDelimiter : char) (lines : list jsstring)
  (expectedColumnCount : nat) (malformedCount i : nat) : nat :=
  let rowCols := splitLine bestDelimiter (nth i lines []) in
  if negb (length rowCols =? expectedColumnCount)
  then S malformedCount else malformedCount.

Definition countMalformed (bestDelimiter : char) (lines : list jsstring)
  (expectedColumnCount validationLimit : nat) : nat :=
  fold_left (malformedStep bestDelimiter lines expectedColumnCount)
            (seq 1 (validationLimit - 1)) 0.

(** [malformedCount > (validationLimit * 0.2)] *)
Definition tooManyMalformed (malformedCount validationLimit : nat) : bool :=
  (num_of_nat validationLimit * 0.2 <? num_of_nat malformedCount)%float.

(** *** Sampling the columns *)

(** One pass of [headers.forEach((_, index) => ...)] over a tokenized row:
    a value that is present and not empty is pushed on the array of its
    column, which is created on first use. *)
Definition pushValue (rowValues : list jsstring)
  (columnValues : gmap nat (list jsstring)) (index : nat)
  : gmap nat (list jsstring) :=
  match nth_error rowValues index with
  | Some val =>
      if negb (isEmpty val)
      then <[index := default [] (columnValues !! index) ++ [val]]> columnValues
      else columnValues
  | None => columnValues
  end.

Definition collectRow (bestDelimiter : char) (headerCount : nat)
  (columnValues : gmap nat (list jsstring)) (line : jsstring)
  : gmap nat (list jsstring) :=
  fold_left (pushValue (splitLine bestDelimiter line))
            (seq 0 headerCount) columnValues.

(** The loop [for (let i = 0; i < sampleLimit; i++)] over [dataLines]. *)
Definition collectColumnValues (bestDelimiter : char) (headerCount : nat)
  (dataLines : list jsstring) (sampleLimit : nat)
  : gmap nat (list jsstring) :=
  fold_left (fun columnValues i =>
               collectRow bestDelimiter headerCount columnValues
                          (nth i dataLines []))
            (seq 0 sampleLimit) ∅.

(** *** Histograms *)

Definition binCount : nat := 10.

(** The [filter(...).length] of bin [i]. *)
Definition binValue (values : list number) (min step : number) (i : nat)
  : nat :=
  let rangeStart := (min + num_of_nat i * step)%float in
  let rangeEnd := (min + num_of_nat (i + 1) * step)%float in
  length (List.filter
            (fun n => (rangeStart <=? n)%float
                      && (if i =? binCount - 1 then (n <=? rangeEnd)%float
                          else (n <? rangeEnd)%float))
            values).

(** The ten bins when [step > 0], a single bin otherwise. [label] names a
    bin after its start, [single] names the lone bin after [min]. *)
Definition buildHistogram (label single : number -> jsstring)
  (values : list number) (min max : number) : list Bin.t :=
  let step := ((max - min) / num_of_nat binCount)%float in
  if (zero <? step)%float then
    List.map (fun i => Bin.mk (label (min + num_of_nat i * step)%float)
                              (binValue values min step i))
             (seq 0 binCount)
  else [Bin.mk (single min) (length values)].

(** *** Top values of a text column *)

(** [rawValues.forEach(v => { counts[v] = (counts[v] || 0) + 1; })] *)
Definition countValues (rawValues : list jsstring) : list (jsstring * nat) :=
  fold_left (fun counts v =>
               JSObject.set v (default 0 (JSObject.get v counts) + 1) counts)
            rawValues [].

Definition displayName (name : jsstring) : jsstring :=
  if 15 <? length name then substring0 15 name ++ js "..." else name.

Definition buildTopValues (rawValues : list jsstring) : list Bin.t :=
  List.map (fun '(name, value) => Bin.mk (displayName name) value)
    (firstn 20
       (sort (fun a b => (num_of_nat (snd b) - num_of_nat (snd a))%float)
             (JSObject.entries (countValues rawValues)))).

Section Engine.

(** The host functions the statistics builder calls besides [Number]:
    [Date.parse] (implementation-defined outside the ISO format; [NaN] when
    the string is no date), [n.toFixed(1)], [n.toString()] and
    [new Date(t).toISOString().split('T')[0]]. *)
Variable Date_parse : jsstring -> number.
Variable toFixed1 : number -> jsstring.
Variable numberToString : number -> jsstring.
Variable isoDay : number -> jsstring.

(** *** Column classification *)

Record Tally : Type := mkTally {
  numericCount : nat;
  dateCount : nat;
  numericParsed : list number;
  dateParsed : list number }.

(** The body of [rawValues.forEach(v => ...)]. *)
Definition tallyValue (t : Tally) (v : jsstring) : Tally :=
  let n := Number v in
  let t1 :=
    if negb (isNaN n) && negb (isEmpty v)
    then mkTally (S (numericCount t)) (dateCount t)
                 (numericParsed t ++ [n]) (dateParsed t)
    else t in
  if (5 <? length v) && negb (negb (isNaN (Number v))) then
    let d := Date_parse v in
    if negb (isNaN d)
    then mkTally (numericCount t1) (S (dateCount t1))
                 (numericParsed t1) (dateParsed t1 ++ [d])
    else t1
  else t1.

Definition tally (rawValues : list jsstring) : Tally :=
  fold_left tallyValue rawValues (mkTally 0 0 [] []).

(** [rawValues.length > 0 && (count / rawValues.length) > threshold] *)
Definition shareAbove (threshold : number) (count : nat)
  (rawValues : list jsstring) : bool :=
  (0 <? length rawValues)
  && (threshold <? num_of_nat count / num_of_nat (length rawValues))%float.

Definition isNumeric (rawValues : list jsstring) : bool :=
  shareAbove 0.8 (numericCount (tally rawValues)) rawValues.

Definition isDate (rawValues : list jsstring) : bool :=
  negb (isNumeric rawValues)
  && shareAbove 0.6 (dateCount (tally rawValues)) rawValues.

Definition columnType (rawValues : list jsstring) : ColumnType :=
  if isNumeric rawValues then type_numeric
  else if isDate rawValues then type_date
  else type_string.

(** *** Statistics *)

Definition sortAscending (values : list number) : list number :=
  sort (fun a b => (a - b)%float) values.

Definition numericStats (numericParsed : list number) : ColumnStats.t :=
  let min := Math_min numericParsed in
  let max := Math_max numericParsed in
  let mean := (fold_left PrimFloat.add numericParsed zero
               / num_of_nat (length numericParsed))%float in
  let sorted := sortAscending numericParsed in
  let len := num_of_nat (length sorted) in
  let q1 := atFloor sorted (len * 0.25)%float in
  let median := atFloor sorted (len * 0.5)%float in
  let q3 := atFloor sorted (len * 0.75)%float in
  let histogram := buildHistogram toFixed1 numberToString sorted min max in
  ColumnStats.mk (Some histogram) None (Some min) (Some max) (Some mean)
                 (Some (Quantiles.mk q1 median q3)).

Definition dateStats (dateParsed : list number) : ColumnStats.t :=
  let min := Math_min dateParsed in
  let max := Math_max dateParsed in
  let histogram := buildHistogram isoDay isoDay dateParsed min max in
  ColumnStats.mk (Some histogram) None (Some min) (Some max) None None.

Definition stringStats (rawValues : list jsstring) : ColumnStats.t :=
  ColumnStats.mk None (Some (buildTopValues rawValues)) None None None None.

Definition columnStats (rawValues : list jsstring) : ColumnStats.t :=
  if isNumeric rawValues then numericStats (numericParsed (tally rawValues))
  else if isDate rawValues then dateStats (dateParsed (tally rawValues))
  else stringStats rawValues.

(** The body of [headers.map((header, index) => ...)]. *)
Definition analyzeColumn (sampleLimit : nat)
  (columnValues : gmap nat (list jsstring)) (index : nat) (header : jsstring)
  : ColumnInfo.t :=
  let rawValues := default [] (columnValues !! index) in
  let missingCount :=
    (Z.of_nat sampleLimit - Z.of_nat (length rawValues))%Z in
  let distinct : gset (list N) := list_to_set rawValues in
  ColumnInfo.mk header (columnType rawValues) missingCount (size distinct)
                (hd_error rawValues) (columnStats rawValues).

(** *** Preview *)

Definition previewRow (bestDelimiter : char) (headers : list jsstring)
  (line : jsstring) : list (jsstring * option jsstring) :=
  let values := splitLine bestDelimiter line in
  fold_left (fun row '(i, h) => JSObject.set h (nth_error values i) row)
            (combine (seq 0 (length headers)) headers) [].

(** [lines.slice(from, to)] *)
Definition slice {A} (from to : nat) (l : list A) : list A :=
  firstn (to - from) (skipn from l).

(** *** [parseCSV], from the text [FileReader.readAsText] hands over *)

Definition parseCSV (fileName text : jsstring)
  : Promise DatasetSummary.t :=
  if includes REPLACEMENT_CHARACTER text then Rejected EncodingError else
  let lines := nonBlankLines text in
  if length lines <? 2 then Rejected InsufficientDataError else
  let firstLine := nth 0 lines [] in
  let bestDelimiter := detectDelimiter firstLine in
  let headers := splitLine bestDelimiter firstLine in
  let expectedColumnCount := length headers in
  if expectedColumnCount <? 1 then Rejected ColumnDetectionError else
  let validationLimit := Nat.min (length lines) 100 in
  let malformedCount :=
    countMalformed bestDelimiter lines expectedColumnCount validationLimit in
  if tooManyMalformed malformedCount validationLimit
  then Rejected (DataIntegrityError malformedCount validationLimit
                                    expectedColumnCount)
  else
  let previewLines := slice 1 51 lines in
  let dataLines := skipn 1 lines in
  let preview := List.map (previewRow bestDelimiter headers) previewLines in
  let sampleLimit := Nat.min (length dataLines) 2000 in
  let columnValues :=
    collectColumnValues bestDelimiter expectedColumnCount dataLines
                        sampleLimit in
  let columns := imap (analyzeColumn sampleLimit columnValues) headers in
  Resolved (DatasetSummary.mk (length dataLines) columns preview fileName).

End Engine.

(** ** Names for what [parseCSV] computes on its way

    The local constants of [parseCSV] as functions of the text. *)

Definition firstLineOf (text : jsstring) : jsstring :=
  nth 0 (nonBlankLines text) [].
Definition delimiterOf (text : jsstring) : char :=
  detectDelimiter (firstLineOf text).
Definition headersOf (text : jsstring) : list jsstring :=
  splitLine (delimiterOf text) (firstLineOf text).
Definition dataLinesOf (text : jsstring) : list jsstring :=
  skipn 1 (nonBlankLines text).
Definition validationLimitOf (text : jsstring) : nat :=
  Nat.min (length (nonBlankLines text)) 100.
Definition sampleLimitOf (text : jsstring) : nat :=
  Nat.min (length (dataLinesOf text)) 2000.

(** ** The notions the properties are stated with *)

(** *** Tokenizer *)

(** Fields joined by a delimiter into a line. *)
Fixpoint joinFields (d : char) (fields : list jsstring) : jsstring :=
  match fields with
  | [] => []
  | [f] => f
  | f :: rest => f ++ d :: joinFields d rest
  end.

(** A field every delimiter of which stands inside a matched pair of
    quotes: the quotes of the field pair up, and behind each delimiter an
    odd number of them is left. *)
Fixpoint delimitersEnclosed (d : char) (field : jsstring) : bool :=
  match field with
  | [] => true
  | c :: rest => (if (c =? d)%N then negb (evenQuotes rest) else true)
                 && delimitersEnclosed d rest
  end.
Definition closedField (d : char) (field : jsstring) : bool :=
  evenQuotes field && delimitersEnclosed d field.

(** *** Delimiter detection *)

(** Two candidates share the highest count of the line. *)
Definition tieForHighest (line : jsstring) : Prop :=
  exists c1 c2 : char,
    In c1 possibleDelimiters /\ In c2 possibleDelimiters /\ c1 <> c2
    /\ delimiterCount line c1 = delimiterCount line c2
    /\ forall c, In c possibleDelimiters ->
                 delimiterCount line c <= delimiterCount line c1.

(** *** Structural check *)

(** A row is malformed when its field count differs from the header's. *)
Definition isMalformed (text line : jsstring) : bool :=
  negb (length (splitLine (delimiterOf text) line)
        =? length (headersOf text)).

(** The rows the structural check reads: indices [1 .. validationLimit - 1]
    of the non-blank lines. *)
Definition validatedRows (text : jsstring) : list jsstring :=
  firstn (validationLimitOf text - 1) (dataLinesOf text).
Definition malformedRows (text : jsstring) : nat :=
  length (List.filter (isMalformed text) (validatedRows text)).

(** *** Column samples *)

(** The sample window: the first 2000 data rows, tokenized. *)
Definition sampleWindow (text : jsstring) : list (list jsstring) :=
  List.map (splitLine (delimiterOf text)) (firstn 2000 (dataLinesOf text)).

(** What a row contributes to column [i]: its [i]-th field when the row has
    one and it is not empty. *)
Definition cell (i : nat) (row : list jsstring) : list jsstring :=
  match nth_error row i with
  | Some v => if isEmpty v then [] else [v]
  | None => []
  end.

(** The column sample: the non-empty values of column [i] in the sample
    window, in row order. *)
Definition ColumnSample (text : jsstring) (i : nat) : list jsstring :=
  flat_map (cell i) (sampleWindow text).

(** A value that counts as a number, and the numbers of a sample in sample
    order. *)
Definition parsesAsNumber (v : jsstring) : bool := negb (isNaN (Number v)).
Definition numericValues (sample : list jsstring) : list number :=
  List.filter (fun n => negb (isNaN n)) (List.map Number sample).

(** A value that counts as a date: longer than five units, no number, and
    accepted by the host's [Date.parse]; and the timestamps of these values
    of a sample. *)
Definition parsesAsDate (Date_parse : jsstring -> number) (v : jsstring)
  : bool :=
  (5 <? length v) && isNaN (Number v) && negb (isNaN (Date_parse v)).
Definition dateValues (Date_parse : jsstring -> number)
  (sample : list jsstring) : list number :=
  List.map Date_parse (List.filter (parsesAsDate Date_parse) sample).

(** Numbers in ascending order. *)
Definition ascending : list number -> Prop :=
  StronglySorted (fun a b => (a <=? b)%float = true).

(** ** Texts of the worked instances *)

(** Texts are written line by line, each line ended by a line feed. *)
Definition unlines (ls : list jsstring) : jsstring :=
  flat_map (fun l => l ++ [LF]) ls.

(** The end-to-end scenario: two columns, three rows. *)
Definition scenarioText : jsstring :=
  unlines [js "a,b"; js "1,x"; js "2,y"; js "3,x"].

(** The header [a,b,c] followed by 99 rows, the first [malformed] of which
    have two fields instead of three. *)
Definition raggedText (malformed : nat) : jsstring :=
  unlines (js "a,b,c" :: repeat (js "1,2") malformed
                      ++ repeat (js "1,2,3") (99 - malformed)).

(** A header of three fields and four rows, the last of which has two. *)
Definition oneRaggedOfFour : jsstring :=
  unlines [js "a,b,c"; js "1,2,3"; js "1,2,3"; js "1,2,3"; js "1,2"].

(** A header of three fields and 100 rows: 20 rows of two fields, 79 rows
    of three, and a last row of two. *)
Definition raggedLastOfHundred : jsstring :=
  unlines (js "a,b,c" :: repeat (js "1,2") 20 ++ repeat (js "1,2,3") 79
                      ++ [js "1,2"]).

(** One column with the values 1 to 10. *)
Definition oneToTen : jsstring :=
  unlines [js "v"; js "1"; js "2"; js "3"; js "4"; js "5"; js "6"; js "7";
           js "8"; js "9"; js "10"].

(** One column with the values 0 and 0.9, and one with 0 and the least
    positive double. *)
Definition zeroAndNineTenths : jsstring :=
  unlines [js "v"; js "0"; js "0.9"].
Definition zeroAndLeastDouble : jsstring :=
  unlines [js "v"; js "0"; js "5e-324"].

(** One column with five numbers and one value that is no number. *)
Definition fiveNumbersAndText : jsstring :=
  unlines [js "v"; js "1"; js "2"; js "3"; js "4"; js "5"; js "x"].

(** A host whose [Date.parse] accepts no string and whose formatters
    return the empty string. It serves the instances that are stated
    without a host; none of them reads a date or a bin label. *)
Module SampleHost.
Definition Date_parse (v : jsstring) : number := nan.
Definition toFixed1 (x : number) : jsstring := [].
Definition numberToString (x : number) : jsstring := [].
Definition isoDay (t : number) : jsstring := [].
Definition fileName : jsstring := js "data.csv".
Definition profile (text : jsstring) : Promise DatasetSummary.t :=
  parseCSV Date_parse toFixed1 numberToString isoDay fileName text.
End SampleHost.

(** ** Checks over ranges of counters

    The engine does floating-point arithmetic on counters that stay small.
    The functions below run a comparison of the engine against the
    comparison of integers it stands for, over a whole range of counters,
    on machine integers. *)

Definition int_of_nat (n : nat) : int := Uint63.of_Z (Z.of_nat n).

(** [f] holds of [start], [start + 1], ..., over [n] consecutive values,
    given both as a [nat] and as a machine integer. *)
Fixpoint forallFrom (f : nat -> int -> bool) (n : nat) (start : nat)
  (istart : int) : bool :=
  match n with
  | 0 => true
  | S k => if f start istart
           then forallFrom f k (S start) (istart + 1)%uint63
           else false
  end.

(** [malformedCount > validationLimit * 0.2] against [limit < 5 * m]. *)
Definition fifthCheck (limit : int) (m : int) : bool :=
  Bool.eqb (PrimFloat.of_uint63 limit * 0.2 <? PrimFloat.of_uint63 m)%float
           (1 * limit <? 5 * m)%uint63.

(** [count / len > 0.8] against [4 * len < 5 * count], and [> 0.6] against
    [3 * len < 5 * count]. *)
Definition shareCheck (len : int) (count : int) : bool :=
  Bool.eqb (0.8 <? PrimFloat.of_uint63 count / PrimFloat.of_uint63 len)%float
           (4 * len <? 5 * count)%uint63
  && Bool.eqb (0.6 <? PrimFloat.of_uint63 count / PrimFloat.of_uint63 len)%float
              (3 * len <? 5 * count)%uint63.

(** The three quantile indices against the integer quotients. *)
Definition quartileCheck (n : nat) (len : int) : bool :=
  match floorIndex (PrimFloat.of_uint63 len * 0.25)%float,
        floorIndex (PrimFloat.of_uint63 len * 0.5)%float,
        floorIndex (PrimFloat.of_uint63 len * 0.75)%float with
  | Some a, Some b, Some c =>
      (a =? n / 4) && (b =? n / 2) && (c =? 3 * n / 4)
  | _, _, _ => false
  end.

(** Whether a difference, as the comparator of [sort] reads it, is
    negative or zero; on specifications. *)
Definition differenceLe (r : spec_float) : bool :=
  match r with
  | S754_nan | S754_zero _ => true
  | S754_infinity s | S754_finite s _ _ => s
  end.

(** ** Further notions *)

(** Lines ended by a carriage return and a line feed. *)
Definition unlinesCRLF (ls : list jsstring) : jsstring :=
  flat_map (fun l => l ++ [CR; LF]) ls.

(** A line as a text editor sees it: it holds no line feed and does not end
    in a carriage return. *)
Definition plainLine (l : jsstring) : bool :=
  negb (includes LF l) && negb (List.last l LF =? CR)%N.

(** A line [parseCSV] drops: nothing is left of it once trimmed. *)
Definition isBlank (l : jsstring) : bool := isEmpty (trim l).

(** How often a value occurs in a sample. *)
Definition occurrences (v : jsstring) (values : list jsstring) : nat :=
  length (List.filter (fun x => bool_decide (x = v)) values).

(** The names [Object.prototype] gives to every object literal; a lookup
    [counts[v]] or an assignment [row[h] = ...] under one of them does not
    behave as on an own property. *)
Definition inheritedKeys : list jsstring :=
  [js "constructor"; js "hasOwnProperty"; js "isPrototypeOf";
   js "propertyIsEnumerable"; js "toLocaleString"; js "toString";
   js "valueOf"; js "__proto__"; js "__defineGetter__";
   js "__defineSetter__"; js "__lookupGetter__"; js "__lookupSetter__"].

Definition isInherited (v : jsstring) : bool :=
  existsb (fun k => bool_decide (k = v)) inheritedKeys.

(** Counts in descending order. *)
Definition descendingCounts : list (jsstring * nat) -> Prop :=
  StronglySorted (fun a b => snd b <= snd a).

(** Consecutive counters are distinct doubles in the order of the
    counters. *)
Definition counterCheck (n : nat) (i : int) : bool :=
  (PrimFloat.of_uint63 i <? PrimFloat.of_uint63 (i + 1))%float.

(** The statistics a column of each type carries: a histogram of one or
    ten bins with min, max, mean and quantiles for a numeric column; a
    histogram of one or ten bins with min and max for a date column; top
    values for a string column. *)
Definition statsShape (type : ColumnType) (stats : ColumnStats.t) : Prop :=
  match type with
  | type_numeric =>
      exists histogram lowest highest mean quantiles,
        stats = ColumnStats.mk (Some histogram) None (Some lowest)
                               (Some highest) (Some mean) (Some quantiles)
        /\ (length histogram = 1 \/ length histogram = 10)
  | type_date =>
      exists histogram lowest highest,
        stats = ColumnStats.mk (Some histogram) None (Some lowest)
                               (Some highest) None None
        /\ (length histogram = 1 \/ length histogram = 10)
  | type_string =>
      exists topValues,
        stats = ColumnStats.mk None (Some topValues) None None None None
  | type_boolean | type_unknown => False
  end.




(** ** The CSV export of the dashboard ([components/Dashboard.tsx])

    [handleDownloadCSV] writes the preview of a profile back as CSV text.
    [Array.prototype.join] on strings is [joinFields]; the text below is
    what the function hands to the [Blob] it offers for download. *)
Module Dashboard.

(** [s.replace(/Q/g, QQ)], Q the double quote: every quote is doubled. *)
Definition escapeQuotes (s : jsstring) : jsstring :=
  flat_map (fun c => if (c =? DQUOTE)%N then [DQUOTE; DQUOTE] else [c]) s.

(** The body of [headers.map(header => ...)]: the value [row[header]], the
    empty string when it is [null] or [undefined], with its quotes doubled
    and enclosed in quotes. *)
Definition quotedValue (row : list (jsstring * option jsstring))
  (header : jsstring) : jsstring :=
  let val := JSObject.get header row in
  let escaped := escapeQuotes (match val with
                               | Some (Some v) => v
                               | _ => []
                               end) in
  DQUOTE :: escaped ++ [DQUOTE].

(** The array [csvRows]: the header names joined by commas, then one line
    per preview row. *)
Definition csvRows (summary : DatasetSummary.t) : list jsstring :=
  let headers := List.map ColumnInfo.name (DatasetSummary.columns summary) in
  joinFields COMMA headers
  :: List.map (fun row => joinFields COMMA
                            (List.map (quotedValue row) headers))
              (DatasetSummary.preview summary).

(** [handleDownloadCSV]: nothing when the preview is empty, otherwise the
    rows joined by line feeds. *)
Definition handleDownloadCSV (summary : DatasetSummary.t) : option jsstring :=
  match DatasetSummary.preview summary with
  | [] => None
  | _ :: _ => Some (joinFields LF (csvRows summary))
  end.

End Dashboard.

(** ** The chart data of the dashboard ([components/Dashboard.tsx]) *)
Module Chart.

Inductive VizType : Set := viz_default | viz_alternative.

(** [graphData]: the histogram of a numeric or date column, the top values
    of a string column, cut to ten in the default view; an array that is
    present is truthy even when it is empty. *)
Definition graphData (selectedColumn : ColumnInfo.t) (vizType : VizType)
  : list Bin.t :=
  let stats := ColumnInfo.stats selectedColumn in
  match ColumnInfo.type selectedColumn,
        ColumnStats.histogram stats, ColumnStats.topValues stats with
  | type_numeric, Some histogram, _ => histogram
  | type_date, Some histogram, _ => histogram
  | type_string, _, Some topValues =>
      match vizType with
      | viz_default => firstn 10 topValues
      | viz_alternative => topValues
      end
  | _, _, _ => []
  end.

End Chart.

(** ** The file intake of the application ([App.tsx], [handleFilesSelect])

    The part of the handler that classifies the selected files, parses
    every CSV file and keeps the summary of the largest one as the primary
    dataset. A file is its name, its size in bytes and the text
    [FileReader.readAsText] yields for it; every read is taken to succeed.
    The images and PDF documents, which the handler only encodes and
    attaches to the primary summary, and the progress state it sets on its
    way are left out. *)
Module App.

Record File : Type := mkFile {
  name : jsstring;
  size : nat;
  text : jsstring }.

(** An entry of [additionalContext]: the content of a text file, or the
    summary of a CSV file. *)
Inductive ContextEntry : Type :=
| TextContent (fileName : jsstring) (textContent : jsstring)
| Summary (fileName : jsstring) (summary : DatasetSummary.t).

Definition entryName (e : ContextEntry) : jsstring :=
  match e with
  | TextContent fileName _ => fileName
  | Summary fileName _ => fileName
  end.

(** What the handler throws: its own two messages, or the error of
    [parseCSV]. *)
Inductive Failure : Set :=
| NoCSVFile
| NoPrimaryDataset
| ParseFailure (e : Error).

(** [s.endsWith(suffix)] *)
Definition endsWith (suffix s : jsstring) : bool :=
  (length suffix <=? length s)
  && bool_decide (skipn (length s - length suffix) s = suffix).

(** The state of the loop over the CSV files. *)
Record Intake : Type := mkIntake {
  primarySummary : option DatasetSummary.t;
  largestSize : nat;
  additionalContext : list ContextEntry }.

Section Handler.

(** [String.prototype.toLowerCase], a host function, beside those of the
    engine. *)
Variable toLowerCase : jsstring -> jsstring.
Variable Date_parse : jsstring -> number.
Variable toFixed1 : number -> jsstring.
Variable numberToString : number -> jsstring.
Variable isoDay : number -> jsstring.

Definition isCSV (f : File) : bool :=
  endsWith (js ".csv") (toLowerCase (name f)).

Definition isText (f : File) : bool :=
  endsWith (js ".txt") (toLowerCase (name f))
  || endsWith (js ".md") (toLowerCase (name f)).

(** The loop [for (const csv of csvFiles)]: a rejected [parseCSV] ends the
    handler with its error. *)
Fixpoint processCSVs (csvFiles : list File) (st : Intake) : Error + Intake :=
  match csvFiles with
  | [] => inr st
  | csv :: rest =>
      match parseCSV Date_parse toFixed1 numberToString isoDay
                     (name csv) (text csv) with
      | Rejected e => inl e
      | Resolved summary =>
          let context := additionalContext st ++ [Summary (name csv) summary] in
          if largestSize st <? size csv
          then processCSVs rest (mkIntake (Some summary) (size csv) context)
          else processCSVs rest (mkIntake (primarySummary st)
                                          (largestSize st) context)
      end
  end.

(** The handler up to [setDatasetSummary(primarySummary)]: the primary
    summary and the context handed to the analysis. *)
Definition handleFilesSelect (files : list File)
  : Failure + DatasetSummary.t * list ContextEntry :=
  let csvFiles := List.filter isCSV files in
  let textFiles := List.filter isText files in
  if length csvFiles =? 0 then inl NoCSVFile else
  let textContext :=
    List.map (fun txt => TextContent (name txt) (text txt)) textFiles in
  match processCSVs csvFiles (mkIntake None 0 textContext) with
  | inl e => inl (ParseFailure e)
  | inr st =>
      match primarySummary st with
      | None => inl NoPrimaryDataset
      | Some primary => inr (primary, additionalContext st)
      end
  end.

End Handler.
End App.

(** ** The progress steps ([components/AgentProgress.tsx]) *)
Module AgentProgress.

Inductive AgentStage : Set :=
| PLANNING | ACTION | VALIDATION | REVISION | COMPLETE.

Inductive StepStatus : Set := completed | active | pending.

Definition AgentStage_eqb (a b : AgentStage) : bool :=
  match a, b with
  | PLANNING, PLANNING | ACTION, ACTION | VALIDATION, VALIDATION
  | REVISION, REVISION | COMPLETE, COMPLETE => true
  | _, _ => false
  end.

(** The steps the component draws. *)
Definition steps : list AgentStage := [PLANNING; ACTION; VALIDATION; REVISION].

Definition order : list AgentStage :=
  [PLANNING; ACTION; VALIDATION; REVISION; COMPLETE].

(** [order.indexOf(x)]: the first index of [x], or -1. *)
Fixpoint indexOf (x : AgentStage) (l : list AgentStage) : Z :=
  match l with
  | [] => (-1)%Z
  | y :: l' => if AgentStage_eqb y x then 0%Z
               else match indexOf x l' with
                    | Zneg _ => (-1)%Z
                    | i => (i + 1)%Z
                    end
  end.

Definition getStepStatus (stage stepId : AgentStage) : StepStatus :=
  let currentIndex := indexOf stage order in
  let stepIndex := indexOf stepId order in
  if AgentStage_eqb stage COMPLETE then completed
  else if (stepIndex <? currentIndex)%Z then completed
  else if (stepIndex =? currentIndex)%Z then active
  else pending.

End AgentProgress.

(** ** Texts and hosts of the further instances *)

(** The scenario with a line of two spaces after the header. *)
Definition scenarioWithBlankLine : jsstring :=
  unlines [js "a,b"; js "  "; js "1,x"; js "2,y"; js "3,x"].

(** One column of two dates. *)
Definition twoDates : jsstring :=
  unlines [js "d"; js "2020-01-01"; js "2021-01-01"].

(** One column with three spellings of the number seven. *)
Definition threeSevens : jsstring := unlines [js "v"; js "7"; js "7.0"; js "07"].

(** A host whose [Date.parse] knows the first of January of 2020 and of
    2021, in milliseconds since the epoch. *)
Module SampleDateHost.
Definition Date_parse (v : jsstring) : number :=
  if bool_decide (v = js "2020-01-01") then 1577836800000%float
  else if bool_decide (v = js "2021-01-01") then 1609459200000%float
  else nan.
Definition profile (text : jsstring) : Promise DatasetSummary.t :=
  parseCSV Date_parse SampleHost.toFixed1 SampleHost.numberToString
           SampleHost.isoDay SampleHost.fileName text.
End SampleDateHost.

(** A selection of files: a text file and three CSV files, the last two
    of the same size; [toLowerCase] on ASCII names. *)
Module SampleIntake.
Definition toLowerCase (s : jsstring) : jsstring :=
  List.map (fun c => if ((65 <=? c) && (c <=? 90))%N then (c + 32)%N else c) s.
Definition files : list App.File :=
  [App.mkFile (js "notes.txt") 5 (js "hello");
   App.mkFile (js "small.CSV") 8 zeroAndNineTenths;
   App.mkFile (js "first.csv") 16 scenarioText;
   App.mkFile (js "second.csv") 16 scenarioText].
Definition handleFilesSelect (files : list App.File) :=
  App.handleFilesSelect toLowerCase SampleHost.Date_parse SampleHost.toFixed1
                        SampleHost.numberToString SampleHost.isoDay files.
End SampleIntake.


(** One column of two quoted blanks. *)
Definition quotedBlanks : jsstring :=
  unlines [js "q"; DQUOTE :: js " " ++ [DQUOTE];
           DQUOTE :: js "  " ++ [DQUOTE]].


(** * Properties *)

(** ** Splitting *)

Lemma cons_field_length (c : char) (fields : list jsstring) :
  fields <> [] -> length (cons_field c fields) = length fields.
Proof. destruct fields as [|f fs]; [congruence | reflexivity]. Qed.

Lemma splitRegex_nonempty (d : char) (line : jsstring) : splitRegex d line <> [].
Proof.
  induction line as [|c rest IH]; simpl; [discriminate|].
  destruct ((c =? d)%N && evenQuotes rest); [discriminate|].
  destruct (splitRegex d rest); [congruence | discriminate].
Qed.

Lemma splitLine_length (d : char) (line : jsstring) :
  1 <= length (splitLine d line).
Proof.
  unfold splitLine. rewrite length_map.
  pose proof (splitRegex_nonempty d line) as H.
  destruct (splitRegex d line); [congruence | simpl; lia].
Qed.

Lemma evenQuotes_app (a b : jsstring) :
  evenQuotes (a ++ b) = Bool.eqb (evenQuotes a) (evenQuotes b).
Proof.
  induction a as [|c a IH]; simpl.
  - destruct (evenQuotes b); reflexivity.
  - destruct (c =? DQUOTE)%N; rewrite IH;
      destruct (evenQuotes a), (evenQuotes b); reflexivity.
Qed.

Lemma evenQuotes_cons_other (c : char) (r : jsstring) :
  (c =? DQUOTE)%N = false -> evenQuotes (c :: r) = evenQuotes r.
Proof. intros H. simpl. rewrite H. reflexivity. Qed.


(** A field whose delimiters are all enclosed is read in one piece up to
    the end of the line. *)
Lemma splitRegex_last_field (d : char) (f : jsstring) :
  delimitersEnclosed d f = true -> splitRegex d f = [f].
Proof.
  induction f as [|c rest IH]; simpl; [reflexivity|].
  intros H. apply andb_true_iff in H as [Hc Hrest].
  rewrite (IH Hrest).
  destruct (c =? d)%N; simpl; [|reflexivity].
  apply negb_true_iff in Hc. rewrite Hc. reflexivity.
Qed.

(** ... and up to a delimiter behind which the quotes pair up. *)
Lemma splitRegex_field_then (d : char) (f tail : jsstring) :
  (d =? DQUOTE)%N = false ->
  delimitersEnclosed d f = true -> evenQuotes tail = true ->
  splitRegex d (f ++ d :: tail) = f :: splitRegex d tail.
Proof.
  intros Hd Hf Htail.
  induction f as [|c rest IH]; simpl.
  - rewrite N.eqb_refl, Htail. reflexivity.
  - simpl in Hf. apply andb_true_iff in Hf as [Hc Hrest].
    rewrite (IH Hrest).
    destruct (c =? d)%N; simpl; [|reflexivity].
    apply negb_true_iff in Hc.
    rewrite evenQuotes_app, (evenQuotes_cons_other d _ Hd), Hc, Htail.
    reflexivity.
Qed.

Lemma evenQuotes_joinFields (d : char) (fields : list jsstring) :
  (d =? DQUOTE)%N = false ->
  forallb (closedField d) fields = true ->
  evenQuotes (joinFields d fields) = true.
Proof.
  intros Hd.
  induction fields as [|f rest IH]; [reflexivity|].
  intros H. simpl in H. apply andb_true_iff in H as [Hf Hrest].
  apply andb_true_iff in Hf as [Hev _].
  destruct rest as [|g rest]; [exact Hev|].
  change (joinFields d (f :: g :: rest))
    with (f ++ d :: joinFields d (g :: rest)).
  rewrite evenQuotes_app, (evenQuotes_cons_other d _ Hd), Hev, (IH Hrest).
  reflexivity.
Qed.

Lemma splitRegex_joinFields (d : char) (fields : list jsstring) :
  (d =? DQUOTE)%N = false -> fields <> [] ->
  forallb (closedField d) fields = true ->
  splitRegex d (joinFields d fields) = fields.
Proof.
  intros Hd.
  induction fields as [|f rest IH]; [congruence|].
  intros _ H. simpl in H. apply andb_true_iff in H as [Hf Hrest].
  apply andb_true_iff in Hf as [_ Hencl].
  destruct rest as [|g rest].
  - apply splitRegex_last_field, Hencl.
  - change (joinFields d (f :: g :: rest))
      with (f ++ d :: joinFields d (g :: rest)).
    rewrite splitRegex_field_then; auto using evenQuotes_joinFields.
    f_equal. apply IH; [discriminate | exact Hrest].
Qed.



(** ** Delimiter detection *)

(** C8, as stated, fails on a tie that does not involve the comma: in
    [a;b|c] the semicolon and the pipe both occur once, which is the
    highest count, and the semicolon is selected. *)
Lemma C8_counterexample_tie_keeps_semicolon :
  tieForHighest (js "a;b|c") /\ detectDelimiter (js "a;b|c") <> COMMA.
Proof.
  split; [|discriminate].
  exists SEMICOLON, PIPE. repeat split; simpl; auto; try discriminate.
  intros c [<-|[<-|[<-|[<-|[]]]]]; vm_compute; lia.
Qed.

(** The scan keeps its state when no candidate beats it, and otherwise
    ends on the first candidate that reaches the highest count. *)
Lemma detect_scan (line : jsstring) (cands : list char) (st : char * nat) :
  let r := fold_left (detectStep line) cands st in
  (r = st /\ forall c, In c cands -> delimiterCount line c <= snd st)
  \/ (exists before after,
         cands = before ++ fst r :: after
         /\ snd r = delimiterCount line (fst r)
         /\ snd st < snd r
         /\ (forall c, In c before -> delimiterCount line c < snd r)
         /\ (forall c, In c after -> delimiterCount line c <= snd r)).
Proof.
  revert st. induction cands as [|c cs IH]; intros st; simpl.
  - left. split; [reflexivity | intros c []].
  - assert (Hstep :
      (snd st < delimiterCount line c
       /\ detectStep line st c = (c, delimiterCount line c))
      \/ (delimiterCount line c <= snd st /\ detectStep line st c = st)).
    { unfold detectStep.
      destruct (Nat.ltb_spec (snd st) (delimiterCount line c)); auto. }
    specialize (IH (detectStep line st c)).
    destruct Hstep as [[Hlt Hst]|[Hge Hst]]; rewrite Hst in *;
      destruct IH as [[Hr Hall]|(b & a & Hcs & Hsnd & Hgt & Hb & Ha)].
    + right. exists [], cs. rewrite Hr. simpl in *.
      repeat split; auto. intros c' [].
    + right. exists (c :: b), a. simpl in *. rewrite Hcs at 1.
      repeat split; auto; try lia.
      intros c' [<-|Hc']; [lia | auto].
    + left. split; [exact Hr|]. intros c' [<-|Hc']; auto.
    + right. exists (c :: b), a. simpl. rewrite Hcs at 1.
      repeat split; auto.
      intros c' [<-|Hc']; [lia | auto].
Qed.

(** C8 (amended). The detector selects the first candidate, in the order
    comma, semicolon, tab, pipe, among those with the highest naive
    occurrence count in the line: every earlier candidate occurs strictly
    less often and every later one at most as often. Hence the comma is
    selected whenever it is among the candidates with the highest count, in
    particular when no candidate occurs at all. *)
Theorem C8_first_candidate_with_highest_count (line : jsstring) :
  let d := detectDelimiter line in
  (exists before after,
      possibleDelimiters = before ++ d :: after
      /\ (forall c, In c before ->
                    delimiterCount line c < delimiterCount line d)
      /\ (forall c, In c after ->
                    delimiterCount line c <= delimiterCount line d))
  /\ ((forall c, In c possibleDelimiters ->
                 delimiterCount line c <= delimiterCount line COMMA) ->
      d = COMMA)
  /\ ((forall c, In c possibleDelimiters -> delimiterCount line c = 0) ->
      d = COMMA).
Proof.
  assert (Hmain : exists before after,
      possibleDelimiters = before ++ detectDelimiter line :: after
      /\ (forall c, In c before ->
            delimiterCount line c < delimiterCount line (detectDelimiter line))
      /\ (forall c, In c after ->
            delimiterCount line c <= delimiterCount line (detectDelimiter line))).
  { unfold detectDelimiter.
    destruct (detect_scan line possibleDelimiters (COMMA, 0))
      as [[Hr Hall]|(b & a & Hcs & Hsnd & _ & Hb & Ha)].
    - rewrite Hr. exists [], [SEMICOLON; TAB; PIPE]. simpl in *.
      repeat split; [intros c [] |].
      intros c Hc. specialize (Hall c (or_intror Hc)). lia.
    - exists b, a. rewrite <- Hsnd. auto. }
  assert (Hcomma : (forall c, In c possibleDelimiters ->
                      delimiterCount line c <= delimiterCount line COMMA) ->
                   detectDelimiter line = COMMA).
  { intros Hmax. destruct Hmain as (before & after & Heq & Hlt & _).
    destruct before as [|b before]; [injection Heq; auto|].
    injection Heq as <- Heq.
    specialize (Hlt COMMA (or_introl eq_refl)).
    assert (Hin : In (detectDelimiter line) possibleDelimiters).
    { unfold possibleDelimiters. right. rewrite Heq.
      apply in_or_app. right. left. reflexivity. }
    specialize (Hmax _ Hin). lia. }
  split; [exact Hmain|]. split; [exact Hcomma|].
  intros Hzero. apply Hcomma. intros c Hc.
  rewrite (Hzero c Hc). lia.
Qed.


(** ** Loops over indices *)

Lemma skipn_cons_nth {A} (l : list A) (k : nat) (d : A) :
  k < length l -> skipn k l = nth k l d :: skipn (S k) l.
Proof.
  revert k. induction l as [|x l IH]; intros k Hk; simpl in Hk; [lia|].
  destruct k as [|k]; [reflexivity|].
  simpl. apply IH. lia.
Qed.

(** A loop [for (i = k; i < k + n; i++)] reading [l[i]] is a fold over the
    slice of [l] it visits. *)
Lemma fold_left_seq_nth {A B} (f : A -> B -> A) (l : list B) (d : B)
  (k n : nat) (a : A) :
  k + n <= length l ->
  fold_left (fun acc i => f acc (nth i l d)) (seq k n) a
  = fold_left f (firstn n (skipn k l)) a.
Proof.
  revert k a. induction n as [|n IH]; intros k a Hk; [reflexivity|].
  rewrite (skipn_cons_nth l k d) by lia. simpl.
  apply IH. lia.
Qed.

Lemma firstn_min_length {A} (l : list A) (n : nat) :
  firstn (Nat.min (length l) n) l = firstn n l.
Proof.
  destruct (Nat.le_ge_cases n (length l)).
  - rewrite Nat.min_r by assumption. reflexivity.
  - rewrite Nat.min_l by assumption.
    rewrite firstn_all, firstn_all2 by assumption. reflexivity.
Qed.

(** ** The structural check *)

Lemma countMalformed_fold (text : jsstring) (rows : list jsstring) (a : nat) :
  fold_left (fun m row =>
               if negb (length (splitLine (delimiterOf text) row)
                        =? length (headersOf text))
               then S m else m) rows a
  = a + length (List.filter (isMalformed text) rows).
Proof.
  revert a. induction rows as [|row rows IH]; intros a; simpl; [lia|].
  rewrite IH. unfold isMalformed at 2.
  destruct (negb _); simpl; lia.
Qed.

Lemma countMalformed_eq (text : jsstring) :
  countMalformed (delimiterOf text) (nonBlankLines text)
                 (length (headersOf text)) (validationLimitOf text)
  = malformedRows text.
Proof.
  unfold countMalformed, malformedStep, malformedRows, validatedRows,
    dataLinesOf.
  destruct (Nat.eq_dec (validationLimitOf text - 1) 0) as [->|Hpos];
    [reflexivity|].
  rewrite (fold_left_seq_nth
             (fun m row =>
                if negb (length (splitLine (delimiterOf text) row)
                         =? length (headersOf text))
                then S m else m)).
  - apply (countMalformed_fold text _ 0).
  - unfold validationLimitOf in *. lia.
Qed.

(** ** Sampling *)

Lemma pushValue_lookup (row : list jsstring) (cv : gmap nat (list jsstring))
  (index i : nat) :
  default [] (pushValue row cv index !! i)
  = default [] (cv !! i) ++ (if decide (i = index) then cell i row else []).
Proof.
  unfold pushValue, cell.
  destruct (decide (i = index)) as [->|Hne].
  - destruct (nth_error row index) as [v|]; [|by rewrite app_nil_r].
    destruct (isEmpty v); simpl; [by rewrite app_nil_r|].
    by rewrite lookup_insert_eq.
  - rewrite app_nil_r.
    destruct (nth_error row index) as [v|]; [|done].
    destruct (isEmpty v); simpl; [done|].
    by rewrite lookup_insert_ne.
Qed.

Lemma pushValues_lookup (row : list jsstring) (indices : list nat)
  (cv : gmap nat (list jsstring)) (i : nat) :
  NoDup indices ->
  default [] (fold_left (pushValue row) indices cv !! i)
  = default [] (cv !! i)
    ++ (if decide (i ∈ indices) then cell i row else []).
Proof.
  revert cv. induction indices as [|index indices IH]; intros cv Hnodup.
  - simpl. by rewrite app_nil_r.
  - apply NoDup_cons in Hnodup as [Hnotin Hnodup]. simpl.
    rewrite IH, pushValue_lookup, <- app_assoc by assumption. f_equal.
    destruct (decide (i = index)) as [->|Hne].
    + rewrite decide_False by assumption.
      rewrite decide_True by (apply elem_of_cons; by left).
      by rewrite app_nil_r.
    + simpl. destruct (decide (i ∈ indices)) as [Hin|Hnin].
      * by rewrite decide_True by (apply elem_of_cons; by right).
      * rewrite decide_False; [done|].
        by intros [?|?]%elem_of_cons.
Qed.

Lemma collectRow_lookup (d : char) (headerCount : nat)
  (cv : gmap nat (list jsstring)) (line : jsstring) (i : nat) :
  i < headerCount ->
  default [] (collectRow d headerCount cv line !! i)
  = default [] (cv !! i) ++ cell i (splitLine d line).
Proof.
  intros Hi. unfold collectRow.
  rewrite pushValues_lookup by apply NoDup_seq.
  rewrite decide_True; [done|]. apply elem_of_seq. lia.
Qed.

Lemma collectRows_lookup (d : char) (headerCount : nat) (lines : list jsstring)
  (cv : gmap nat (list jsstring)) (i : nat) :
  i < headerCount ->
  default [] (fold_left (collectRow d headerCount) lines cv !! i)
  = default [] (cv !! i)
    ++ flat_map (cell i) (List.map (splitLine d) lines).
Proof.
  intros Hi. revert cv.
  induction lines as [|line lines IH]; intros cv; simpl.
  - by rewrite app_nil_r.
  - rewrite IH, collectRow_lookup, <- app_assoc by assumption. done.
Qed.

(** The array the sampling loop leaves for column [i] is the column
    sample. *)
Lemma collectColumnValues_lookup (text : jsstring) (i : nat) :
  i < length (headersOf text) ->
  default [] (collectColumnValues (delimiterOf text)
                (length (headersOf text)) (dataLinesOf text)
                (sampleLimitOf text) !! i)
  = ColumnSample text i.
Proof.
  intros Hi. unfold collectColumnValues.
  rewrite (fold_left_seq_nth
             (collectRow (delimiterOf text) (length (headersOf text))))
    by (unfold sampleLimitOf; simpl; lia).
  rewrite collectRows_lookup by assumption.
  rewrite lookup_empty. simpl.
  unfold ColumnSample, sampleWindow, sampleLimitOf.
  by rewrite firstn_min_length.
Qed.

Lemma cell_length (i : nat) (row : list jsstring) : length (cell i row) <= 1.
Proof.
  unfold cell. destruct (nth_error row i) as [v|]; simpl; [|lia].
  destruct (isEmpty v); simpl; lia.
Qed.

Lemma flat_map_cell_length (i : nat) (rows : list (list jsstring)) :
  length (flat_map (cell i) rows) <= length rows.
Proof.
  induction rows as [|row rows IH]; simpl; [lia|].
  rewrite length_app. pose proof (cell_length i row). lia.
Qed.

Lemma ColumnSample_length (text : jsstring) (i : nat) :
  length (ColumnSample text i) <= sampleLimitOf text.
Proof.
  unfold ColumnSample, sampleWindow, sampleLimitOf.
  etransitivity; [apply flat_map_cell_length|].
  rewrite length_map, length_firstn. lia.
Qed.

Lemma ColumnSample_nonempty_values (text : jsstring) (i : nat) :
  Forall (fun v => isEmpty v = false) (ColumnSample text i).
Proof.
  unfold ColumnSample. apply Forall_flat_map, Forall_forall.
  intros row _. unfold cell.
  destruct (nth_error row i) as [v|]; [|constructor].
  destruct (isEmpty v) eqn:Hv; constructor; [exact Hv | constructor].
Qed.

Lemma size_list_to_set_le (l : list jsstring) :
  size (list_to_set l : gset (jsstring)) <= length l.
Proof.
  induction l as [|x l IH].
  - rewrite list_to_set_nil, size_empty. done.
  - rewrite list_to_set_cons, size_union_alt, size_singleton. simpl.
    assert (Hle : size (list_to_set l ∖ {[x]} : gset (jsstring))
                  <= size (list_to_set l : gset (jsstring))).
    { apply subseteq_size, subseteq_difference_l. done. }
    lia.
Qed.

(** ** The floating-point comparisons of the engine, on their whole range

    The engine compares quotients and products of small counters with the
    doubles nearest to 0.2, 0.8 and 0.6. On the range the counters take
    (at most 100 validated lines, at most 2000 sampled values) each
    comparison is checked case by case against the comparison of integers
    it stands for. *)

Lemma int_of_nat_S (n : nat) : int_of_nat (S n) = (int_of_nat n + 1)%uint63.
Proof.
  apply Uint63.to_Z_inj. unfold int_of_nat.
  rewrite Uint63.add_spec, !Uint63.of_Z_spec, Uint63.to_Z_1, Nat2Z.inj_succ.
  rewrite Zplus_mod_idemp_l. reflexivity.
Qed.

Lemma forallFrom_spec (f : nat -> int -> bool) (n start : nat) :
  forallFrom f n start (int_of_nat start) = true ->
  forall i, start <= i < start + n -> f i (int_of_nat i) = true.
Proof.
  revert start. induction n as [|n IH]; intros start H i Hi; [lia|].
  simpl in H. destruct (f start (int_of_nat start)) eqn:Hf; [|discriminate].
  destruct (Nat.eq_dec i start) as [->|Hne]; [exact Hf|].
  rewrite <- int_of_nat_S in H. apply (IH (S start) H). lia.
Qed.

Lemma wB_value : Uint63.wB = 9223372036854775808%Z.
Proof. reflexivity. Qed.

Lemma to_Z_int_of_nat (n : nat) :
  (Z.of_nat n < 1000000)%Z -> Uint63.to_Z (int_of_nat n) = Z.of_nat n.
Proof.
  intros Hn. unfold int_of_nat. rewrite Uint63.of_Z_spec.
  apply Z.mod_small. rewrite wB_value. lia.
Qed.

(** [a * x < b * y] on machine integers is the comparison of the
    naturals, for small factors. *)
Lemma int_scaled_ltb (a b x y : nat) :
  a <= 10 -> b <= 10 -> x <= 2000 -> y <= 2000 ->
  (int_of_nat a * int_of_nat x <? int_of_nat b * int_of_nat y)%uint63
  = (a * x <? b * y).
Proof.
  intros Ha Hb Hx Hy.
  apply eq_true_iff_eq. rewrite Uint63.ltb_spec, Nat.ltb_lt.
  rewrite !Uint63.mul_spec, !to_Z_int_of_nat by lia.
  rewrite !Z.mod_small by (rewrite wB_value; nia). nia.
Qed.

(** *** [malformedCount > validationLimit * 0.2] *)

Lemma fifthCheck_all :
  forallFrom (fun _ limit => forallFrom (fun _ m => fifthCheck limit m)
                                        101 0 0%uint63)
             101 0 0%uint63 = true.
Proof. vm_compute. reflexivity. Qed.

Lemma tooManyMalformed_spec (malformedCount validationLimit : nat) :
  validationLimit <= 100 -> malformedCount <= 100 ->
  tooManyMalformed malformedCount validationLimit
  = (validationLimit <? 5 * malformedCount).
Proof.
  intros Hv Hm.
  pose proof (forallFrom_spec _ _ 0 fifthCheck_all validationLimit
                ltac:(lia)) as H.
  pose proof (forallFrom_spec _ _ 0 H malformedCount ltac:(lia)) as H'.
  unfold fifthCheck in H'. apply eqb_prop in H'.
  unfold tooManyMalformed, num_of_nat. fold (int_of_nat validationLimit).
  fold (int_of_nat malformedCount). rewrite H'.
  change 1%uint63 with (int_of_nat 1). change 5%uint63 with (int_of_nat 5).
  rewrite int_scaled_ltb by lia. f_equal. lia.
Qed.

(** *** [count / rawValues.length > 0.8] and [> 0.6] *)

Lemma shareCheck_all :
  forallFrom (fun n len => forallFrom (fun _ count => shareCheck len count)
                                      (S n) 0 0%uint63)
             2000 1 1%uint63 = true.
Proof. vm_compute. reflexivity. Qed.

Lemma share_spec (count len : nat) :
  1 <= len <= 2000 -> count <= len ->
  (0.8 <? num_of_nat count / num_of_nat len)%float = (4 * len <? 5 * count)
  /\ (0.6 <? num_of_nat count / num_of_nat len)%float
     = (3 * len <? 5 * count).
Proof.
  intros Hlen Hcount.
  pose proof (forallFrom_spec _ _ 1 shareCheck_all len ltac:(lia)) as H.
  pose proof (forallFrom_spec _ _ 0 H count ltac:(lia)) as H'.
  unfold shareCheck in H'. apply andb_true_iff in H' as [H8 H6].
  apply eqb_prop in H8, H6.
  unfold num_of_nat. fold (int_of_nat count). fold (int_of_nat len).
  rewrite H8, H6.
  change 4%uint63 with (int_of_nat 4). change 3%uint63 with (int_of_nat 3).
  change 5%uint63 with (int_of_nat 5).
  rewrite !int_scaled_ltb by lia. split; reflexivity.
Qed.

(** *** [Math.floor(length * 0.25)], [* 0.5], [* 0.75] *)

Lemma quartileCheck_all : forallFrom quartileCheck 2001 0 0%uint63 = true.
Proof. vm_compute. reflexivity. Qed.

Lemma quartile_index_spec (n : nat) :
  n <= 2000 ->
  floorIndex (num_of_nat n * 0.25)%float = Some (n / 4)
  /\ floorIndex (num_of_nat n * 0.5)%float = Some (n / 2)
  /\ floorIndex (num_of_nat n * 0.75)%float = Some (3 * n / 4).
Proof.
  intros Hn.
  pose proof (forallFrom_spec _ _ 0 quartileCheck_all n ltac:(lia)) as H.
  unfold quartileCheck in H. unfold num_of_nat. fold (int_of_nat n).
  destruct (floorIndex (PrimFloat.of_uint63 (int_of_nat n) * 0.25)%float)
    as [a|]; [|discriminate].
  destruct (floorIndex (PrimFloat.of_uint63 (int_of_nat n) * 0.5)%float)
    as [b|]; [|discriminate].
  destruct (floorIndex (PrimFloat.of_uint63 (int_of_nat n) * 0.75)%float)
    as [c|]; [|discriminate].
  apply andb_true_iff in H as [H Hc]. apply andb_true_iff in H as [Ha Hb].
  apply Nat.eqb_eq in Ha, Hb, Hc. subst. auto.
Qed.

(** ** The order of doubles

    The comparisons of primitive floats are those of their images under
    [Prim2SF]; the facts below are read off [SFcompare]. *)

Lemma SFcompare_refl (x : spec_float) :
  x <> S754_nan -> SFcompare x x = Some Eq.
Proof.
  destruct x as [s|s| |s m e]; intros H; try congruence;
    destruct s; simpl; try reflexivity;
    change (Pos.compare_cont Eq) with Pos.compare;
    rewrite Z.compare_refl, Pos.compare_refl; reflexivity.
Qed.

Lemma SFcompare_antisym (x y : spec_float) :
  SFcompare y x = option_map CompOpp (SFcompare x y).
Proof.
  destruct x as [s|s| |s m e], y as [s'|s'| |s' m' e'];
    try destruct s; try destruct s'; simpl; try reflexivity;
    change (Pos.compare_cont Eq) with Pos.compare;
    rewrite (Z.compare_antisym e e'), (Pos.compare_antisym m m');
    destruct (e ?= e')%Z, (m ?= m')%positive; reflexivity.
Qed.

Lemma SFleb_trans (x y z : spec_float) :
  SFleb x y = true -> SFleb y z = true -> SFleb x z = true.
Proof.
  unfold SFleb.
  destruct x as [s|s| |s m e], y as [s'|s'| |s' m' e'],
           z as [s''|s''| |s'' m'' e''];
    try destruct s; try destruct s'; try destruct s'';
    simpl; try discriminate; try reflexivity;
    change (Pos.compare_cont Eq) with Pos.compare;
    destruct (Z.compare_spec e e'); try discriminate;
    destruct (Z.compare_spec e' e''); try discriminate;
    destruct (Z.compare_spec e e''); try lia; try reflexivity;
    subst;
    destruct (Pos.compare_spec m m'); simpl; try discriminate;
    destruct (Pos.compare_spec m' m''); simpl; try discriminate;
    destruct (Pos.compare_spec m m''); simpl; try lia; reflexivity.
Qed.

Lemma isNaN_spec (x : float) :
  isNaN x = match Prim2SF x with S754_nan => true | _ => false end.
Proof.
  unfold isNaN. rewrite FloatAxioms.eqb_spec. unfold SFeqb.
  destruct (Prim2SF x) eqn:Hx; try reflexivity;
    rewrite SFcompare_refl by discriminate; reflexivity.
Qed.

Lemma notNaN_Prim2SF (x : float) : isNaN x = false -> Prim2SF x <> S754_nan.
Proof. rewrite isNaN_spec. intros H Hx. rewrite Hx in H. discriminate. Qed.

Lemma leb_refl (x : float) : isNaN x = false -> (x <=? x)%float = true.
Proof.
  intros H. rewrite FloatAxioms.leb_spec. unfold SFleb.
  rewrite SFcompare_refl by (apply notNaN_Prim2SF, H). reflexivity.
Qed.

Lemma leb_trans (x y z : float) :
  (x <=? y)%float = true -> (y <=? z)%float = true -> (x <=? z)%float = true.
Proof. rewrite !FloatAxioms.leb_spec. apply SFleb_trans. Qed.

Lemma ltb_leb (x y : float) : (x <? y)%float = true -> (x <=? y)%float = true.
Proof.
  rewrite FloatAxioms.ltb_spec, FloatAxioms.leb_spec. unfold SFltb, SFleb.
  destruct (SFcompare _ _) as [[]|]; congruence.
Qed.

(** The order is total on numbers that are not [NaN]. *)
Lemma not_ltb_leb (x y : float) :
  isNaN x = false -> isNaN y = false ->
  (x <? y)%float = false -> (y <=? x)%float = true.
Proof.
  intros Hx Hy. rewrite FloatAxioms.ltb_spec, FloatAxioms.leb_spec. unfold SFltb, SFleb.
  rewrite (SFcompare_antisym (Prim2SF x) (Prim2SF y)).
  apply notNaN_Prim2SF in Hx, Hy.
  destruct (Prim2SF x) as [s|s| |s m e], (Prim2SF y) as [s'|s'| |s' m' e'];
    try congruence;
    destruct (SFcompare _ _) as [[]|] eqn:Hc; simpl; try congruence;
    destruct s; try destruct s'; discriminate.
Qed.

Lemma eqb_leb (x y : float) : (x =? y)%float = true -> (x <=? y)%float = true.
Proof.
  rewrite FloatAxioms.eqb_spec, FloatAxioms.leb_spec. unfold SFeqb, SFleb.
  destruct (SFcompare _ _) as [[]|]; congruence.
Qed.

Lemma eqb_sym (x y : float) : (x =? y)%float = (y =? x)%float.
Proof.
  rewrite !FloatAxioms.eqb_spec. unfold SFeqb.
  rewrite (SFcompare_antisym (Prim2SF x) (Prim2SF y)).
  destruct (SFcompare _ _) as [[]|]; reflexivity.
Qed.

(** Nothing but [+Infinity] itself fails to be below [+Infinity]. *)
Lemma not_below_infinity (x : float) :
  isNaN x = false -> (x <? infinity)%float = false -> x = infinity.
Proof.
  intros Hx. rewrite FloatAxioms.ltb_spec. unfold SFltb.
  apply notNaN_Prim2SF in Hx. intros H.
  apply Prim2SF_inj. change (Prim2SF infinity) with (S754_infinity false).
  destruct (Prim2SF x) as [s|s| |s m e]; try congruence;
    destruct s; simpl in H; try discriminate; reflexivity.
Qed.

Lemma not_above_neg_infinity (x : float) :
  isNaN x = false -> (neg_infinity <? x)%float = false -> x = neg_infinity.
Proof.
  intros Hx. rewrite FloatAxioms.ltb_spec. unfold SFltb.
  apply notNaN_Prim2SF in Hx. intros H.
  apply Prim2SF_inj. change (Prim2SF neg_infinity) with (S754_infinity true).
  destruct (Prim2SF x) as [s|s| |s m e]; try congruence;
    destruct s; simpl in H; try discriminate; reflexivity.
Qed.

(** *** [Math.min] and [Math.max] *)

Lemma minStep_spec (lowest x : float) :
  isNaN lowest = false -> isNaN x = false ->
  let r := minStep lowest x in
  isNaN r = false /\ (r = lowest \/ r = x)
  /\ (r <=? lowest)%float = true /\ (r <=? x)%float = true.
Proof.
  intros Hl Hx. unfold minStep. rewrite Hl, Hx.
  destruct (isNegativeZero x && isPositiveZero lowest) eqn:Hz.
  - apply andb_true_iff in Hz as [Hnz Hpz].
    unfold isNegativeZero in Hnz. unfold isPositiveZero in Hpz.
    apply andb_true_iff in Hnz as [Hx0 _]. apply andb_true_iff in Hpz as [Hl0 _].
    repeat split; auto using leb_refl.
    apply leb_trans with zero; [apply eqb_leb, Hx0|].
    apply eqb_leb. rewrite eqb_sym. exact Hl0.
  - destruct (x <? lowest)%float eqn:Hlt.
    + repeat split; auto using leb_refl, ltb_leb.
    + repeat split; auto using leb_refl, not_ltb_leb.
Qed.

Lemma maxStep_spec (highest x : float) :
  isNaN highest = false -> isNaN x = false ->
  let r := maxStep highest x in
  isNaN r = false /\ (r = highest \/ r = x)
  /\ (highest <=? r)%float = true /\ (x <=? r)%float = true.
Proof.
  intros Hh Hx. unfold maxStep. rewrite Hh, Hx.
  destruct (isPositiveZero x && isNegativeZero highest) eqn:Hz.
  - apply andb_true_iff in Hz as [Hpz Hnz].
    unfold isNegativeZero in Hnz. unfold isPositiveZero in Hpz.
    apply andb_true_iff in Hnz as [Hh0 _]. apply andb_true_iff in Hpz as [Hx0 _].
    repeat split; auto using leb_refl.
    apply leb_trans with zero; [apply eqb_leb, Hh0|].
    apply eqb_leb. rewrite eqb_sym. exact Hx0.
  - destruct (highest <? x)%float eqn:Hlt.
    + repeat split; auto using leb_refl, ltb_leb.
    + repeat split; auto using leb_refl, not_ltb_leb.
Qed.

Lemma fold_minStep (values : list float) (lowest : float) :
  isNaN lowest = false -> Forall (fun x => isNaN x = false) values ->
  let r := fold_left minStep values lowest in
  isNaN r = false /\ (r = lowest \/ In r values)
  /\ (r <=? lowest)%float = true
  /\ Forall (fun x => (r <=? x)%float = true) values.
Proof.
  intros Hl Hvalues. revert lowest Hl.
  induction Hvalues as [|x values Hx _ IH]; intros lowest Hl; simpl.
  - repeat split; auto using leb_refl.
  - destruct (minStep_spec lowest x Hl Hx) as (Hn & Hor & Hle1 & Hle2).
    destruct (IH _ Hn) as (Hn' & Hor' & Hle' & Hall).
    repeat split; auto.
    + destruct Hor' as [->|Hin]; [|auto]. destruct Hor as [->| ->]; auto.
    + eauto using leb_trans.
    + constructor; [eauto using leb_trans | exact Hall].
Qed.

Lemma fold_maxStep (values : list float) (highest : float) :
  isNaN highest = false -> Forall (fun x => isNaN x = false) values ->
  let r := fold_left maxStep values highest in
  isNaN r = false /\ (r = highest \/ In r values)
  /\ (highest <=? r)%float = true
  /\ Forall (fun x => (x <=? r)%float = true) values.
Proof.
  intros Hh Hvalues. revert highest Hh.
  induction Hvalues as [|x values Hx _ IH]; intros highest Hh; simpl.
  - repeat split; auto using leb_refl.
  - destruct (maxStep_spec highest x Hh Hx) as (Hn & Hor & Hle1 & Hle2).
    destruct (IH _ Hn) as (Hn' & Hor' & Hle' & Hall).
    repeat split; auto.
    + destruct Hor' as [->|Hin]; [|auto]. destruct Hor as [->| ->]; auto.
    + eauto using leb_trans.
    + constructor; [eauto using leb_trans | exact Hall].
Qed.

(** [Math.min] of numbers, at least one, is one of them and is below all
    of them. *)
Lemma Math_min_spec (values : list float) :
  values <> [] -> Forall (fun x => isNaN x = false) values ->
  In (Math_min values) values
  /\ Forall (fun x => (Math_min values <=? x)%float = true) values.
Proof.
  intros Hne Hvalues. unfold Math_min.
  destruct (fold_minStep values infinity eq_refl Hvalues)
    as (Hn & Hor & _ & Hall).
  split; [|exact Hall].
  destruct Hor as [Hinf|Hin]; [|exact Hin].
  destruct values as [|x values]; [congruence|].
  rewrite Hinf in *. inversion Hall as [|? ? Hx _]; subst.
  inversion Hvalues as [|? ? Hxn _]; subst.
  left. apply not_below_infinity; [exact Hxn|].
  destruct (x <? infinity)%float eqn:Hlt; [|reflexivity].
  rewrite FloatAxioms.ltb_spec in Hlt. rewrite FloatAxioms.leb_spec in Hx.
  unfold SFltb, SFleb in *.
  rewrite (SFcompare_antisym (Prim2SF x) (Prim2SF infinity)) in Hx.
  destruct (SFcompare _ _) as [[]|]; simpl in *; congruence.
Qed.

Lemma Math_max_spec (values : list float) :
  values <> [] -> Forall (fun x => isNaN x = false) values ->
  In (Math_max values) values
  /\ Forall (fun x => (x <=? Math_max values)%float = true) values.
Proof.
  intros Hne Hvalues. unfold Math_max.
  destruct (fold_maxStep values neg_infinity eq_refl Hvalues)
    as (Hn & Hor & _ & Hall).
  split; [|exact Hall].
  destruct Hor as [Hinf|Hin]; [|exact Hin].
  destruct values as [|x values]; [congruence|].
  rewrite Hinf in *. inversion Hall as [|? ? Hx _]; subst.
  inversion Hvalues as [|? ? Hxn _]; subst.
  left. apply not_above_neg_infinity; [exact Hxn|].
  destruct (neg_infinity <? x)%float eqn:Hlt; [|reflexivity].
  rewrite FloatAxioms.ltb_spec in Hlt. rewrite FloatAxioms.leb_spec in Hx.
  unfold SFltb, SFleb in *.
  rewrite (SFcompare_antisym (Prim2SF neg_infinity) (Prim2SF x)) in Hx.
  destruct (SFcompare _ _) as [[]|]; simpl in *; congruence.
Qed.

(** ** The sign of a difference of doubles

    [numericParsed.sort((a, b) => a - b)] orders by the sign of a rounded
    difference. For doubles that are not [NaN] the rounded difference is
    negative, or zero, exactly when the minuend is below, or equal to, the
    subtrahend: a non-zero difference of two canonical mantissas aligned on
    an exponent that is at least [emin] never rounds to zero. *)

Lemma fexp_binary64 (e : Z) :
  fexp prec emax e = Z.max (e - 53) (-1074).
Proof. reflexivity. Qed.

Lemma digits2_pos_size (m : positive) : digits2_pos m = Pos.size m.
Proof. induction m; simpl; congruence. Qed.

Lemma digits2_pos_bounds (m : positive) :
  (2 ^ (Zpos (digits2_pos m) - 1) <= Zpos m < 2 ^ Zpos (digits2_pos m))%Z.
Proof.
  rewrite digits2_pos_size.
  pose proof (Pos.size_gt m) as Hgt. pose proof (Pos.size_le m) as Hle.
  assert (Hpow : (Zpos (2 ^ Pos.size m) = 2 ^ Zpos (Pos.size m))%Z)
    by apply Pos2Z.inj_pow.
  assert (Hsplit : (2 ^ Zpos (Pos.size m)
                    = 2 * 2 ^ (Zpos (Pos.size m) - 1))%Z).
  { rewrite <- Z.pow_succ_r by lia. f_equal. lia. }
  split; lia.
Qed.

Lemma shl_align_value (m : positive) (e e' : Z) :
  (e' <= e)%Z ->
  Zpos (fst (shl_align m e e')) = (Zpos m * 2 ^ (e - e'))%Z.
Proof.
  intros Hle. unfold shl_align.
  destruct (e' - e)%Z as [|d|d] eqn:Hd; try lia.
  - replace (e - e')%Z with 0%Z by lia. simpl. lia.
  - replace (e - e')%Z with (Zpos d) by lia. simpl fst.
    clear. induction d as [|d IH] using Pos.peano_ind.
    + simpl. lia.
    + rewrite Pos.iter_succ, Pos2Z.inj_succ, Z.pow_succ_r by lia.
      rewrite Pos2Z.inj_xO, IH. lia.
Qed.

Lemma shl_align_exponent (m : positive) (e e' : Z) :
  snd (shl_align m e e') = Z.min e e'.
Proof.
  unfold shl_align. destruct (e' - e)%Z eqn:Hd; simpl; lia.
Qed.

Lemma shr_1_m (r : shr_record) :
  (0 <= shr_m r)%Z -> shr_m (shr_1 r) = (shr_m r / 2)%Z.
Proof.
  destruct r as [m r s]. simpl. intros Hm.
  destruct m as [|[p|p|]|p]; simpl; try lia; try reflexivity.
  - rewrite Pos2Z.inj_xI.
    apply Z.div_unique with (r := 1%Z); lia.
  - rewrite Pos2Z.inj_xO.
    apply Z.div_unique with (r := 0%Z); lia.
Qed.

Lemma pow2_xO (n : positive) :
  (2 ^ Zpos n~0 = 2 ^ Zpos n * 2 ^ Zpos n)%Z.
Proof.
  replace (Zpos n~0) with (Zpos n + Zpos n)%Z by lia.
  apply Z.pow_add_r; lia.
Qed.

Lemma pow2_xI (n : positive) :
  (2 ^ Zpos n~1 = 2 * (2 ^ Zpos n * 2 ^ Zpos n))%Z.
Proof.
  replace (Zpos n~1) with (1 + (Zpos n + Zpos n))%Z by lia.
  rewrite !Z.pow_add_r by lia. reflexivity.
Qed.

Lemma iter_shr_1_m (n : positive) (r : shr_record) :
  (0 <= shr_m r)%Z ->
  shr_m (SpecFloat.iter_pos shr_1 n r) = (shr_m r / 2 ^ Zpos n)%Z.
Proof.
  revert r.
  induction n as [n IH|n IH|]; intros r Hr; simpl SpecFloat.iter_pos.
  - assert (H1 : (0 <= shr_m (shr_1 r))%Z)
      by (rewrite shr_1_m by lia; apply Z.div_pos; lia).
    assert (H2 : (0 <= shr_m (SpecFloat.iter_pos shr_1 n (shr_1 r)))%Z)
      by (rewrite IH by lia; apply Z.div_pos; lia).
    rewrite IH, IH, shr_1_m by lia.
    rewrite !Z.div_div by lia. rewrite pow2_xI. f_equal; lia.
  - assert (H1 : (0 <= shr_m (SpecFloat.iter_pos shr_1 n r))%Z)
      by (rewrite IH by lia; apply Z.div_pos; lia).
    rewrite IH, IH by lia.
    rewrite Z.div_div by lia. rewrite pow2_xO. reflexivity.
  - rewrite shr_1_m by lia. reflexivity.
Qed.

(** Shifting a positive mantissa into the format of an exponent that is at
    least [emin] leaves a positive mantissa. *)
Lemma shr_fexp_positive (m : positive) (e : Z) (l : location) :
  (-1074 <= e)%Z ->
  let '(mrs, e') := shr_fexp prec emax (Zpos m) e l in
  (0 < shr_m mrs)%Z /\ (-1074 <= e')%Z.
Proof.
  intros He. unfold shr_fexp, shr.
  rewrite fexp_binary64. cbn [Zdigits2].
  pose proof (digits2_pos_bounds m) as [Hlow _].
  set (d := Zpos (digits2_pos m)) in *.
  destruct (Z.max (d + e - 53) (-1074) - e)%Z as [|n|n] eqn:Hn.
  - destruct l as [|[]]; simpl; lia.
  - assert (Hnd : Zpos n = (d - 53)%Z) by lia.
    split; [|lia].
    rewrite iter_shr_1_m by (destruct l as [|[]]; simpl; lia).
    replace (shr_m (shr_record_of_loc (Zpos m) l)) with (Zpos m)
      by (destruct l as [|[]]; reflexivity).
    apply Z.lt_le_trans with (2 ^ 52)%Z; [reflexivity|].
    apply Z.div_le_lower_bound; [apply Z.pow_pos_nonneg; lia|].
    rewrite <- Z.pow_add_r by lia.
    replace (Zpos n + 52)%Z with (d - 1)%Z by lia. exact Hlow.
  - destruct l as [|[]]; simpl; lia.
Qed.

Lemma round_nearest_even_positive (m : Z) (l : location) :
  (0 < m)%Z -> (0 < round_nearest_even m l)%Z.
Proof.
  intros Hm. destruct l as [|[]]; simpl; try lia.
  destruct (Z.even m); lia.
Qed.

(** Rounding a positive mantissa at an exponent that is at least [emin]
    yields a finite number or an infinity of the given sign. *)
Lemma binary_round_aux_sign (s : bool) (m : positive) (e : Z) (l : location) :
  (-1074 <= e)%Z ->
  match binary_round_aux prec emax s (Zpos m) e l with
  | S754_finite s' _ _ | S754_infinity s' => s' = s
  | _ => False
  end.
Proof.
  intros He. unfold binary_round_aux.
  pose proof (shr_fexp_positive m e l He) as H1.
  destruct (shr_fexp prec emax (Zpos m) e l) as [mrs' e'].
  destruct H1 as [Hm' He'].
  pose proof (round_nearest_even_positive _ (loc_of_shr_record mrs') Hm')
    as Hr.
  destruct (round_nearest_even (shr_m mrs') (loc_of_shr_record mrs'))
    as [|m1|m1]; try lia.
  pose proof (shr_fexp_positive m1 e' loc_Exact He') as H2.
  destruct (shr_fexp prec emax (Zpos m1) e' loc_Exact) as [mrs'' e''].
  destruct H2 as [Hm'' _].
  destruct (shr_m mrs'') as [|m2|m2]; try lia.
  destruct (e'' <=? emax - prec)%Z; reflexivity.
Qed.

Lemma binary_round_sign (s : bool) (m : positive) (e : Z) :
  (-1074 <= e)%Z ->
  match binary_round prec emax s m e with
  | S754_finite s' _ _ | S754_infinity s' => s' = s
  | _ => False
  end.
Proof.
  intros He. unfold binary_round.
  pose proof (shl_align_exponent m e
                (fexp prec emax (Zpos (digits2_pos m) + e))) as Hsnd.
  destruct (shl_align m e (fexp prec emax (Zpos (digits2_pos m) + e)))
    as [mz ez].
  simpl in Hsnd. apply binary_round_aux_sign.
  rewrite fexp_binary64 in Hsnd. lia.
Qed.

(** What validity says of a finite double. *)
Lemma valid_finite (s : bool) (m : positive) (e : Z) :
  SpecFloat.valid_binary prec emax (S754_finite s m e) = true ->
  (-1074 <= e)%Z /\ (Zpos m < 2 ^ 53)%Z
  /\ ((-1074 < e)%Z -> (2 ^ 52 <= Zpos m)%Z).
Proof.
  unfold SpecFloat.valid_binary, bounded, canonical_mantissa.
  rewrite fexp_binary64. intros H.
  apply andb_true_iff in H as [H _]. apply Z.eqb_eq in H.
  pose proof (digits2_pos_bounds m) as [Hlow Hhigh].
  set (d := Zpos (digits2_pos m)) in *.
  split; [lia|]. split.
  - apply Z.lt_le_trans with (2 ^ d)%Z; [exact Hhigh|].
    apply Z.pow_le_mono_r; lia.
  - intros He. replace d with 53%Z in Hlow by lia. exact Hlow.
Qed.

Lemma comparatorLe_spec (x : float) :
  comparatorLe x = differenceLe (Prim2SF x).
Proof.
  unfold comparatorLe. rewrite isNaN_spec, FloatAxioms.leb_spec.
  change (Prim2SF zero) with (S754_zero false).
  destruct (Prim2SF x) as [s|s| |s m e]; try reflexivity;
    destruct s; reflexivity.
Qed.

Lemma pow2_ge_2 (k : Z) : (0 < k)%Z -> (2 <= 2 ^ k)%Z.
Proof.
  intros Hk. change 2%Z with (2 ^ 1)%Z at 1.
  apply Z.pow_le_mono_r; lia.
Qed.

(** The sign of the aligned difference of two valid finite doubles is that
    of their comparison. *)
Lemma SFleb_finite (sx sy : bool) (mx my : positive) (ex ey : Z) :
  SpecFloat.valid_binary prec emax (S754_finite sx mx ex) = true ->
  SpecFloat.valid_binary prec emax (S754_finite sy my ey) = true ->
  let ez := Z.min ex ey in
  let d := (cond_Zopp sx (Zpos (fst (shl_align mx ex ez)))
            - cond_Zopp sy (Zpos (fst (shl_align my ey ez))))%Z in
  SFleb (S754_finite sx mx ex) (S754_finite sy my ey) = (d <=? 0)%Z.
Proof.
  intros Hx Hy ez d. subst d.
  apply valid_finite in Hx as (Hex & Hmx & Hnx).
  apply valid_finite in Hy as (Hey & Hmy & Hny).
  rewrite !shl_align_value by (subst ez; lia).
  unfold SFleb, SFcompare.
  change (Pos.compare_cont Eq) with Pos.compare.
  change (2 ^ 53)%Z with 9007199254740992%Z in *.
  change (2 ^ 52)%Z with 4503599627370496%Z in *.
  destruct (Z.compare_spec ex ey) as [Heq|Hlt|Hgt].
  - subst ey. replace ez with ex by (subst ez; lia).
    rewrite Z.sub_diag, !Z.mul_1_r.
    destruct sx, sy; simpl;
      destruct (Pos.compare_spec mx my); simpl;
      symmetry; try (apply Z.leb_le; lia); try (apply Z.leb_gt; lia).
  - replace ez with ex by (subst ez; lia).
    rewrite Z.sub_diag, Z.mul_1_r.
    pose proof (pow2_ge_2 (ey - ex) ltac:(lia)) as Hp.
    specialize (Hny ltac:(lia)).
    destruct sx, sy; simpl; symmetry;
      try (apply Z.leb_le; nia); try (apply Z.leb_gt; nia).
  - replace ez with ey by (subst ez; lia).
    rewrite Z.sub_diag, Z.mul_1_r.
    pose proof (pow2_ge_2 (ex - ey) ltac:(lia)) as Hp.
    specialize (Hnx ltac:(lia)).
    destruct sx, sy; simpl; symmetry;
      try (apply Z.leb_le; nia); try (apply Z.leb_gt; nia).
Qed.

Lemma SFsub_differenceLe (x y : spec_float) :
  SpecFloat.valid_binary prec emax x = true -> SpecFloat.valid_binary prec emax y = true ->
  x <> S754_nan -> y <> S754_nan ->
  differenceLe (SFsub prec emax x y) = SFleb x y.
Proof.
  intros Hx Hy Hnx Hny.
  destruct x as [sx|sx| |sx mx ex], y as [sy|sy| |sy my ey];
    try congruence;
    try (destruct sx, sy; reflexivity);
    try (destruct sx; reflexivity);
    try (destruct sy; reflexivity).
  rewrite SFleb_finite by assumption.
  unfold SFsub.
  assert (Hez : (-1074 <= Z.min ex ey)%Z).
  { apply valid_finite in Hx as (Hex & _). apply valid_finite in Hy as (Hey & _).
    lia. }
  set (d := (cond_Zopp sx (Zpos (fst (shl_align mx ex (Z.min ex ey))))
             - cond_Zopp sy (Zpos (fst (shl_align my ey (Z.min ex ey)))))%Z).
  unfold binary_normalize.
  destruct d as [|p|p] eqn:Hd; [reflexivity| |].
  - pose proof (binary_round_sign false p _ Hez) as Hs.
    destruct (binary_round prec emax false p (Z.min ex ey));
      simpl; try contradiction; subst; reflexivity.
  - pose proof (binary_round_sign true p _ Hez) as Hs.
    destruct (binary_round prec emax true p (Z.min ex ey));
      simpl; try contradiction; subst; reflexivity.
Qed.

(** The comparator [(a, b) => a - b] agrees with [a <= b]. *)
Lemma comparator_sub_le (a b : float) :
  isNaN a = false -> isNaN b = false ->
  comparatorLe (a - b)%float = (a <=? b)%float.
Proof.
  intros Ha Hb.
  rewrite comparatorLe_spec, FloatAxioms.sub_spec, FloatAxioms.leb_spec.
  apply SFsub_differenceLe; auto using Prim2SF_valid, notNaN_Prim2SF.
Qed.

(** ** Sorting *)

Lemma sortInsert_perm {A} (comparefn : A -> A -> float) (x : A) (l : list A) :
  Permutation (sortInsert comparefn x l) (x :: l).
Proof.
  induction l as [|y l IH]; simpl; [reflexivity|].
  destruct (comparatorLe (comparefn x y)); [reflexivity|].
  rewrite IH. apply perm_swap.
Qed.

Lemma sort_perm {A} (comparefn : A -> A -> float) (l : list A) :
  Permutation (sort comparefn l) l.
Proof.
  induction l as [|x l IH]; simpl; [reflexivity|].
  rewrite sortInsert_perm, IH. reflexivity.
Qed.

Lemma sortInsert_ascending (x : float) (l : list float) :
  isNaN x = false -> Forall (fun y => isNaN y = false) l ->
  ascending l ->
  ascending (sortInsert (fun a b => (a - b)%float) x l).
Proof.
  intros Hx Hl Hsorted.
  induction Hsorted as [|y l Hsorted IH Hy]; simpl.
  - repeat constructor.
  - inversion Hl as [|? ? Hyn Hl']; subst.
    rewrite comparator_sub_le by assumption.
    destruct (x <=? y)%float eqn:Hxy.
    + constructor; [constructor; assumption|].
      constructor; [exact Hxy|].
      eapply List.Forall_impl; [|exact Hy].
      intros z Hz. simpl in Hz. eauto using leb_trans.
    + constructor; [apply IH, Hl'|].
      eapply Permutation_Forall; [symmetry; apply sortInsert_perm|].
      constructor; [|exact Hy].
      destruct (y <? x)%float eqn:Hlt; [apply ltb_leb, Hlt|].
      apply not_ltb_leb in Hlt; [congruence | assumption..].
Qed.

(** [numericParsed.sort((a, b) => a - b)] leaves the numbers in ascending
    order. *)
Lemma sortAscending_spec (values : list float) :
  Forall (fun x => isNaN x = false) values ->
  Permutation (sortAscending values) values
  /\ ascending (sortAscending values).
Proof.
  intros Hvalues. split; [apply sort_perm|].
  unfold sortAscending.
  induction Hvalues as [|x values Hx Hvalues IH]; simpl; [constructor|].
  apply sortInsert_ascending; [exact Hx| |exact IH].
  eapply Permutation_Forall; [symmetry; apply sort_perm | exact Hvalues].
Qed.
(** ** Histogram *)

(** A zero-width range never has a positive step: the difference of a
    double with itself is a zero or [NaN]. *)
Lemma step_of_empty_range (x : float) :
  (zero <? (x - x) / num_of_nat binCount)%float = false.
Proof.
  rewrite FloatAxioms.ltb_spec, FloatAxioms.div_spec, FloatAxioms.sub_spec.
  change (Prim2SF zero) with (S754_zero false).
  change (Prim2SF (num_of_nat binCount))
    with (S754_finite false 5629499534213120 (-49)).
  unfold SF64div, SF64sub.
  destruct (Prim2SF x) as [s|s| |s m e];
    [destruct s; reflexivity | destruct s; reflexivity | reflexivity |].
  unfold SFsub. cbn zeta.
  match goal with
  | |- context [binary_normalize _ _ ?d _ _] => replace d with 0%Z by lia
  end.
  reflexivity.
Qed.

(** When min equals max the histogram is the single bin holding every
    value. *)
Lemma buildHistogram_single_bin (label single : float -> jsstring)
  (values : list float) (x : float) :
  buildHistogram label single values x x
  = [Bin.mk (single x) (length values)].
Proof. unfold buildHistogram. rewrite step_of_empty_range. reflexivity. Qed.

(** ** The equations of the engine *)

Section Equations.
Variable Date_parse : jsstring -> number.
Variable toFixed1 : number -> jsstring.
Variable numberToString : number -> jsstring.
Variable isoDay : number -> jsstring.

Lemma tallyValue_eq (t : Tally) (v : jsstring) :
  tallyValue Date_parse t v =
  let n := Number v in
  let t1 :=
    if negb (isNaN n) && negb (isEmpty v)
    then mkTally (S (numericCount t)) (dateCount t)
                 (numericParsed t ++ [n]) (dateParsed t)
    else t in
  if (5 <? length v) && negb (negb (isNaN (Number v))) then
    let d := Date_parse v in
    if negb (isNaN d)
    then mkTally (numericCount t1) (S (dateCount t1))
                 (numericParsed t1) (dateParsed t1 ++ [d])
    else t1
  else t1.
Proof. reflexivity. Qed.

Lemma tally_eq (rawValues : list jsstring) :
  tally Date_parse rawValues
  = fold_left (tallyValue Date_parse) rawValues (mkTally 0 0 [] []).
Proof. reflexivity. Qed.

Lemma isNumeric_eq (rawValues : list jsstring) :
  isNumeric Date_parse rawValues
  = ((0 <? length rawValues)
     && (0.8 <? num_of_nat (numericCount (tally Date_parse rawValues))
                / num_of_nat (length rawValues))%float).
Proof. reflexivity. Qed.

Lemma isDate_eq (rawValues : list jsstring) :
  isDate Date_parse rawValues
  = (negb (isNumeric Date_parse rawValues)
     && ((0 <? length rawValues)
         && (0.6 <? num_of_nat (dateCount (tally Date_parse rawValues))
                    / num_of_nat (length rawValues))%float)).
Proof. reflexivity. Qed.

Lemma columnType_eq (rawValues : list jsstring) :
  columnType Date_parse rawValues
  = if isNumeric Date_parse rawValues then type_numeric
    else if isDate Date_parse rawValues then type_date
    else type_string.
Proof. reflexivity. Qed.

Lemma columnStats_eq (rawValues : list jsstring) :
  columnStats Date_parse toFixed1 numberToString isoDay rawValues
  = if isNumeric Date_parse rawValues
    then numericStats toFixed1 numberToString
           (numericParsed (tally Date_parse rawValues))
    else if isDate Date_parse rawValues
    then dateStats isoDay (dateParsed (tally Date_parse rawValues))
    else stringStats rawValues.
Proof. reflexivity. Qed.

Lemma numericStats_quantiles (parsed : list float) :
  ColumnStats.quantiles (numericStats toFixed1 numberToString parsed)
  = let sorted := sortAscending parsed in
    let len := num_of_nat (length sorted) in
    Some (Quantiles.mk (atFloor sorted (len * 0.25)%float)
                       (atFloor sorted (len * 0.5)%float)
                       (atFloor sorted (len * 0.75)%float)).
Proof. reflexivity. Qed.

Lemma analyzeColumn_eq (sampleLimit : nat)
  (columnValues : gmap nat (list jsstring)) (index : nat)
  (header : jsstring) :
  analyzeColumn Date_parse toFixed1 numberToString isoDay sampleLimit
                columnValues index header
  = let rawValues := default [] (columnValues !! index) in
    ColumnInfo.mk header (columnType Date_parse rawValues)
      (Z.of_nat sampleLimit - Z.of_nat (length rawValues))%Z
      (size (list_to_set rawValues : gset (jsstring)))
      (hd_error rawValues)
      (columnStats Date_parse toFixed1 numberToString isoDay rawValues).
Proof. reflexivity. Qed.

End Equations.

(** ** The engine on an arbitrary host *)

Section Host.
Variable Date_parse : jsstring -> number.
Variable toFixed1 : number -> jsstring.
Variable numberToString : number -> jsstring.
Variable isoDay : number -> jsstring.
Variable fileName : jsstring.

Local Abbreviation parseCSV :=
  (parseCSV Date_parse toFixed1 numberToString isoDay fileName).
Local Abbreviation analyzeColumn :=
  (analyzeColumn Date_parse toFixed1 numberToString isoDay).
Local Abbreviation columnStats :=
  (columnStats Date_parse toFixed1 numberToString isoDay).
Local Abbreviation numericStats := (numericStats toFixed1 numberToString).
Local Abbreviation columnType := (columnType Date_parse).
Local Abbreviation isNumeric := (isNumeric Date_parse).
Local Abbreviation isDate := (isDate Date_parse).
Local Abbreviation tally := (tally Date_parse).
Local Abbreviation tallyValue := (tallyValue Date_parse).

(** [parseCSV] over the names of its local constants. *)
Lemma parseCSV_eq (text : jsstring) :
  parseCSV text =
  if includes REPLACEMENT_CHARACTER text then Rejected EncodingError
  else if length (nonBlankLines text) <? 2
  then Rejected InsufficientDataError
  else if length (headersOf text) <? 1 then Rejected ColumnDetectionError
  else if tooManyMalformed
            (countMalformed (delimiterOf text) (nonBlankLines text)
                            (length (headersOf text))
                            (validationLimitOf text))
            (validationLimitOf text)
  then Rejected (DataIntegrityError
                   (countMalformed (delimiterOf text) (nonBlankLines text)
                                   (length (headersOf text))
                                   (validationLimitOf text))
                   (validationLimitOf text) (length (headersOf text)))
  else Resolved
         (DatasetSummary.mk
            (length (dataLinesOf text))
            (imap (analyzeColumn (sampleLimitOf text)
                     (collectColumnValues (delimiterOf text)
                        (length (headersOf text)) (dataLinesOf text)
                        (sampleLimitOf text)))
                  (headersOf text))
            (List.map (previewRow (delimiterOf text) (headersOf text))
                      (slice 1 51 (nonBlankLines text)))
            fileName).
Proof. reflexivity. Qed.


(** C10 (confirmed). For a text that passes the encoding check and has at
    least two non-blank lines, tokenizing the header yields at least one
    field, and [parseCSV] never fails with the column detection error. *)
Theorem C10_column_detection_never_fails (text : jsstring) :
  includes REPLACEMENT_CHARACTER text = false ->
  2 <= length (nonBlankLines text) ->
  1 <= length (headersOf text)
  /\ parseCSV text <> Rejected ColumnDetectionError.
Proof.
  intros Henc Hlines.
  assert (Hlen : 1 <= length (headersOf text)) by apply splitLine_length.
  split; [exact Hlen|].
  rewrite parseCSV_eq, Henc.
  destruct (Nat.ltb_spec (length (nonBlankLines text)) 2); [discriminate|].
  destruct (Nat.ltb_spec (length (headersOf text)) 1); [lia|].
  destruct (tooManyMalformed _ _); discriminate.
Qed.

(** C1 (confirmed). On the text with the lines [a,b], [1,x], [2,y], [3,x]
    the detected delimiter is the comma and [parseCSV] resolves with
    rowCount 3, a numeric column [a] with min 1, max 3 and mean 2, and a
    string column [b] whose top values are exactly x with 2, then y with
    1. *)
Theorem C1_end_to_end_scenario :
  let text := scenarioText in
  delimiterOf text = COMMA
  /\ exists a b preview,
       parseCSV text
       = Resolved (DatasetSummary.mk 3 [a; b] preview fileName)
       /\ ColumnInfo.name a = js "a"
       /\ ColumnInfo.type a = type_numeric
       /\ ColumnStats.min (ColumnInfo.stats a) = Some 1%float
       /\ ColumnStats.max (ColumnInfo.stats a) = Some 3%float
       /\ ColumnStats.mean (ColumnInfo.stats a) = Some 2%float
       /\ ColumnInfo.name b = js "b"
       /\ ColumnInfo.type b = type_string
       /\ ColumnStats.topValues (ColumnInfo.stats b)
          = Some [Bin.mk (js "x") 2; Bin.mk (js "y") 1].
Proof.
  split; [reflexivity|].
  do 3 eexists. split; [vm_compute; reflexivity|].
  repeat split.
Qed.


(** What a resolved profile says about column [i], in terms of the column
    sample. *)
Lemma profile_column (text : jsstring) (s : DatasetSummary.t) (i : nat)
  (col : ColumnInfo.t) :
  parseCSV text = Resolved s ->
  DatasetSummary.columns s !! i = Some col ->
  DatasetSummary.rowCount s = length (dataLinesOf text)
  /\ exists header,
       headersOf text !! i = Some header
       /\ col = ColumnInfo.mk header
                  (columnType (ColumnSample text i))
                  (Z.of_nat (sampleLimitOf text)
                   - Z.of_nat (length (ColumnSample text i)))%Z
                  (size (list_to_set (ColumnSample text i) : gset (jsstring)))
                  (hd_error (ColumnSample text i))
                  (columnStats (ColumnSample text i)).
Proof.
  rewrite parseCSV_eq.
  repeat match goal with
         | |- context [if ?b then Rejected _ else _] =>
             destruct b; [discriminate|]
         end.
  intros [= <-]. simpl. intros Hcol. split; [reflexivity|].
  rewrite list_lookup_imap in Hcol.
  destruct (headersOf text !! i) as [header|] eqn:Hheader; [|discriminate].
  apply lookup_lt_Some in Hheader as Hi.
  exists header. split; [reflexivity|].
  injection Hcol as <-. rewrite analyzeColumn_eq. cbn zeta.
  rewrite collectColumnValues_lookup by assumption. reflexivity.
Qed.

(** C7 (confirmed). In a resolved profile, for every column, the reported
    missing count plus the number of non-empty sampled values of the column
    is the size of the sample window, the smaller of the data row count and
    2000, and the reported unique count is at most the number of non-empty
    sampled values. *)
Theorem C7_missing_and_unique_counts (text : jsstring) (s : DatasetSummary.t)
  (i : nat) (col : ColumnInfo.t) :
  parseCSV text = Resolved s ->
  DatasetSummary.columns s !! i = Some col ->
  DatasetSummary.rowCount s = length (dataLinesOf text)
  /\ (ColumnInfo.missing col + Z.of_nat (length (ColumnSample text i))
      = Z.of_nat (Nat.min (DatasetSummary.rowCount s) 2000))%Z
  /\ ColumnInfo.unique col <= length (ColumnSample text i).
Proof.
  intros Hs Hcol.
  destruct (profile_column text s i col Hs Hcol) as (Hrows & header & _ & ->).
  split; [exact Hrows|]. simpl. rewrite Hrows. split.
  - unfold sampleLimitOf. lia.
  - apply size_list_to_set_le.
Qed.

(** ** The structural check *)

Lemma validatedRows_length (text : jsstring) :
  1 <= length (nonBlankLines text) ->
  length (validatedRows text) = validationLimitOf text - 1.
Proof.
  intros H. unfold validatedRows, dataLinesOf, validationLimitOf.
  rewrite length_firstn, length_skipn. lia.
Qed.

Lemma malformedRows_le (text : jsstring) :
  malformedRows text <= validationLimitOf text - 1.
Proof.
  unfold malformedRows.
  etransitivity; [apply List.filter_length_le|].
  unfold validatedRows. rewrite length_firstn. lia.
Qed.

(** C2 (amended). The structural check tokenizes the lines at indices 1 to
    [validationLimit - 1], where [validationLimit] is the smaller of the
    number of non-blank lines and 100 and so counts the header line: at
    most 99 rows. The file is rejected with the integrity error, which
    carries the malformed count, [validationLimit] and the header's field
    count, if and only if the malformed count exceeds 20% of
    [validationLimit]; otherwise the profile is resolved. In particular,
    with a header of 3 fields followed by 99 rows ([validationLimit] 100),
    20 malformed rows are accepted and 21 are rejected. *)
Theorem C2_threshold_counts_the_header_line :
  (forall text : jsstring,
      includes REPLACEMENT_CHARACTER text = false ->
      2 <= length (nonBlankLines text) ->
      length (validatedRows text) = validationLimitOf text - 1
      /\ length (validatedRows text) <= 99
      /\ (parseCSV text
          = Rejected (DataIntegrityError (malformedRows text)
                        (validationLimitOf text) (length (headersOf text)))
          <-> validationLimitOf text < 5 * malformedRows text)
      /\ ((exists s, parseCSV text = Resolved s)
          <-> 5 * malformedRows text <= validationLimitOf text))
  /\ (validationLimitOf (raggedText 20) = 100
      /\ length (headersOf (raggedText 20)) = 3
      /\ malformedRows (raggedText 20) = 20
      /\ exists s, parseCSV (raggedText 20) = Resolved s)
  /\ (validationLimitOf (raggedText 21) = 100
      /\ length (headersOf (raggedText 21)) = 3
      /\ malformedRows (raggedText 21) = 21
      /\ parseCSV (raggedText 21) = Rejected (DataIntegrityError 21 100 3)).
Proof.
  assert (Hgen : forall text : jsstring,
      includes REPLACEMENT_CHARACTER text = false ->
      2 <= length (nonBlankLines text) ->
      length (validatedRows text) = validationLimitOf text - 1
      /\ length (validatedRows text) <= 99
      /\ (parseCSV text
          = Rejected (DataIntegrityError (malformedRows text)
                        (validationLimitOf text) (length (headersOf text)))
          <-> validationLimitOf text < 5 * malformedRows text)
      /\ ((exists s, parseCSV text = Resolved s)
          <-> 5 * malformedRows text <= validationLimitOf text)).
  { intros text Henc Hlines.
    assert (Hlen : length (validatedRows text) = validationLimitOf text - 1)
      by (apply validatedRows_length; lia).
    assert (Hlimit : validationLimitOf text <= 100)
      by (unfold validationLimitOf; lia).
    pose proof (malformedRows_le text) as Hm.
    split; [exact Hlen|]. split; [lia|].
    rewrite parseCSV_eq, Henc, countMalformed_eq.
    destruct (Nat.ltb_spec (length (nonBlankLines text)) 2); [lia|].
    pose proof (splitLine_length (delimiterOf text) (firstLineOf text)).
    destruct (Nat.ltb_spec (length (headersOf text)) 1);
      [unfold headersOf in *; lia|].
    rewrite tooManyMalformed_spec by lia.
    destruct (Nat.ltb_spec (validationLimitOf text) (5 * malformedRows text)).
    - split; [tauto|]. split; [intros [s Hs]; discriminate | lia].
    - split; [split; [discriminate | lia]|].
      split; [lia | eauto]. }
  split; [exact Hgen|].
  assert (H20 : validationLimitOf (raggedText 20) = 100
                /\ length (headersOf (raggedText 20)) = 3
                /\ malformedRows (raggedText 20) = 20)
    by (vm_compute; auto).
  assert (H21 : validationLimitOf (raggedText 21) = 100
                /\ length (headersOf (raggedText 21)) = 3
                /\ malformedRows (raggedText 21) = 21)
    by (vm_compute; auto).
  assert (E20 : includes REPLACEMENT_CHARACTER (raggedText 20) = false)
    by (vm_compute; reflexivity).
  assert (E21 : includes REPLACEMENT_CHARACTER (raggedText 21) = false)
    by (vm_compute; reflexivity).
  destruct H20 as (V20 & C20 & M20), H21 as (V21 & C21 & M21).
  assert (L20 : 2 <= length (nonBlankLines (raggedText 20)))
    by (unfold validationLimitOf in V20; lia).
  assert (L21 : 2 <= length (nonBlankLines (raggedText 21)))
    by (unfold validationLimitOf in V21; lia).
  split; (split; [assumption|]); (split; [assumption|]);
    (split; [assumption|]).
  - destruct (Hgen _ E20 L20) as (_ & _ & _ & [_ Hres]).
    apply Hres. rewrite M20, V20. lia.
  - destruct (Hgen _ E21 L21) as (_ & _ & [_ Hrej] & _).
    rewrite M21, V21, C21 in Hrej. apply Hrej. lia.
Qed.

(** ** Classification *)

Lemma tally_fold (values : list jsstring) (t : Tally) :
  Forall (fun v => isEmpty v = false) values ->
  fold_left tallyValue values t
  = mkTally (numericCount t + length (List.filter parsesAsNumber values))
            (dateCount t
             + length (List.filter (parsesAsDate Date_parse) values))
            (numericParsed t ++ numericValues values)
            (dateParsed t ++ dateValues Date_parse values).
Proof.
  intros Hvalues. revert t.
  induction Hvalues as [|v values Hv _ IH]; intros [nc dc np dp].
  - simpl. unfold numericValues, dateValues. simpl.
    rewrite !Nat.add_0_r, !app_nil_r. reflexivity.
  - simpl fold_left. rewrite IH. clear IH.
    rewrite tallyValue_eq.
    unfold numericValues, dateValues, parsesAsDate, parsesAsNumber.
    simpl. rewrite Hv, negb_involutive. simpl.
    destruct (isNaN (Number v)); simpl;
      destruct (5 <? length v); simpl;
      try destruct (isNaN (Date_parse v)); simpl;
      rewrite <- ?app_assoc; simpl; f_equal; lia.
Qed.

Lemma tally_sample (values : list jsstring) :
  Forall (fun v => isEmpty v = false) values ->
  tally values
  = mkTally (length (List.filter parsesAsNumber values))
            (length (List.filter (parsesAsDate Date_parse) values))
            (numericValues values) (dateValues Date_parse values).
Proof.
  intros H. rewrite tally_eq, tally_fold by exact H. reflexivity.
Qed.

(** The classification of a sample of at most 2000 non-empty values, over
    the integers. *)
Lemma columnType_spec (values : list jsstring) :
  Forall (fun v => isEmpty v = false) values ->
  1 <= length values <= 2000 ->
  isNumeric values
  = (4 * length values <? 5 * length (List.filter parsesAsNumber values))
  /\ isDate values
     = negb (isNumeric values)
       && (3 * length values
           <? 5 * length (List.filter (parsesAsDate Date_parse) values)).
Proof.
  intros Hvalues Hlen.
  rewrite isDate_eq, !isNumeric_eq.
  rewrite tally_sample by exact Hvalues. simpl.
  destruct (Nat.ltb_spec 0 (length values)); [|lia]. simpl.
  rewrite (proj1 (share_spec _ (length values) Hlen
                    (List.filter_length_le parsesAsNumber values))).
  rewrite (proj2 (share_spec _ (length values) Hlen
                    (List.filter_length_le (parsesAsDate Date_parse)
                                           values))).
  split; reflexivity.
Qed.

(** C4 (confirmed). In a resolved profile, a column with a non-empty
    sample is numeric when the share of its values that parse as numbers is
    strictly above 0.8 (4 * n < 5 * count); otherwise it is a date column
    when the share of its values longer than five units that are no numbers
    and parse as dates is strictly above 0.6 (3 * n < 5 * count); otherwise
    it is a string column. Shares of exactly 0.8 and 0.6 do not qualify. A
    column with an empty sample is a string column whose statistics hold
    nothing but an empty list of top values. *)
Theorem C4_type_by_strict_shares (text : jsstring) (s : DatasetSummary.t)
  (i : nat) (col : ColumnInfo.t) :
  parseCSV text = Resolved s ->
  DatasetSummary.columns s !! i = Some col ->
  let sample := ColumnSample text i in
  let numericCount := length (List.filter parsesAsNumber sample) in
  let dateCount := length (List.filter (parsesAsDate Date_parse) sample) in
  (sample <> [] ->
   ColumnInfo.type col
   = if 4 * length sample <? 5 * numericCount then type_numeric
     else if 3 * length sample <? 5 * dateCount then type_date
     else type_string)
  /\ (sample = [] ->
      ColumnInfo.type col = type_string
      /\ ColumnInfo.stats col
         = ColumnStats.mk None (Some []) None None None None).
Proof.
  intros Hs Hcol.
  destruct (profile_column text s i col Hs Hcol) as (_ & header & _ & ->).
  cbn [ColumnInfo.type ColumnInfo.stats]. split.
  - intros Hne.
    pose proof (ColumnSample_length text i) as Hlen.
    assert (Hlimit : sampleLimitOf text <= 2000)
      by (unfold sampleLimitOf; lia).
    assert (Hpos : 1 <= length (ColumnSample text i))
      by (destruct (ColumnSample text i); [congruence | simpl; lia]).
    destruct (columnType_spec (ColumnSample text i)
                (ColumnSample_nonempty_values text i) ltac:(lia))
      as [Hnum Hdate].
    rewrite columnType_eq, Hdate, Hnum.
    destruct (4 * length (ColumnSample text i) <? _); reflexivity.
  - intros ->. split; reflexivity.
Qed.

(** ** Numeric statistics *)

Lemma numericValues_length (values : list jsstring) :
  length (numericValues values)
  = length (List.filter parsesAsNumber values).
Proof.
  unfold numericValues, parsesAsNumber.
  induction values as [|v values IH]; simpl; [reflexivity|].
  destruct (isNaN (Number v)); simpl; congruence.
Qed.

Lemma numericValues_notNaN (values : list jsstring) :
  Forall (fun x => isNaN x = false) (numericValues values).
Proof.
  unfold numericValues. apply List.Forall_forall. intros x Hx.
  apply List.filter_In in Hx as [_ Hx]. apply negb_true_iff, Hx.
Qed.

(** A column comes out numeric exactly when the code took the numeric
    branch, and then its statistics are those of the numbers among its
    sample, of which there is at least one. *)
Lemma numeric_column (text : jsstring) (s : DatasetSummary.t) (i : nat)
  (col : ColumnInfo.t) :
  parseCSV text = Resolved s ->
  DatasetSummary.columns s !! i = Some col ->
  ColumnInfo.type col = type_numeric ->
  ColumnInfo.stats col = numericStats (numericValues (ColumnSample text i))
  /\ 1 <= length (numericValues (ColumnSample text i)) <= 2000.
Proof.
  intros Hs Hcol Htype.
  destruct (profile_column text s i col Hs Hcol) as (_ & header & _ & ->).
  cbn [ColumnInfo.type ColumnInfo.stats] in *.
  pose proof (ColumnSample_nonempty_values text i) as Hvalues.
  pose proof (ColumnSample_length text i) as Hlen.
  assert (Hlimit : sampleLimitOf text <= 2000)
    by (unfold sampleLimitOf; lia).
  rewrite columnType_eq in Htype. rewrite columnStats_eq.
  destruct (isNumeric (ColumnSample text i)) eqn:Hnum;
    [|destruct (isDate (ColumnSample text i)); discriminate].
  rewrite tally_sample by exact Hvalues. cbn [numericParsed].
  split; [reflexivity|].
  rewrite numericValues_length.
  pose proof (List.filter_length_le parsesAsNumber (ColumnSample text i)).
  split; [|lia].
  destruct (ColumnSample text i) as [|v sample] eqn:Hsample;
    [discriminate|].
  rewrite <- Hsample in *.
  assert (Hpos : 1 <= length (ColumnSample text i))
    by (rewrite Hsample; simpl; lia).
  rewrite (proj1 (columnType_spec _ Hvalues ltac:(lia))) in Hnum.
  apply Nat.ltb_lt in Hnum. lia.
Qed.

(** C9 (amended). For every numeric column, min and max are the least and
    the greatest of the numbers among the column's sampled values, and mean
    is the sum of these numbers, added in sample order from 0, divided by
    how many they are; the sampled values that do not parse as numbers are
    left out of all three. *)
Theorem C9_statistics_of_the_parsed_values (text : jsstring)
  (s : DatasetSummary.t) (i : nat) (col : ColumnInfo.t) :
  parseCSV text = Resolved s ->
  DatasetSummary.columns s !! i = Some col ->
  ColumnInfo.type col = type_numeric ->
  let parsed := numericValues (ColumnSample text i) in
  parsed <> []
  /\ (exists lowest highest,
        ColumnStats.min (ColumnInfo.stats col) = Some lowest
        /\ ColumnStats.max (ColumnInfo.stats col) = Some highest
        /\ In lowest parsed /\ In highest parsed
        /\ Forall (fun x => (lowest <=? x)%float = true
                            /\ (x <=? highest)%float = true) parsed)
  /\ ColumnStats.mean (ColumnInfo.stats col)
     = Some (fold_left PrimFloat.add parsed zero
             / num_of_nat (length parsed))%float.
Proof.
  intros Hs Hcol Htype.
  destruct (numeric_column text s i col Hs Hcol Htype) as [-> Hlen].
  cbn zeta.
  assert (Hne : numericValues (ColumnSample text i) <> [])
    by (destruct (numericValues (ColumnSample text i)); [simpl in Hlen; lia | discriminate]).
  pose proof (numericValues_notNaN (ColumnSample text i)) as Hnan.
  destruct (Math_min_spec _ Hne Hnan) as [Hmin_in Hmin].
  destruct (Math_max_spec _ Hne Hnan) as [Hmax_in Hmax].
  split; [exact Hne|]. split; [|reflexivity].
  exists (Math_min (numericValues (ColumnSample text i))),
         (Math_max (numericValues (ColumnSample text i))).
  repeat split; auto.
  rewrite List.Forall_forall in *. auto.
Qed.

(** ** Where the histogram loses values *)

(** C5 (the code departs from it). On the column with the values 0 and
    0.9 the step is the double nearest to 0.09 and the upper end of the
    last bin, [min + 10 * step], is a double strictly below 0.9: the
    histogram has ten bins holding one value in all, and the maximum is in
    none of them. On the column with the values 0 and 5e-324, where min is
    strictly less than max, the step underflows to zero and the histogram
    is a single bin. *)
Theorem C5_maximum_missing_from_the_last_bin :
  (exists s col bins,
      parseCSV zeroAndNineTenths = Resolved s
      /\ DatasetSummary.columns s = [col]
      /\ ColumnInfo.type col = type_numeric
      /\ ColumnStats.min (ColumnInfo.stats col) = Some 0%float
      /\ ColumnStats.max (ColumnInfo.stats col) = Some 0.9%float
      /\ ColumnStats.histogram (ColumnInfo.stats col) = Some bins
      /\ List.map Bin.value bins = [1; 0; 0; 0; 0; 0; 0; 0; 0; 0]
      /\ (0 + num_of_nat 10 * ((0.9 - 0) / num_of_nat binCount)
          <? 0.9)%float = true)
  /\ (exists s col bin,
        parseCSV zeroAndLeastDouble = Resolved s
        /\ DatasetSummary.columns s = [col]
        /\ ColumnInfo.type col = type_numeric
        /\ ColumnStats.min (ColumnInfo.stats col) = Some 0%float
        /\ ColumnStats.max (ColumnInfo.stats col) = Some 5e-324%float
        /\ (0 <? 5e-324)%float = true
        /\ ColumnStats.histogram (ColumnInfo.stats col) = Some [bin]
        /\ Bin.value bin = 2).
Proof.
  split.
  - do 3 eexists. split; [vm_compute; reflexivity|].
    repeat split.
  - do 3 eexists. split; [vm_compute; reflexivity|].
    repeat split.
Qed.

(** ** Quantiles *)

(** C6 (confirmed). For every numeric column, with the n parsed values
    sorted in ascending order, q1 is the value at zero-based index
    n div 4, the median the value at n div 2 and q3 the value at
    3n div 4 (the floors of n * 0.25, n * 0.5 and n * 0.75), with no
    averaging of neighbours. In particular for the values 1 to 10, q1 is
    3, the median 6 and q3 8. *)
Theorem C6_quantiles_by_lower_index :
  (forall (text : jsstring) (s : DatasetSummary.t) (i : nat)
          (col : ColumnInfo.t),
      parseCSV text = Resolved s ->
      DatasetSummary.columns s !! i = Some col ->
      ColumnInfo.type col = type_numeric ->
      let parsed := numericValues (ColumnSample text i) in
      let n := length parsed in
      exists sorted a b c,
        Permutation sorted parsed /\ ascending sorted
        /\ nth_error sorted (n / 4) = Some a
        /\ nth_error sorted (n / 2) = Some b
        /\ nth_error sorted (3 * n / 4) = Some c
        /\ ColumnStats.quantiles (ColumnInfo.stats col)
           = Some (Quantiles.mk (Some a) (Some b) (Some c)))
  /\ (exists s col,
        parseCSV oneToTen = Resolved s
        /\ DatasetSummary.columns s = [col]
        /\ numericValues (ColumnSample oneToTen 0)
           = [1; 2; 3; 4; 5; 6; 7; 8; 9; 10]%float
        /\ ColumnStats.quantiles (ColumnInfo.stats col)
           = Some (Quantiles.mk (Some 3%float) (Some 6%float)
                                (Some 8%float))).
Proof.
  split.
  - intros text s i col Hs Hcol Htype parsed n.
    destruct (numeric_column text s i col Hs Hcol Htype) as [-> Hlen].
    fold parsed in Hlen |- *. fold n in Hlen.
    destruct (sortAscending_spec parsed
                (numericValues_notNaN (ColumnSample text i)))
      as [Hperm Hsorted].
    assert (Hn : length (sortAscending parsed) = n)
      by (apply Permutation_length, Hperm).
    destruct (quartile_index_spec n ltac:(lia)) as (H1 & H2 & H3).
    assert (Hlt : n / 4 < n /\ n / 2 < n /\ 3 * n / 4 < n).
    { repeat split; apply Nat.Div0.div_lt_upper_bound; lia. }
    destruct Hlt as (L1 & L2 & L3).
    destruct (nth_error (sortAscending parsed) (n / 4)) as [a|] eqn:Ha;
      [|apply nth_error_None in Ha; lia].
    destruct (nth_error (sortAscending parsed) (n / 2)) as [b|] eqn:Hb;
      [|apply nth_error_None in Hb; lia].
    destruct (nth_error (sortAscending parsed) (3 * n / 4)) as [c|] eqn:Hc;
      [|apply nth_error_None in Hc; lia].
    exists (sortAscending parsed), a, b, c.
    repeat split; auto.
    rewrite numericStats_quantiles. cbn zeta.
    unfold atFloor. rewrite Hn, H1, H2, H3, Ha, Hb, Hc. reflexivity.
  - do 2 eexists. split; [vm_compute; reflexivity|].
    split; [reflexivity|]. split; [vm_compute; reflexivity|]. reflexivity.
Qed.

End Host.

(** ** Worked instances on the sample host *)

(** C2, as stated, fails in both of its parts. Of the four rows that follow
    the header of [oneRaggedOfFour] one is malformed, which exceeds 20% of
    the four sampled rows, and the file is accepted: the code compares with
    20% of five, the header line included. Of the 100 rows that follow the
    header of [raggedLastOfHundred] 21 are malformed, and the file is
    accepted: the check reads 99 rows and never sees the last one. *)
Lemma C2_counterexample_header_counted_and_99_rows :
  (let sample := firstn 100 (dataLinesOf oneRaggedOfFour) in
   let malformed :=
     length (List.filter (isMalformed oneRaggedOfFour) sample) in
   length sample = 4 /\ malformed = 1
   /\ length sample < 5 * malformed
   /\ exists s, SampleHost.profile oneRaggedOfFour = Resolved s)
  /\ (let sample := firstn 100 (dataLinesOf raggedLastOfHundred) in
      let malformed :=
        length (List.filter (isMalformed raggedLastOfHundred) sample) in
      length sample = 100 /\ length (headersOf raggedLastOfHundred) = 3
      /\ malformed = 21
      /\ exists s, SampleHost.profile raggedLastOfHundred = Resolved s).
Proof.
  split.
  - split; [reflexivity|]. split; [reflexivity|].
    split; [vm_compute; lia|].
    eexists. vm_compute. reflexivity.
  - split; [vm_compute; reflexivity|]. split; [vm_compute; reflexivity|].
    split; [vm_compute; reflexivity|].
    eexists. vm_compute. reflexivity.
Qed.

(** C9, as stated, fails when a numeric column holds a value that is no
    number: with the values 1, 2, 3, 4, 5 and x the column is numeric and
    its min is 1, while min, max and mean taken over the numeric parses of
    all six values are [NaN]. *)
Lemma C9_counterexample_unparsed_values_left_out :
  let text := fiveNumbersAndText in
  exists s col,
    SampleHost.profile text = Resolved s
    /\ DatasetSummary.columns s = [col]
    /\ ColumnInfo.type col = type_numeric
    /\ ColumnSample text 0
       = [js "1"; js "2"; js "3"; js "4"; js "5"; js "x"]
    /\ ColumnStats.min (ColumnInfo.stats col) = Some 1%float
    /\ ColumnStats.min (ColumnInfo.stats col)
       <> Some (Math_min (List.map Number (ColumnSample text 0)))
    /\ ColumnStats.max (ColumnInfo.stats col)
       <> Some (Math_max (List.map Number (ColumnSample text 0)))
    /\ ColumnStats.mean (ColumnInfo.stats col)
       <> Some (fold_left PrimFloat.add
                  (List.map Number (ColumnSample text 0)) zero
                / num_of_nat (length (ColumnSample text 0)))%float.
Proof.
  do 2 eexists. split; [vm_compute; reflexivity|].
  split; [reflexivity|]. split; [reflexivity|].
  split; [vm_compute; reflexivity|]. split; [reflexivity|].
  repeat split; intros H;
    apply (f_equal (fun o => match o with
                             | Some x => isNaN x
                             | None => false
                             end)) in H;
    vm_compute in H; discriminate.
Qed.

(** The general part of C2 on the scenario text: no malformed row among
    its three rows, and the profile is resolved. *)
Lemma C2_witness :
  length (validatedRows scenarioText) = validationLimitOf scenarioText - 1
  /\ length (validatedRows scenarioText) <= 99
  /\ (SampleHost.profile scenarioText
      = Rejected (DataIntegrityError (malformedRows scenarioText)
                    (validationLimitOf scenarioText)
                    (length (headersOf scenarioText)))
      <-> validationLimitOf scenarioText < 5 * malformedRows scenarioText)
  /\ ((exists s, SampleHost.profile scenarioText = Resolved s)
      <-> 5 * malformedRows scenarioText <= validationLimitOf scenarioText).
Proof.
  apply (proj1 (C2_threshold_counts_the_header_line
                  SampleHost.Date_parse SampleHost.toFixed1
                  SampleHost.numberToString SampleHost.isoDay
                  SampleHost.fileName) scenarioText).
  - reflexivity.
  - vm_compute. lia.
Defined.

(** C4 on the second column of the scenario text. *)
Lemma C4_witness :
  exists s col,
    SampleHost.profile scenarioText = Resolved s
    /\ DatasetSummary.columns s !! 1 = Some col
    /\ (ColumnSample scenarioText 1 <> [] ->
        ColumnInfo.type col
        = if 4 * length (ColumnSample scenarioText 1)
             <? 5 * length (List.filter parsesAsNumber
                              (ColumnSample scenarioText 1))
          then type_numeric
          else if 3 * length (ColumnSample scenarioText 1)
                  <? 5 * length (List.filter
                                   (parsesAsDate SampleHost.Date_parse)
                                   (ColumnSample scenarioText 1))
          then type_date
          else type_string)
    /\ (ColumnSample scenarioText 1 = [] ->
        ColumnInfo.type col = type_string
        /\ ColumnInfo.stats col
           = ColumnStats.mk None (Some []) None None None None).
Proof.
  do 2 eexists. split; [vm_compute; reflexivity|]. split; [reflexivity|].
  eapply (C4_type_by_strict_shares
           SampleHost.Date_parse SampleHost.toFixed1
           SampleHost.numberToString SampleHost.isoDay SampleHost.fileName
           scenarioText).
  - vm_compute. reflexivity.
  - reflexivity.
Defined.

(** The general part of C6 on the column of [oneToTen]. *)
Lemma C6_witness :
  exists s col,
    SampleHost.profile oneToTen = Resolved s
    /\ DatasetSummary.columns s !! 0 = Some col
    /\ ColumnInfo.type col = type_numeric
    /\ exists sorted a b c,
         Permutation sorted (numericValues (ColumnSample oneToTen 0))
         /\ ascending sorted
         /\ nth_error sorted
              (length (numericValues (ColumnSample oneToTen 0)) / 4)
            = Some a
         /\ nth_error sorted
              (length (numericValues (ColumnSample oneToTen 0)) / 2)
            = Some b
         /\ nth_error sorted
              (3 * length (numericValues (ColumnSample oneToTen 0)) / 4)
            = Some c
         /\ ColumnStats.quantiles (ColumnInfo.stats col)
            = Some (Quantiles.mk (Some a) (Some b) (Some c)).
Proof.
  do 2 eexists. split; [vm_compute; reflexivity|]. split; [reflexivity|].
  split; [reflexivity|].
  eapply (proj1 (C6_quantiles_by_lower_index
                  SampleHost.Date_parse SampleHost.toFixed1
                  SampleHost.numberToString SampleHost.isoDay
                  SampleHost.fileName) oneToTen).
  - vm_compute. reflexivity.
  - reflexivity.
  - reflexivity.
Defined.

(** C7 on the first column of the scenario text. *)
Lemma C7_witness :
  exists s col,
    SampleHost.profile scenarioText = Resolved s
    /\ DatasetSummary.columns s !! 0 = Some col
    /\ DatasetSummary.rowCount s = length (dataLinesOf scenarioText)
    /\ (ColumnInfo.missing col
        + Z.of_nat (length (ColumnSample scenarioText 0))
        = Z.of_nat (Nat.min (DatasetSummary.rowCount s) 2000))%Z
    /\ ColumnInfo.unique col <= length (ColumnSample scenarioText 0).
Proof.
  do 2 eexists. split; [vm_compute; reflexivity|]. split; [reflexivity|].
  eapply (C7_missing_and_unique_counts
           SampleHost.Date_parse SampleHost.toFixed1
           SampleHost.numberToString SampleHost.isoDay SampleHost.fileName
           scenarioText).
  - vm_compute. reflexivity.
  - reflexivity.
Defined.

(** C8 on a line where the comma has the highest count. *)
Lemma C8_witness : detectDelimiter (js "a,b;c,d") = COMMA.
Proof.
  apply (proj1 (proj2 (C8_first_candidate_with_highest_count
                         (js "a,b;c,d")))).
  intros c [<-|[<-|[<-|[<-|[]]]]]; vm_compute; lia.
Defined.

(** C9 on the first column of the scenario text. *)
Lemma C9_witness :
  exists s col,
    SampleHost.profile scenarioText = Resolved s
    /\ DatasetSummary.columns s !! 0 = Some col
    /\ ColumnInfo.type col = type_numeric
    /\ numericValues (ColumnSample scenarioText 0) <> []
    /\ (exists lowest highest,
          ColumnStats.min (ColumnInfo.stats col) = Some lowest
          /\ ColumnStats.max (ColumnInfo.stats col) = Some highest
          /\ In lowest (numericValues (ColumnSample scenarioText 0))
          /\ In highest (numericValues (ColumnSample scenarioText 0))
          /\ Forall (fun x => (lowest <=? x)%float = true
                              /\ (x <=? highest)%float = true)
                    (numericValues (ColumnSample scenarioText 0)))
    /\ ColumnStats.mean (ColumnInfo.stats col)
       = Some (fold_left PrimFloat.add
                 (numericValues (ColumnSample scenarioText 0)) zero
               / num_of_nat
                   (length (numericValues (ColumnSample scenarioText 0))))%float.
Proof.
  do 2 eexists. split; [vm_compute; reflexivity|]. split; [reflexivity|].
  split; [reflexivity|].
  eapply (C9_statistics_of_the_parsed_values
           SampleHost.Date_parse SampleHost.toFixed1
           SampleHost.numberToString SampleHost.isoDay SampleHost.fileName
           scenarioText).
  - vm_compute. reflexivity.
  - reflexivity.
  - reflexivity.
Defined.

(** C10 on the scenario text. *)
Lemma C10_witness :
  1 <= length (headersOf scenarioText)
  /\ SampleHost.profile scenarioText <> Rejected ColumnDetectionError.
Proof.
  apply (C10_column_detection_never_fails
           SampleHost.Date_parse SampleHost.toFixed1
           SampleHost.numberToString SampleHost.isoDay SampleHost.fileName
           scenarioText).
  - reflexivity.
  - vm_compute. lia.
Defined.

(** * Further properties

    The error paths of [parseCSV], the shape of a resolved profile, what
    the engine reads of a text, the top values, the date statistics, and
    the callers of the engine: the export and the chart data of the
    dashboard, the file intake of the application and its progress
    steps. *)

(** ** Lines and white space *)
Lemma includes_In (c : char) (text : jsstring) :
  includes c text = true <-> In c text.
Proof.
  unfold includes. rewrite existsb_exists. split.
  - intros (x & Hx & Heq). apply N.eqb_eq in Heq. subst. exact Hx.
  - intros H. exists c. split; [exact H | apply N.eqb_refl].
Qed.

Lemma splitNewlines_single (text : jsstring) :
  ~ In LF text -> splitNewlines text = [text].
Proof.
  induction text as [|c rest IH]; intros H; [reflexivity|].
  assert (Hc : (c =? LF)%N = false).
  { apply N.eqb_neq. intros ->. apply H. left. reflexivity. }
  assert (Hrest : ~ In LF rest) by (intros Hin; apply H; right; exact Hin).
  specialize (IH Hrest). simpl. destruct rest as [|c' rest'].
  - rewrite Hc. reflexivity.
  - assert (Hc' : (c' =? LF)%N = false).
    { apply N.eqb_neq. intros ->. apply Hrest. left. reflexivity. }
    rewrite Hc', Hc, andb_false_r. rewrite IH. reflexivity.
Qed.

Lemma cons_field_units (P : char -> Prop) (c : char) (fields : list jsstring) :
  P c -> Forall (fun l => forall x, In x l -> P x) fields ->
  Forall (fun l => forall x, In x l -> P x) (cons_field c fields).
Proof.
  intros Hc Hf. destruct fields as [|f fs]; simpl.
  - constructor; [|constructor]. intros x [<-|[]]. exact Hc.
  - inversion Hf; subst. constructor; [|assumption].
    intros x [<-|Hx]; auto.
Qed.

Lemma splitNewlines_units (P : char -> Prop) (text : jsstring) :
  (forall c, In c text -> P c) ->
  Forall (fun l => forall c, In c l -> P c) (splitNewlines text).
Proof.
  remember (length text) as n eqn:Hn. revert text Hn.
  induction n as [n IH] using lt_wf_ind. intros text Hn Hall.
  destruct text as [|c rest]; [repeat constructor; intros ? []|].
  simpl in Hn. simpl. destruct rest as [|c' rest'].
  - destruct (c =? LF)%N.
    + repeat constructor; intros ? [].
    + constructor; [|constructor].
      intros x [<-|[]]. apply Hall. left. reflexivity.
  - destruct ((c =? CR)%N && (c' =? LF)%N).
    + constructor; [intros ? []|].
      apply (IH (length rest')); [simpl in Hn; lia | reflexivity |].
      intros x Hx. apply Hall. right. right. exact Hx.
    + assert (Hrest : Forall (fun l => forall x, In x l -> P x)
                             (splitNewlines (c' :: rest'))).
      { apply (IH (length (c' :: rest'))); [lia | reflexivity |].
        intros x Hx. apply Hall. right. exact Hx. }
      destruct (c =? LF)%N.
      * constructor; [intros ? []| exact Hrest].
      * apply cons_field_units; [|exact Hrest].
        apply Hall. left. reflexivity.
Qed.

Lemma trimStart_whitespace (s : jsstring) :
  (forall c, In c s -> isWhiteSpace c = true) -> trimStart s = [].
Proof.
  induction s as [|c rest IH]; intros H; [reflexivity|].
  simpl. rewrite (H c (or_introl eq_refl)). apply IH.
  intros x Hx. apply H. right. exact Hx.
Qed.

Lemma trim_whitespace (s : jsstring) :
  (forall c, In c s -> isWhiteSpace c = true) -> trim s = [].
Proof.
  intros H. unfold trim, trimEnd. rewrite (trimStart_whitespace s H).
  reflexivity.
Qed.

Lemma nonBlankLines_whitespace (text : jsstring) :
  (forall c, In c text -> isWhiteSpace c = true) -> nonBlankLines text = [].
Proof.
  intros H. unfold nonBlankLines.
  pose proof (splitNewlines_units (fun c => isWhiteSpace c = true) text H)
    as Hlines.
  induction Hlines as [|l ls Hl _ IH]; [reflexivity|].
  simpl. rewrite (trim_whitespace l Hl). exact IH.
Qed.

Lemma plainLine_spec (l : jsstring) :
  plainLine l = true -> ~ In LF l /\ List.last l LF <> CR.
Proof.
  unfold plainLine. intros H. apply andb_true_iff in H as [Hlf Hcr].
  apply negb_true_iff in Hlf, Hcr. split.
  - intros Hin. apply includes_In in Hin. congruence.
  - apply N.eqb_neq, Hcr.
Qed.

Lemma splitNewlines_LF (l rest : jsstring) :
  ~ In LF l /\ List.last l LF <> CR ->
  splitNewlines (l ++ LF :: rest) = l :: splitNewlines rest.
Proof.
  induction l as [|c l' IH]; intros [Hlf Hcr].
  - simpl. destruct rest; reflexivity.
  - assert (Hc : (c =? LF)%N = false).
    { apply N.eqb_neq. intros ->. apply Hlf. left. reflexivity. }
    assert (Hl' : ~ In LF l' /\ List.last l' LF <> CR).
    { split; [intros Hin; apply Hlf; right; exact Hin|].
      destruct l' as [|c' l'']; [discriminate | exact Hcr]. }
    specialize (IH Hl'). destruct l' as [|c' l''].
    + assert (Hcr' : (c =? CR)%N = false).
      { apply N.eqb_neq. intros ->. apply Hcr. reflexivity. }
      change (([c] ++ LF :: rest)) with (c :: LF :: rest).
      change (splitNewlines (c :: LF :: rest))
        with (if ((c =? CR)%N && (LF =? LF)%N) then [] :: splitNewlines rest
              else if (c =? LF)%N then [] :: splitNewlines (LF :: rest)
              else cons_field c (splitNewlines (LF :: rest))).
      rewrite Hcr', Hc. simpl andb. cbv iota.
      change (LF :: rest) with ([] ++ LF :: rest). rewrite IH. reflexivity.
    + assert (Hc' : (c' =? LF)%N = false).
      { apply N.eqb_neq. intros ->. apply Hlf. right. left. reflexivity. }
      change ((c :: c' :: l'') ++ LF :: rest)
        with (c :: c' :: (l'' ++ LF :: rest)).
      change (splitNewlines (c :: c' :: (l'' ++ LF :: rest)))
        with (if ((c =? CR)%N && (c' =? LF)%N)
              then [] :: splitNewlines (l'' ++ LF :: rest)
              else if (c =? LF)%N
              then [] :: splitNewlines (c' :: (l'' ++ LF :: rest))
              else cons_field c (splitNewlines (c' :: (l'' ++ LF :: rest)))).
      rewrite Hc', Hc, andb_false_r.
      change (c' :: (l'' ++ LF :: rest)) with ((c' :: l'') ++ LF :: rest).
      rewrite IH. reflexivity.
Qed.

Lemma splitNewlines_CRLF (l rest : jsstring) :
  ~ In LF l -> splitNewlines (l ++ CR :: LF :: rest) = l :: splitNewlines rest.
Proof.
  induction l as [|c l' IH]; intros Hlf.
  - reflexivity.
  - assert (Hc : (c =? LF)%N = false).
    { apply N.eqb_neq. intros ->. apply Hlf. left. reflexivity. }
    assert (Hl' : ~ In LF l') by (intros Hin; apply Hlf; right; exact Hin).
    specialize (IH Hl'). destruct l' as [|c' l''].
    + change (([c] ++ CR :: LF :: rest)) with (c :: CR :: LF :: rest).
      change (splitNewlines (c :: CR :: LF :: rest))
        with (if ((c =? CR)%N && (CR =? LF)%N)
              then [] :: splitNewlines (LF :: rest)
              else if (c =? LF)%N
              then [] :: splitNewlines (CR :: LF :: rest)
              else cons_field c (splitNewlines (CR :: LF :: rest))).
      rewrite Hc. change (CR =? LF)%N with false. rewrite andb_false_r.
      change (CR :: LF :: rest) with ([] ++ CR :: LF :: rest).
      rewrite IH. reflexivity.
    + assert (Hc' : (c' =? LF)%N = false).
      { apply N.eqb_neq. intros ->. apply Hlf. right. left. reflexivity. }
      change ((c :: c' :: l'') ++ CR :: LF :: rest)
        with (c :: c' :: (l'' ++ CR :: LF :: rest)).
      change (splitNewlines (c :: c' :: (l'' ++ CR :: LF :: rest)))
        with (if ((c =? CR)%N && (c' =? LF)%N)
              then [] :: splitNewlines (l'' ++ CR :: LF :: rest)
              else if (c =? LF)%N
              then [] :: splitNewlines (c' :: (l'' ++ CR :: LF :: rest))
              else cons_field c
                     (splitNewlines (c' :: (l'' ++ CR :: LF :: rest)))).
      rewrite Hc', Hc, andb_false_r.
      change (c' :: (l'' ++ CR :: LF :: rest))
        with ((c' :: l'') ++ CR :: LF :: rest).
      rewrite IH. reflexivity.
Qed.

Lemma splitNewlines_unlines (ls : list jsstring) :
  forallb plainLine ls = true -> splitNewlines (unlines ls) = ls ++ [[]].
Proof.
  induction ls as [|l ls IH]; intros H; [reflexivity|].
  simpl in H. apply andb_true_iff in H as [Hl Hls].
  unfold unlines in *. cbn [flat_map]. rewrite <- app_assoc.
  change ([LF] ++ ?x) with (LF :: x).
  rewrite splitNewlines_LF by (apply plainLine_spec; exact Hl).
  rewrite (IH Hls). reflexivity.
Qed.

Lemma splitNewlines_unlinesCRLF (ls : list jsstring) :
  forallb plainLine ls = true ->
  splitNewlines (unlinesCRLF ls) = ls ++ [[]].
Proof.
  induction ls as [|l ls IH]; intros H; [reflexivity|].
  simpl in H. apply andb_true_iff in H as [Hl Hls].
  unfold unlinesCRLF in *. cbn [flat_map]. rewrite <- app_assoc.
  change ([CR; LF] ++ ?x) with (CR :: LF :: x).
  rewrite splitNewlines_CRLF by (apply plainLine_spec; exact Hl).
  rewrite (IH Hls). reflexivity.
Qed.

Lemma filter_app_blank (ls : list jsstring) :
  List.filter (fun l => negb (isEmpty (trim l))) (ls ++ [[]])
  = List.filter (fun l => negb (isBlank l)) ls.
Proof. rewrite List.filter_app. simpl. apply app_nil_r. Qed.

Lemma nonBlankLines_unlines (ls : list jsstring) :
  forallb plainLine ls = true ->
  nonBlankLines (unlines ls) = List.filter (fun l => negb (isBlank l)) ls.
Proof.
  intros H. unfold nonBlankLines. rewrite splitNewlines_unlines by exact H.
  apply filter_app_blank.
Qed.

Lemma nonBlankLines_unlinesCRLF (ls : list jsstring) :
  forallb plainLine ls = true ->
  nonBlankLines (unlinesCRLF ls)
  = List.filter (fun l => negb (isBlank l)) ls.
Proof.
  intros H. unfold nonBlankLines. rewrite splitNewlines_unlinesCRLF by exact H.
  apply filter_app_blank.
Qed.

Lemma includes_flat_map (c : char) (f : jsstring -> jsstring)
  (ls : list jsstring) :
  includes c (flat_map f ls) = existsb (fun l => includes c (f l)) ls.
Proof.
  unfold includes. induction ls as [|l ls IH]; [reflexivity|].
  simpl. rewrite existsb_app, IH. reflexivity.
Qed.

Lemma includes_app (c : char) (a b : jsstring) :
  includes c (a ++ b) = includes c a || includes c b.
Proof. apply existsb_app. Qed.

Lemma existsb_same {A} (f g : A -> bool) (l : list A) :
  (forall x, f x = g x) -> existsb f l = existsb g l.
Proof.
  intros H. induction l as [|x l IH]; [reflexivity|].
  simpl. rewrite H, IH. reflexivity.
Qed.

Lemma includes_unlines (ls : list jsstring) :
  includes REPLACEMENT_CHARACTER (unlines ls)
  = existsb (includes REPLACEMENT_CHARACTER) ls.
Proof.
  unfold unlines. rewrite includes_flat_map. apply existsb_same.
  intros l. rewrite includes_app. apply orb_false_r.
Qed.

Lemma includes_unlinesCRLF (ls : list jsstring) :
  includes REPLACEMENT_CHARACTER (unlinesCRLF ls)
  = existsb (includes REPLACEMENT_CHARACTER) ls.
Proof.
  unfold unlinesCRLF. rewrite includes_flat_map. apply existsb_same.
  intros l. rewrite includes_app. apply orb_false_r.
Qed.


Lemma trimStart_empty (s : jsstring) :
  trimStart s = [] -> forall c, In c s -> isWhiteSpace c = true.
Proof.
  induction s as [|x rest IH]; intros H c Hc; [destruct Hc|].
  simpl in H. destruct (isWhiteSpace x) eqn:Hx; [|discriminate].
  destruct Hc as [<-|Hc]; [exact Hx | exact (IH H c Hc)].
Qed.

Lemma blank_line_units (l : jsstring) :
  isBlank l = true -> forall c, In c l -> isWhiteSpace c = true.
Proof.
  unfold isBlank, trim, trimEnd. intros H c Hc.
  destruct (rev (trimStart (rev (trimStart l)))) eqn:Hrev; [|discriminate].
  apply (f_equal (@rev _)) in Hrev. rewrite rev_involutive in Hrev.
  simpl in Hrev.
  destruct (trimStart l) as [|x rest] eqn:Hstart.
  - exact (trimStart_empty l Hstart c Hc).
  - (* the first unit kept by [trimStart] is no white space, so the reverse
       cannot be trimmed away entirely *)
    assert (Hx : isWhiteSpace x = false).
    { clear -Hstart. induction l as [|y l IH]; [discriminate|].
      simpl in Hstart. destruct (isWhiteSpace y) eqn:Hy.
      - exact (IH Hstart).
      - injection Hstart as -> _. exact Hy. }
    pose proof (trimStart_empty _ Hrev x) as Hw.
    rewrite Hw in Hx; [discriminate|].
    apply in_rev. rewrite rev_involutive. left. reflexivity.
Qed.

Lemma blank_line_no_replacement (l : jsstring) :
  isBlank l = true -> includes REPLACEMENT_CHARACTER l = false.
Proof.
  intros H. destruct (includes REPLACEMENT_CHARACTER l) eqn:Hinc; [|reflexivity].
  apply includes_In in Hinc. apply (blank_line_units l H) in Hinc.
  discriminate.
Qed.

(** ** Splitting and the delimiter count *)

Lemma joinFields_cons_field (d c : char) (fields : list jsstring) :
  fields <> [] ->
  joinFields d (cons_field c fields) = c :: joinFields d fields.
Proof.
  destruct fields as [|f [|g fs]]; [contradiction| |]; reflexivity.
Qed.

Lemma joinFields_empty_first (d : char) (fields : list jsstring) :
  fields <> [] -> joinFields d ([] :: fields) = d :: joinFields d fields.
Proof.
  destruct fields as [|f fs]; [contradiction|]. reflexivity.
Qed.

Lemma splitChar_nonempty (d : char) (line : jsstring) : splitChar d line <> [].
Proof.
  destruct line as [|c rest]; simpl; [discriminate|].
  destruct (c =? d)%N; [discriminate|].
  destruct (splitChar d rest); discriminate.
Qed.

(** X12. Splitting loses nothing but the separators: the fields
    [line.split(splitRegex)] yields, joined again by the delimiter, are the
    line. *)
Theorem splitRegex_lossless (d : char) (line : jsstring) :
  joinFields d (splitRegex d line) = line.
Proof.
  induction line as [|c rest IH]; [reflexivity|]. simpl.
  pose proof (splitRegex_nonempty d rest) as Hne.
  destruct ((c =? d)%N && evenQuotes rest) eqn:Hsep.
  - apply andb_true_iff in Hsep as [Hc _]. apply N.eqb_eq in Hc. subst c.
    rewrite joinFields_empty_first by exact Hne. rewrite IH. reflexivity.
  - rewrite joinFields_cons_field by exact Hne. rewrite IH. reflexivity.
Qed.

Lemma evenQuotes_no_quote (s : jsstring) : ~ In DQUOTE s -> evenQuotes s = true.
Proof.
  induction s as [|c rest IH]; intros H; [reflexivity|]. simpl.
  destruct (N.eqb_spec c DQUOTE) as [->|_].
  - exfalso. apply H. left. reflexivity.
  - apply IH. intros Hin. apply H. right. exact Hin.
Qed.

Lemma splitRegex_no_quote (d : char) (line : jsstring) :
  ~ In DQUOTE line -> splitRegex d line = splitChar d line.
Proof.
  induction line as [|c rest IH]; intros H; [reflexivity|]. simpl.
  assert (Hrest : ~ In DQUOTE rest) by (intros Hin; apply H; right; exact Hin).
  rewrite (evenQuotes_no_quote rest Hrest), andb_true_r, (IH Hrest).
  reflexivity.
Qed.

Lemma splitRegex_le_splitChar (d : char) (line : jsstring) :
  length (splitRegex d line) <= length (splitChar d line).
Proof.
  induction line as [|c rest IH]; [reflexivity|]. simpl.
  destruct (c =? d)%N; simpl.
  - destruct (evenQuotes rest); simpl; [lia|].
    rewrite cons_field_length by apply splitRegex_nonempty. lia.
  - rewrite !cons_field_length
      by (apply splitRegex_nonempty || apply splitChar_nonempty).
    exact IH.
Qed.

(** X13. The header never has more fields than one plus the occurrence
    count that made the delimiter win, and it has exactly that many when
    the first line holds no double quote. *)
Theorem header_count_from_detection (text : jsstring) :
  length (headersOf text)
  <= S (delimiterCount (firstLineOf text) (delimiterOf text))
  /\ (includes DQUOTE (firstLineOf text) = false ->
      length (headersOf text)
      = S (delimiterCount (firstLineOf text) (delimiterOf text))).
Proof.
  unfold headersOf, splitLine, delimiterCount. rewrite length_map.
  pose proof (splitChar_nonempty (delimiterOf text) (firstLineOf text)) as Hne.
  assert (Hpos : 1 <= length (splitChar (delimiterOf text) (firstLineOf text))).
  { destruct (splitChar _ _); [contradiction | simpl; lia]. }
  split.
  - pose proof (splitRegex_le_splitChar (delimiterOf text) (firstLineOf text)).
    lia.
  - intros Hq. rewrite splitRegex_no_quote; [lia|].
    intros Hin. apply includes_In in Hin. congruence.
Qed.

(** ** Objects and preview rows *)

Lemma get_set_same {V} (k : jsstring) (v : V) (o : list (jsstring * V)) :
  JSObject.get k (JSObject.set k v o) = Some v.
Proof.
  induction o as [|[k' v'] o IH]; simpl.
  - rewrite bool_decide_eq_true_2 by reflexivity. reflexivity.
  - destruct (bool_decide (k = k')) eqn:Hk; simpl.
    + rewrite bool_decide_eq_true_2 by reflexivity. reflexivity.
    + rewrite Hk. exact IH.
Qed.

Lemma get_set_other {V} (k k' : jsstring) (v : V) (o : list (jsstring * V)) :
  k <> k' -> JSObject.get k (JSObject.set k' v o) = JSObject.get k o.
Proof.
  intros Hne. induction o as [|[k'' v''] o IH]; simpl.
  - rewrite bool_decide_eq_false_2 by exact Hne. reflexivity.
  - destruct (bool_decide (k' = k'')) eqn:Hk; simpl.
    + apply bool_decide_eq_true in Hk. subst k''.
      rewrite !bool_decide_eq_false_2 by exact Hne. reflexivity.
    + destruct (bool_decide (k = k'')); [reflexivity | exact IH].
Qed.

Lemma get_app_last {V} (k k' : jsstring) (v' : V) (l : list (jsstring * V)) :
  JSObject.get k (l ++ [(k', v')])
  = match JSObject.get k l with
    | Some v => Some v
    | None => if bool_decide (k = k') then Some v' else None
    end.
Proof.
  induction l as [|[k'' v''] l IHl]; simpl; [reflexivity|].
  destruct (bool_decide (k = k'')); [reflexivity | exact IHl].
Qed.

Lemma get_None {V} (k : jsstring) (l : list (jsstring * V)) :
  JSObject.get k l = None <-> ~ In k (List.map fst l).
Proof.
  induction l as [|[k' v'] l IH]; simpl; [tauto|].
  destruct (bool_decide (k = k')) eqn:Hk.
  - apply bool_decide_eq_true in Hk. split; [discriminate|].
    intros H. exfalso. apply H. left. symmetry. exact Hk.
  - apply bool_decide_eq_false in Hk. rewrite IH. split.
    + intros H [Heq|Hin]; [apply Hk; symmetry; exact Heq | exact (H Hin)].
    + intros H Hin. apply H. right. exact Hin.
Qed.

Lemma get_In {V} (k : jsstring) (l : list (jsstring * V)) :
  In k (List.map fst l) <-> JSObject.get k l <> None.
Proof.
  induction l as [|[k' v'] l IH]; simpl; [tauto|].
  destruct (bool_decide (k = k')) eqn:Hk.
  - apply bool_decide_eq_true in Hk. split; [discriminate|].
    intros _. left. symmetry. exact Hk.
  - apply bool_decide_eq_false in Hk. rewrite <- IH. split.
    + intros [Heq|Hin]; [exfalso; apply Hk; symmetry; exact Heq | exact Hin].
    + intros Hin. right. exact Hin.
Qed.

(** Reading a property after a run of assignments: the last assignment to
    the key decides, and the object before the run when there is none. *)
Lemma get_fold_set {V} (k : jsstring) (kvs : list (jsstring * V))
  (o : list (jsstring * V)) :
  JSObject.get k (fold_left (fun row kv => JSObject.set (fst kv) (snd kv) row)
                            kvs o)
  = match JSObject.get k (rev kvs) with
    | Some v => Some v
    | None => JSObject.get k o
    end.
Proof.
  revert o. induction kvs as [|[k' v'] kvs IH]; intros o; [reflexivity|].
  simpl. rewrite IH. clear IH.
  rewrite get_app_last. destruct (JSObject.get k (rev kvs)); [reflexivity|].
  destruct (bool_decide (k = k')) eqn:Hk.
  - apply bool_decide_eq_true in Hk. subst k'. apply get_set_same.
  - apply bool_decide_eq_false in Hk. apply get_set_other. exact Hk.
Qed.

Lemma previewRow_eq (d : char) (headers : list jsstring) (line : jsstring) :
  previewRow d headers line
  = fold_left (fun row kv => JSObject.set (fst kv) (snd kv) row)
      (List.map (fun ih => (snd ih, nth_error (splitLine d line) (fst ih)))
                (combine (seq 0 (length headers)) headers)) [].
Proof.
  unfold previewRow. generalize (@nil (jsstring * option jsstring)).
  generalize (combine (seq 0 (length headers)) headers).
  induction l as [|[i h] l IH]; intros o; [reflexivity|].
  simpl. apply IH.
Qed.


Lemma indexed_keys {V} (f : nat -> V) (headers : list jsstring) (start : nat) :
  List.map fst (List.map (fun ih => (snd ih, f (fst ih)))
                         (combine (seq start (length headers)) headers))
  = headers.
Proof.
  revert start. induction headers as [|h hs IH]; intros start; [reflexivity|].
  simpl. f_equal. apply IH.
Qed.

(** Among the assignments [row[h] = f i] made in header order, the one of
    the last column named [h] is read back. *)
Lemma get_rev_indexed {V} (f : nat -> V) (h : jsstring)
  (headers : list jsstring) (start i : nat) :
  nth_error headers i = Some h ->
  (forall j, i < j -> nth_error headers j <> Some h) ->
  JSObject.get h
    (rev (List.map (fun ih => (snd ih, f (fst ih)))
                   (combine (seq start (length headers)) headers)))
  = Some (f (start + i)).
Proof.
  revert start i. induction headers as [|h0 hs IH]; intros start i Hi Hlast.
  - destruct i; discriminate.
  - cbn [length seq combine List.map rev fst snd]. rewrite get_app_last.
    destruct i as [|i].
    + injection Hi as ->. rewrite Nat.add_0_r.
      rewrite bool_decide_eq_true_2 by reflexivity.
      assert (Hnone : JSObject.get h
                (rev (List.map (fun ih => (snd ih, f (fst ih)))
                        (combine (seq (S start) (length hs)) hs))) = None).
      { apply get_None. rewrite map_rev, indexed_keys, <- in_rev.
        intros Hin. apply In_nth_error in Hin as [j Hj].
        apply (Hlast (S j)); [lia | exact Hj]. }
      rewrite Hnone. reflexivity.
    + rewrite (IH (S start) i Hi).
      * f_equal. f_equal. lia.
      * intros j Hj. apply (Hlast (S j)). lia.
Qed.

(** What a preview row holds under the name of a column that no later
    column shares. *)
Lemma previewRow_get (d : char) (headers : list jsstring) (line : jsstring)
  (i : nat) (h : jsstring) :
  nth_error headers i = Some h ->
  (forall j, i < j -> nth_error headers j <> Some h) ->
  JSObject.get h (previewRow d headers line)
  = Some (nth_error (splitLine d line) i).
Proof.
  intros Hi Hlast. rewrite previewRow_eq, get_fold_set.
  rewrite (get_rev_indexed (fun i => nth_error (splitLine d line) i)
             h headers 0 i Hi Hlast).
  reflexivity.
Qed.

Lemma previewRow_keys (d : char) (headers : list jsstring) (line : jsstring)
  (h : jsstring) :
  In h (List.map fst (previewRow d headers line)) <-> In h headers.
Proof.
  rewrite previewRow_eq.
  pose proof (get_fold_set h
    (List.map (fun ih => (snd ih, nth_error (splitLine d line) (fst ih)))
              (combine (seq 0 (length headers)) headers))
    []) as Hget.
  cbn [JSObject.get] in Hget. rewrite get_In, Hget.
  match goal with
  | |- context [JSObject.get h (rev ?kvs)] =>
      assert (Hkeys : In h headers <-> JSObject.get h (rev kvs) <> None)
  end.
  { rewrite <- get_In, map_rev, <- in_rev, indexed_keys. reflexivity. }
  rewrite Hkeys.
  destruct (JSObject.get h (rev _)); split; congruence.
Qed.

(** ** Prefixes of lists *)

Lemma firstn_eq_le {A} (l1 l2 : list A) (m n : nat) :
  m <= n -> firstn n l1 = firstn n l2 -> firstn m l1 = firstn m l2.
Proof.
  intros Hmn H. apply (f_equal (firstn m)) in H.
  rewrite !firstn_firstn in H. replace (Nat.min m n) with m in H by lia.
  exact H.
Qed.

Lemma firstn_eq_skipn {A} (l1 l2 : list A) (n : nat) :
  firstn (S n) l1 = firstn (S n) l2 ->
  firstn n (skipn 1 l1) = firstn n (skipn 1 l2).
Proof.
  destruct l1, l2; simpl; intros H; try discriminate; try reflexivity.
  injection H as _ H. exact H.
Qed.

Lemma firstn_eq_length {A} (l1 l2 : list A) (n : nat) :
  firstn n l1 = firstn n l2 ->
  Nat.min (length l1) n = Nat.min (length l2) n.
Proof.
  intros H. apply (f_equal (@length A)) in H. rewrite !length_firstn in H. lia.
Qed.

Lemma firstn_eq_head {A} (l1 l2 : list A) (n : nat) (d : A) :
  firstn (S n) l1 = firstn (S n) l2 -> nth 0 l1 d = nth 0 l2 d.
Proof.
  destruct l1, l2; simpl; intros H; try discriminate; try reflexivity.
  injection H as H _. exact H.
Qed.

Lemma In_firstn {A} (x : A) (n : nat) (l : list A) :
  In x (firstn n l) -> In x l.
Proof.
  intros H. rewrite <- (firstn_skipn n l). apply in_or_app. left. exact H.
Qed.

(** ** Counters as doubles *)

Lemma counterCheck_all : forallFrom counterCheck 2001 0 0%uint63 = true.
Proof. vm_compute. reflexivity. Qed.

Lemma num_lt_succ (n : nat) :
  n <= 2000 -> (num_of_nat n <? num_of_nat (S n))%float = true.
Proof.
  intros Hn.
  pose proof (forallFrom_spec _ _ 0 counterCheck_all n ltac:(lia)) as H.
  unfold counterCheck in H. unfold num_of_nat.
  fold (int_of_nat n). fold (int_of_nat (S n)). rewrite int_of_nat_S.
  exact H.
Qed.

Lemma ltb_notNaN (x y : float) :
  (x <? y)%float = true -> isNaN x = false /\ isNaN y = false.
Proof.
  rewrite FloatAxioms.ltb_spec, !isNaN_spec. unfold SFltb.
  destruct (Prim2SF x), (Prim2SF y); simpl; try discriminate; auto.
Qed.

Lemma ltb_not_leb (x y : float) :
  (x <? y)%float = true -> (y <=? x)%float = false.
Proof.
  rewrite FloatAxioms.ltb_spec, FloatAxioms.leb_spec. unfold SFltb, SFleb.
  rewrite (SFcompare_antisym (Prim2SF x) (Prim2SF y)).
  destruct (SFcompare _ _) as [[]|]; simpl; congruence.
Qed.

Lemma num_notNaN (n : nat) : n <= 2001 -> isNaN (num_of_nat n) = false.
Proof.
  intros Hn. destruct n as [|n].
  - apply (proj1 (ltb_notNaN (num_of_nat 0) (num_of_nat 1)
                    (num_lt_succ 0 ltac:(lia)))).
  - apply (proj2 (ltb_notNaN (num_of_nat n) (num_of_nat (S n))
                    (num_lt_succ n ltac:(lia)))).
Qed.

Lemma num_leb (a b : nat) :
  a <= b -> b <= 2001 -> (num_of_nat a <=? num_of_nat b)%float = true.
Proof.
  induction 1 as [|b Hab IH]; intros Hb.
  - apply leb_refl, num_notNaN, Hb.
  - eapply leb_trans; [apply IH; lia|].
    apply ltb_leb, num_lt_succ. lia.
Qed.

Lemma num_leb_iff (a b : nat) :
  a <= 2001 -> b <= 2001 ->
  (num_of_nat a <=? num_of_nat b)%float = (a <=? b).
Proof.
  intros Ha Hb. destruct (Nat.leb_spec a b) as [Hle|Hlt].
  - apply num_leb; assumption.
  - destruct (num_of_nat a <=? num_of_nat b)%float eqn:Hab; [|reflexivity].
    destruct a as [|a]; [lia|].
    assert (Hba : (num_of_nat b <=? num_of_nat a)%float = true)
      by (apply num_leb; lia).
    pose proof (leb_trans _ _ _ Hab Hba) as H.
    rewrite (ltb_not_leb (num_of_nat a) (num_of_nat (S a))
               (num_lt_succ a ltac:(lia))) in H.
    discriminate.
Qed.

(** The comparator [(a, b) => b[1] - a[1]] on counts. *)
Lemma count_comparator (a b : nat) :
  a <= 2001 -> b <= 2001 ->
  comparatorLe (num_of_nat b - num_of_nat a)%float = (b <=? a).
Proof.
  intros Ha Hb. rewrite comparator_sub_le by (apply num_notNaN; assumption).
  apply num_leb_iff; assumption.
Qed.

(** ** Sorting with a comparator that decides a total preorder *)

Lemma sortInsert_sorted {A} (comparefn : A -> A -> float)
  (R : A -> A -> Prop) (P : A -> Prop) (x : A) (l : list A) :
  (forall a b c, R a b -> R b c -> R a c) ->
  (forall a b, P a -> P b ->
               if comparatorLe (comparefn a b) then R a b else R b a) ->
  P x -> Forall P l -> StronglySorted R l ->
  StronglySorted R (sortInsert comparefn x l).
Proof.
  intros Htrans Hcmp Hx Hl Hsorted.
  induction Hsorted as [|y l' Hsorted IH Hy]; simpl.
  - constructor; [constructor | constructor].
  - inversion Hl as [|? ? Py Pl']; subst.
    specialize (Hcmp x y Hx Py).
    destruct (comparatorLe (comparefn x y)).
    + constructor; [constructor; assumption|].
      constructor; [exact Hcmp|].
      eapply List.Forall_impl; [|exact Hy]. intros z Hz.
      exact (Htrans _ _ _ Hcmp Hz).
    + constructor; [apply IH; exact Pl'|].
      apply List.Forall_forall. intros z Hz.
      apply (Permutation_in _ (sortInsert_perm comparefn x l')) in Hz.
      destruct Hz as [<-|Hz]; [exact Hcmp|].
      rewrite List.Forall_forall in Hy. exact (Hy z Hz).
Qed.

Lemma sort_sorted {A} (comparefn : A -> A -> float)
  (R : A -> A -> Prop) (P : A -> Prop) (l : list A) :
  (forall a b c, R a b -> R b c -> R a c) ->
  (forall a b, P a -> P b ->
               if comparatorLe (comparefn a b) then R a b else R b a) ->
  Forall P l -> StronglySorted R (sort comparefn l).
Proof.
  intros Htrans Hcmp Hl. induction Hl as [|x l Hx Hl IH]; simpl.
  - constructor.
  - apply (sortInsert_sorted comparefn R P); auto.
    apply List.Forall_forall. intros z Hz.
    apply (Permutation_in _ (sort_perm comparefn l)) in Hz.
    rewrite List.Forall_forall in Hl. exact (Hl z Hz).
Qed.

(** ** Objects *)

Lemma set_keys {V} (k : jsstring) (v : V) (o : list (jsstring * V)) :
  List.map fst (JSObject.set k v o)
  = match JSObject.get k o with
    | Some _ => List.map fst o
    | None => List.map fst o ++ [k]
    end.
Proof.
  induction o as [|[k' v'] o IH]; simpl; [reflexivity|].
  destruct (bool_decide (k = k')) eqn:Hk; simpl.
  - apply bool_decide_eq_true in Hk. subst. reflexivity.
  - rewrite IH. destruct (JSObject.get k o); reflexivity.
Qed.

Lemma set_NoDup {V} (k : jsstring) (v : V) (o : list (jsstring * V)) :
  List.NoDup (List.map fst o) -> List.NoDup (List.map fst (JSObject.set k v o)).
Proof.
  intros H. rewrite set_keys.
  destruct (JSObject.get k o) eqn:Hget; [exact H|].
  apply get_None in Hget.
  apply List.NoDup_app; [exact H | repeat constructor; intros [] |].
  intros x Hx [<-|[]]. exact (Hget Hx).
Qed.

Lemma get_In_pair {V} (k : jsstring) (v : V) (o : list (jsstring * V)) :
  List.NoDup (List.map fst o) -> In (k, v) o -> JSObject.get k o = Some v.
Proof.
  induction o as [|[k' v'] o IH]; simpl; intros Hnd Hin; [destruct Hin|].
  inversion Hnd as [|? ? Hk' Hnd']; subst.
  destruct Hin as [[= -> ->]|Hin].
  - rewrite bool_decide_eq_true_2 by reflexivity. reflexivity.
  - rewrite bool_decide_eq_false_2; [exact (IH Hnd' Hin)|].
    intros ->. apply Hk'. apply (in_map fst) in Hin. exact Hin.
Qed.

Lemma occurrences_cons (v x : jsstring) (values : list jsstring) :
  occurrences v (x :: values)
  = (if bool_decide (x = v) then 1 else 0) + occurrences v values.
Proof.
  unfold occurrences. simpl. destruct (bool_decide (x = v)); reflexivity.
Qed.

Lemma occurrences_pos (v : jsstring) (values : list jsstring) :
  In v values <-> 1 <= occurrences v values.
Proof.
  induction values as [|x values IH]; [simpl; unfold occurrences; simpl; lia|].
  rewrite occurrences_cons. simpl.
  destruct (bool_decide (x = v)) eqn:Hx.
  - apply bool_decide_eq_true in Hx. split; [lia | auto].
  - apply bool_decide_eq_false in Hx. rewrite <- IH. simpl. tauto.
Qed.

Lemma occurrences_le (v : jsstring) (values : list jsstring) :
  occurrences v values <= length values.
Proof. apply List.filter_length_le. Qed.

(** The tally loop, from any object it starts with. *)
Lemma countValues_fold (rawValues : list jsstring)
  (counts : list (jsstring * nat)) :
  let final :=
    fold_left (fun counts v =>
                 JSObject.set v (default 0 (JSObject.get v counts) + 1) counts)
              rawValues counts in
  (List.NoDup (List.map fst counts) -> List.NoDup (List.map fst final))
  /\ (forall v, In v (List.map fst final)
                <-> In v (List.map fst counts) \/ In v rawValues)
  /\ forall v, default 0 (JSObject.get v final)
               = default 0 (JSObject.get v counts) + occurrences v rawValues.
Proof.
  revert counts. induction rawValues as [|x rawValues IH]; intros counts.
  - simpl. split; [auto|]. split; [tauto|].
    intros v. unfold occurrences. simpl. lia.
  - cbn zeta. cbn [fold_left].
    destruct (IH (JSObject.set x (default 0 (JSObject.get x counts) + 1)
                               counts)) as (Hnd & Hkeys & Hcount).
    split; [|split].
    + intros H. apply Hnd. apply set_NoDup. exact H.
    + intros v. rewrite Hkeys, set_keys. simpl.
      destruct (JSObject.get x counts) eqn:Hget.
      * assert (In x (List.map fst counts))
          by (apply get_In; rewrite Hget; discriminate).
        split; [tauto|]. intros [?|[<-|?]]; auto.
      * rewrite in_app_iff. simpl. tauto.
    + intros v. rewrite Hcount, occurrences_cons.
      destruct (bool_decide (x = v)) eqn:Hx.
      * apply bool_decide_eq_true in Hx. subst x.
        rewrite get_set_same. simpl. lia.
      * apply bool_decide_eq_false in Hx.
        rewrite get_set_other by (intros ->; apply Hx; reflexivity).
        lia.
Qed.

Lemma countValues_spec (rawValues : list jsstring) :
  List.NoDup (List.map fst (countValues rawValues))
  /\ (forall v, In v (List.map fst (countValues rawValues))
                <-> In v rawValues)
  /\ forall v c, In (v, c) (countValues rawValues) ->
                 c = occurrences v rawValues.
Proof.
  destruct (countValues_fold rawValues []) as (Hnd & Hkeys & Hcount).
  fold (countValues rawValues) in *.
  assert (Hnodup : List.NoDup (List.map fst (countValues rawValues)))
    by (apply Hnd; constructor).
  split; [exact Hnodup|]. split.
  - intros v. rewrite Hkeys. simpl. tauto.
  - intros v c Hin. specialize (Hcount v).
    rewrite (get_In_pair v c _ Hnodup Hin) in Hcount. exact Hcount.
Qed.

Lemma insertIndexed_perm {V} (i : N) (kv : jsstring * V)
  (l : list (N * (jsstring * V))) :
  Permutation (JSObject.insertIndexed i kv l) ((i, kv) :: l).
Proof.
  induction l as [|[j kv'] l IH]; simpl; [reflexivity|].
  destruct (i <? j)%N; [reflexivity|].
  rewrite IH. apply perm_swap.
Qed.

Lemma filter_split_perm {A} (p : A -> bool) (l : list A) :
  Permutation (List.filter p l ++ List.filter (fun x => negb (p x)) l) l.
Proof.
  induction l as [|x l IH]; simpl; [reflexivity|].
  destruct (p x); simpl.
  - constructor. exact IH.
  - rewrite <- Permutation_middle. constructor. exact IH.
Qed.

(** [Object.entries] lists every own property once. *)
Lemma entries_perm {V} (o : list (jsstring * V)) :
  Permutation (JSObject.entries o) o.
Proof.
  unfold JSObject.entries, JSObject.indexedEntries.
  set (isIndex := fun kv : jsstring * V =>
                    match JSObject.arrayIndex (fst kv) with
                    | Some _ => true
                    | None => false
                    end).
  assert (Hfold : forall acc,
             Permutation
               (List.map snd
                  (fold_left
                     (fun acc kv => match JSObject.arrayIndex (fst kv) with
                                    | Some i => JSObject.insertIndexed i kv acc
                                    | None => acc
                                    end) o acc))
               (List.map snd acc ++ List.filter isIndex o)).
  { induction o as [|kv o IH]; intros acc; simpl.
    - rewrite app_nil_r. reflexivity.
    - rewrite IH. unfold isIndex at 2.
      destruct (JSObject.arrayIndex (fst kv)) as [i|]; [|reflexivity].
      rewrite (Permutation_map snd (insertIndexed_perm i kv acc)). simpl.
      apply Permutation_middle. }
  rewrite (Hfold []). simpl.
  rewrite <- (filter_split_perm isIndex o) at 3.
  apply Permutation_app_head.
  erewrite List.filter_ext; [reflexivity|].
  intros kv. unfold isIndex. destruct (JSObject.arrayIndex (fst kv)); reflexivity.
Qed.

(** ** Top values *)

Lemma displayName_length (name : jsstring) : length (displayName name) <= 18.
Proof.
  unfold displayName, substring0.
  destruct (Nat.ltb_spec 15 (length name)); [|lia].
  rewrite length_app, length_firstn.
  change (length (js "...")) with 3. lia.
Qed.

(** The entries behind the top values: every distinct value once, with the
    number of its occurrences, most frequent first. *)
Lemma buildTopValues_spec (rawValues : list jsstring) :
  length rawValues <= 2001 ->
  exists ranked : list (jsstring * nat),
    Permutation ranked (countValues rawValues)
    /\ descendingCounts ranked
    /\ buildTopValues rawValues
       = List.map (fun e => Bin.mk (displayName (fst e)) (snd e))
                  (firstn 20 ranked).
Proof.
  intros Hlen.
  exists (sort (fun a b : jsstring * nat =>
                  (num_of_nat (snd b) - num_of_nat (snd a))%float)
               (JSObject.entries (countValues rawValues))).
  split; [|split].
  - rewrite sort_perm. apply entries_perm.
  - apply (sort_sorted _ _ (fun e : jsstring * nat => snd e <= 2001)).
    + intros a b c Hab Hbc. cbv beta in *. lia.
    + intros a b Ha Hb. rewrite count_comparator by assumption.
      destruct (Nat.leb_spec (snd b) (snd a)); cbv beta; lia.
    + apply List.Forall_forall. intros [v c] Hin.
      apply (Permutation_in _ (entries_perm _)) in Hin.
      apply (proj2 (proj2 (countValues_spec rawValues))) in Hin. subst c.
      simpl. pose proof (occurrences_le v rawValues). lia.
  - unfold buildTopValues. apply map_ext. intros [v c]. reflexivity.
Qed.

Lemma unique_NoDup (l l' : list jsstring) :
  List.NoDup l -> (forall v, In v l <-> In v l') ->
  size (list_to_set l' : gset (jsstring)) = length l.
Proof.
  intros Hnd Hsame.
  rewrite <- (size_list_to_set (C := gset (list N)) l)
    by (apply NoDup_ListNoDup; exact Hnd).
  f_equal. apply set_eq. intros x.
  rewrite !elem_of_list_to_set, !list_elem_of_In. symmetry. apply Hsame.
Qed.

(** The ranking behind the top values of a sample of at most 2001 values:
    the distinct values with their numbers of occurrences, most frequent
    first. *)
Lemma topValues_ranking (rawValues : list jsstring) :
  length rawValues <= 2001 ->
  exists ranked : list (jsstring * nat),
    List.NoDup (List.map fst ranked)
    /\ (forall v, In v (List.map fst ranked) <-> In v rawValues)
    /\ Forall (fun e => snd e = occurrences (fst e) rawValues) ranked
    /\ descendingCounts ranked
    /\ length ranked = size (list_to_set rawValues : gset (jsstring))
    /\ buildTopValues rawValues
       = List.map (fun e => Bin.mk (displayName (fst e)) (snd e))
                  (firstn 20 ranked).
Proof.
  intros Hlen.
  destruct (buildTopValues_spec rawValues Hlen)
    as (ranked & Hperm & Hsorted & Htop).
  destruct (countValues_spec rawValues) as (Hnodup & Hkeys & Hcounts).
  assert (Hnames : Permutation (List.map fst ranked)
                     (List.map fst (countValues rawValues)))
    by (apply Permutation_map; exact Hperm).
  assert (Hranked_nodup : List.NoDup (List.map fst ranked)).
  { apply (Permutation_NoDup (Permutation_sym Hnames)). exact Hnodup. }
  assert (Hranked_keys :
            forall v, In v (List.map fst ranked) <-> In v rawValues).
  { intros v. rewrite <- Hkeys. split; apply Permutation_in;
      [exact Hnames | apply Permutation_sym; exact Hnames]. }
  exists ranked.
  split; [exact Hranked_nodup|]. split; [exact Hranked_keys|].
  split; [|split; [exact Hsorted|split; [|exact Htop]]].
  - apply List.Forall_forall. intros [v c] Hin. simpl.
    apply Hcounts. apply (Permutation_in _ Hperm). exact Hin.
  - rewrite (unique_NoDup (List.map fst ranked) rawValues
               Hranked_nodup Hranked_keys).
    rewrite length_map. reflexivity.
Qed.

Lemma buildTopValues_length (rawValues : list jsstring) :
  length rawValues <= 2001 ->
  length (buildTopValues rawValues)
  = Nat.min (size (list_to_set rawValues : gset (jsstring))) 20.
Proof.
  intros Hlen.
  destruct (topValues_ranking rawValues Hlen)
    as (ranked & _ & _ & _ & _ & Hunique & ->).
  rewrite length_map, length_firstn, Hunique. lia.
Qed.

(** ** Ties among the top values *)











(** ** The export *)

Lemma evenQuotes_escapeQuotes (s : jsstring) :
  evenQuotes (Dashboard.escapeQuotes s) = true.
Proof.
  induction s as [|c s IH]; [reflexivity|].
  unfold Dashboard.escapeQuotes in *. cbn [flat_map].
  destruct (c =? DQUOTE)%N eqn:Hc.
  - simpl. rewrite IH. reflexivity.
  - simpl. rewrite Hc. exact IH.
Qed.

Lemma delimitersEnclosed_escapeQuotes (d : char) (s : jsstring) :
  (d =? DQUOTE)%N = false ->
  delimitersEnclosed d (Dashboard.escapeQuotes s ++ [DQUOTE]) = true.
Proof.
  intros Hd.
  assert (Hq : (DQUOTE =? d)%N = false) by (rewrite N.eqb_sym; exact Hd).
  induction s as [|c s IH].
  - cbn [Dashboard.escapeQuotes flat_map app delimitersEnclosed].
    rewrite Hq. reflexivity.
  - pose proof (evenQuotes_escapeQuotes s) as Hs.
    unfold Dashboard.escapeQuotes in *. cbn [flat_map].
    destruct (N.eqb_spec c DQUOTE) as [->|Hc].
    + cbn [app delimitersEnclosed]. rewrite Hq. exact IH.
    + cbn [app delimitersEnclosed]. rewrite IH, andb_true_r.
      destruct (c =? d)%N; [|reflexivity].
      rewrite evenQuotes_app, Hs. reflexivity.
Qed.

Lemma closedField_quoted (d : char) (s : jsstring) :
  (d =? DQUOTE)%N = false ->
  closedField d (DQUOTE :: Dashboard.escapeQuotes s ++ [DQUOTE]) = true.
Proof.
  intros Hd. unfold closedField. apply andb_true_iff. split.
  - cbn [evenQuotes]. rewrite N.eqb_refl, evenQuotes_app,
      evenQuotes_escapeQuotes. reflexivity.
  - cbn [delimitersEnclosed]. rewrite N.eqb_sym, Hd.
    apply delimitersEnclosed_escapeQuotes, Hd.
Qed.

Lemma trimStart_quote (s : jsstring) :
  trimStart (DQUOTE :: s) = DQUOTE :: s.
Proof. reflexivity. Qed.

Lemma trim_quoted (s : jsstring) :
  trim (DQUOTE :: s ++ [DQUOTE]) = DQUOTE :: s ++ [DQUOTE].
Proof.
  unfold trim, trimEnd. rewrite trimStart_quote.
  assert (Hrev : rev (DQUOTE :: s ++ [DQUOTE]) = DQUOTE :: rev (DQUOTE :: s)).
  { change (DQUOTE :: s ++ [DQUOTE]) with ((DQUOTE :: s) ++ [DQUOTE]).
    apply rev_app_distr. }
  rewrite Hrev, trimStart_quote, <- Hrev. apply rev_involutive.
Qed.

Lemma stripQuotes_quoted (s : jsstring) :
  stripQuotes (DQUOTE :: s ++ [DQUOTE]) = s.
Proof.
  unfold stripQuotes. simpl. rewrite rev_app_distr. simpl.
  apply rev_involutive.
Qed.

(** A line of quoted values reads back, with the comma, as the values with
    their quotes doubled. *)
Lemma quoted_line_reads_back (values : list jsstring) :
  values <> [] ->
  splitLine COMMA
    (joinFields COMMA
       (List.map (fun v => DQUOTE :: Dashboard.escapeQuotes v ++ [DQUOTE])
                 values))
  = List.map Dashboard.escapeQuotes values.
Proof.
  intros Hne. unfold splitLine. rewrite splitRegex_joinFields.
  - rewrite List.map_map. apply map_ext. intros v.
    rewrite trim_quoted. apply stripQuotes_quoted.
  - reflexivity.
  - destruct values; [contradiction | discriminate].
  - apply forallb_forall. intros f Hf.
    apply in_map_iff in Hf as (v & <- & _).
    apply closedField_quoted. reflexivity.
Qed.

Lemma escapeQuotes_no_quote (s : jsstring) :
  ~ In DQUOTE s -> Dashboard.escapeQuotes s = s.
Proof.
  induction s as [|c s IH]; intros H; [reflexivity|].
  unfold Dashboard.escapeQuotes in *. cbn [flat_map].
  destruct (N.eqb_spec c DQUOTE) as [->|_].
  - exfalso. apply H. left. reflexivity.
  - simpl. f_equal. apply IH. intros Hin. apply H. right. exact Hin.
Qed.

(** ** Sorted and constant numbers *)

Lemma ascending_nth (l : list float) (i j : nat) (a b : float) :
  ascending l -> Forall (fun x => isNaN x = false) l -> i <= j ->
  nth_error l i = Some a -> nth_error l j = Some b ->
  (a <=? b)%float = true.
Proof.
  intros Hsorted. revert i j.
  induction Hsorted as [|x l Hsorted IH Hx]; intros i j Hnan Hij Hi Hj.
  - destruct i; discriminate.
  - inversion Hnan as [|? ? Hxnan Hlnan]; subst.
    destruct i as [|i], j as [|j]; simpl in Hi, Hj.
    + injection Hi as <-. injection Hj as <-. apply leb_refl, Hxnan.
    + injection Hi as <-. apply nth_error_In in Hj.
      rewrite List.Forall_forall in Hx. exact (Hx b Hj).
    + lia.
    + apply (IH i j); auto. lia.
Qed.

(** The least and the greatest of copies of one number. *)
Lemma Math_min_max_constant (values : list float) (x : float) :
  values <> [] -> Forall (fun y => isNaN y = false) values ->
  Forall (eq x) values ->
  Math_min values = x /\ Math_max values = x.
Proof.
  intros Hne Hnan Hsame.
  destruct (Math_min_spec _ Hne Hnan) as [Hmin_in _].
  destruct (Math_max_spec _ Hne Hnan) as [Hmax_in _].
  rewrite List.Forall_forall in Hsame.
  split; symmetry; apply Hsame; assumption.
Qed.

(** [Number] reads a string of white space as [+0]. *)
Lemma Number_whitespace (v : jsstring) :
  forallb isWhiteSpace v = true -> Number v = zero.
Proof.
  intros H. rewrite forallb_forall in H. unfold Number.
  rewrite (trim_whitespace v H). reflexivity.
Qed.

(** ** Profiles on an arbitrary host *)

Section Profiles.
Variable Date_parse : jsstring -> number.
Variable toFixed1 : number -> jsstring.
Variable numberToString : number -> jsstring.
Variable isoDay : number -> jsstring.
Variable fileName : jsstring.

Local Abbreviation parseCSV :=
  (parseCSV Date_parse toFixed1 numberToString isoDay fileName).

(** X1. [parseCSV] rejects with the encoding error exactly the texts that
    hold the replacement character U+FFFD, whatever else they hold. *)
Theorem encoding_error_iff_replacement_character (text : jsstring) :
  parseCSV text = Rejected EncodingError <-> In REPLACEMENT_CHARACTER text.
Proof.
  rewrite <- includes_In, parseCSV_eq.
  destruct (includes REPLACEMENT_CHARACTER text); [tauto|].
  split; [|discriminate].
  repeat match goal with
         | |- context [if ?b then _ else _] => destruct b
         end; discriminate.
Qed.

(** X2. A text of a single line, that is one without a line feed, is
    rejected for insufficient data when it passes the encoding check. *)
Theorem single_line_is_insufficient (text : jsstring) :
  includes REPLACEMENT_CHARACTER text = false ->
  includes LF text = false ->
  parseCSV text = Rejected InsufficientDataError.
Proof.
  intros Henc Hlf. rewrite parseCSV_eq, Henc.
  assert (Hlf' : ~ In LF text)
    by (intros Hin; apply includes_In in Hin; congruence).
  unfold nonBlankLines. rewrite (splitNewlines_single text Hlf'). simpl.
  destruct (negb _); reflexivity.
Qed.

(** X3. A text made of white space and line terminators only is rejected
    for insufficient data. *)
Theorem blank_text_is_insufficient (text : jsstring) :
  forallb isWhiteSpace text = true ->
  parseCSV text = Rejected InsufficientDataError.
Proof.
  intros Hws. rewrite forallb_forall in Hws. rewrite parseCSV_eq.
  destruct (includes REPLACEMENT_CHARACTER text) eqn:Hinc.
  { apply includes_In in Hinc. apply Hws in Hinc. discriminate. }
  rewrite (nonBlankLines_whitespace text Hws). reflexivity.
Qed.

(** X4. The integrity error reports the number of lines the check covers,
    header line included, which lies between 2 and 100; a header field
    count of at least one; and a malformed count that is below the number
    of lines and exceeds a fifth of it. *)
Theorem integrity_error_payload (text : jsstring)
  (malformedCount validationLimit expectedColumnCount : nat) :
  parseCSV text
  = Rejected (DataIntegrityError malformedCount validationLimit
                                 expectedColumnCount) ->
  validationLimit = Nat.min (length (nonBlankLines text)) 100
  /\ 2 <= validationLimit <= 100
  /\ expectedColumnCount = length (headersOf text)
  /\ 1 <= expectedColumnCount
  /\ malformedCount = malformedRows text
  /\ malformedCount < validationLimit
  /\ validationLimit < 5 * malformedCount.
Proof.
  rewrite parseCSV_eq.
  destruct (includes REPLACEMENT_CHARACTER text); [discriminate|].
  destruct (Nat.ltb_spec (length (nonBlankLines text)) 2); [discriminate|].
  destruct (length (headersOf text) <? 1); [discriminate|].
  rewrite countMalformed_eq.
  pose proof (malformedRows_le text) as Hle.
  rewrite tooManyMalformed_spec;
    [|unfold validationLimitOf; lia
     |unfold validationLimitOf in *; lia].
  destruct (Nat.ltb_spec (validationLimitOf text) (5 * malformedRows text));
    [|discriminate].
  intros [= <- <- <-]. unfold validationLimitOf in *.
  pose proof (splitLine_length (delimiterOf text) (firstLineOf text)).
  fold (headersOf text) in *. repeat split; lia.
Qed.

Lemma parseCSV_resolved (text : jsstring) (s : DatasetSummary.t) :
  parseCSV text = Resolved s ->
  includes REPLACEMENT_CHARACTER text = false
  /\ 2 <= length (nonBlankLines text)
  /\ 5 * malformedRows text <= validationLimitOf text
  /\ s = DatasetSummary.mk
           (length (dataLinesOf text))
           (imap (analyzeColumn Date_parse toFixed1 numberToString isoDay
                    (sampleLimitOf text)
                    (collectColumnValues (delimiterOf text)
                       (length (headersOf text)) (dataLinesOf text)
                       (sampleLimitOf text)))
                 (headersOf text))
           (List.map (previewRow (delimiterOf text) (headersOf text))
                     (slice 1 51 (nonBlankLines text)))
           fileName.
Proof.
  rewrite parseCSV_eq.
  destruct (includes REPLACEMENT_CHARACTER text); [discriminate|].
  destruct (Nat.ltb_spec (length (nonBlankLines text)) 2); [discriminate|].
  destruct (length (headersOf text) <? 1); [discriminate|].
  rewrite countMalformed_eq.
  rewrite tooManyMalformed_spec;
    [|unfold validationLimitOf; lia
     |etransitivity; [apply malformedRows_le|unfold validationLimitOf; lia]].
  destruct (Nat.ltb_spec (validationLimitOf text) (5 * malformedRows text));
    [discriminate|].
  intros [= <-]. auto.
Qed.

Lemma names_imap (f : nat -> jsstring -> ColumnInfo.t) (hs : list jsstring) :
  (forall i h, ColumnInfo.name (f i h) = h) ->
  List.map ColumnInfo.name (imap f hs) = hs.
Proof.
  revert f. induction hs as [|h hs IH]; intros f Hf; [reflexivity|].
  simpl. rewrite Hf. f_equal. apply IH. intros i h'. apply Hf.
Qed.

(** X5. A resolved profile has one column per header field, named after
    the header fields in their order, and at least one; its row count is
    the number of non-blank lines less the header line, hence at least one;
    its preview holds the first 50 data rows, or all of them when there are
    fewer; and it carries the file name. *)
Theorem resolved_summary_shape (text : jsstring) (s : DatasetSummary.t) :
  parseCSV text = Resolved s ->
  List.map ColumnInfo.name (DatasetSummary.columns s) = headersOf text
  /\ 1 <= length (DatasetSummary.columns s)
  /\ DatasetSummary.rowCount s = length (nonBlankLines text) - 1
  /\ 1 <= DatasetSummary.rowCount s
  /\ length (DatasetSummary.preview s)
     = Nat.min (DatasetSummary.rowCount s) 50
  /\ DatasetSummary.fileName s = fileName.
Proof.
  intros Hs. destruct (parseCSV_resolved text s Hs) as (_ & Hlines & _ & ->).
  cbn [DatasetSummary.columns DatasetSummary.rowCount DatasetSummary.preview
       DatasetSummary.fileName].
  assert (Hrows : length (dataLinesOf text) = length (nonBlankLines text) - 1).
  { unfold dataLinesOf. rewrite length_skipn. reflexivity. }
  split; [|split; [|split; [|split; [|split]]]].
  - apply names_imap. intros i h. reflexivity.
  - rewrite length_imap. apply splitLine_length.
  - exact Hrows.
  - lia.
  - rewrite length_map. unfold slice. rewrite length_firstn.
    fold (dataLinesOf text). lia.
  - reflexivity.
Qed.

Lemma unique_zero (l : list jsstring) :
  size (list_to_set l : gset (jsstring)) = 0 <-> l = [].
Proof.
  split.
  - intros H. apply size_empty_inv in H. destruct l as [|x l]; [reflexivity|].
    exfalso. apply (not_elem_of_empty (C := gset (list N)) x).
    rewrite <- H. apply elem_of_list_to_set. left.
  - intros ->. reflexivity.
Qed.

(** X6. In a resolved profile the missing count of a column lies between
    zero and the size of the sample window. The example value is absent
    exactly when every sampled row misses the column, and exactly when the
    unique count is zero; an example value that is present is never the
    empty string, and it is a value of the column sample. *)
Theorem missing_example_unique (text : jsstring) (s : DatasetSummary.t)
  (i : nat) (col : ColumnInfo.t) :
  parseCSV text = Resolved s ->
  DatasetSummary.columns s !! i = Some col ->
  let window := Z.of_nat (Nat.min (DatasetSummary.rowCount s) 2000) in
  (0 <= ColumnInfo.missing col <= window)%Z
  /\ (ColumnInfo.example col = None <-> ColumnInfo.missing col = window)
  /\ (ColumnInfo.example col = None <-> ColumnInfo.unique col = 0)
  /\ (forall v, ColumnInfo.example col = Some v ->
                v <> [] /\ In v (ColumnSample text i)).
Proof.
  intros Hs Hcol window. subst window.
  destruct (profile_column _ _ _ _ _ text s i col Hs Hcol)
    as (-> & header & _ & ->).
  pose proof (ColumnSample_length text i) as Hlen.
  pose proof (ColumnSample_nonempty_values text i) as Hne.
  unfold sampleLimitOf in *.
  cbn [ColumnInfo.missing ColumnInfo.example ColumnInfo.unique
       DatasetSummary.rowCount].
  split; [lia|]. split; [|split].
  - destruct (ColumnSample text i); cbn [hd_error length] in *; split;
      intros H; try discriminate; try reflexivity; lia.
  - rewrite unique_zero.
    destruct (ColumnSample text i); cbn [hd_error]; split; intros H;
      try discriminate; reflexivity.
  - intros v Hv. destruct (ColumnSample text i) as [|v' rest]; [discriminate|].
    injection Hv as ->. inversion Hne; subst. split; [|left; reflexivity].
    intros ->. discriminate.
Qed.

Lemma buildHistogram_length (label single : number -> jsstring)
  (values : list number) (lowest highest : number) :
  length (buildHistogram label single values lowest highest) = 1
  \/ length (buildHistogram label single values lowest highest) = 10.
Proof.
  unfold buildHistogram. destruct (_ <? _)%float.
  - right. rewrite length_map, length_seq. reflexivity.
  - left. reflexivity.
Qed.

(** X7. In a resolved profile a column is numeric, date or string, never
    boolean or unknown, and its statistics have the shape of its type: a
    numeric column has a histogram of one or ten bins, min, max, mean and
    quantiles and no top values; a date column has a histogram of one or
    ten bins, min and max and nothing else; a string column has top values
    and nothing else. *)
Theorem stats_shape_by_type (text : jsstring) (s : DatasetSummary.t)
  (i : nat) (col : ColumnInfo.t) :
  parseCSV text = Resolved s ->
  DatasetSummary.columns s !! i = Some col ->
  statsShape (ColumnInfo.type col) (ColumnInfo.stats col).
Proof.
  intros Hs Hcol.
  destruct (profile_column _ _ _ _ _ text s i col Hs Hcol)
    as (_ & header & _ & ->).
  unfold statsShape. cbn [ColumnInfo.type ColumnInfo.stats].
  rewrite columnType_eq, columnStats_eq.
  destruct (isNumeric Date_parse (ColumnSample text i)).
  - unfold numericStats. do 5 eexists. split; [reflexivity|].
    apply buildHistogram_length.
  - destruct (isDate Date_parse (ColumnSample text i)).
    + unfold dateStats. do 3 eexists. split; [reflexivity|].
      apply buildHistogram_length.
    + unfold stringStats. eexists. reflexivity.
Qed.

(** A preview row is built from the data line of its rank, among the
    first 50. *)
Lemma preview_lookup (text : jsstring) (s : DatasetSummary.t)
  (k : nat) (row : list (jsstring * option jsstring)) :
  parseCSV text = Resolved s ->
  DatasetSummary.preview s !! k = Some row ->
  exists line,
    dataLinesOf text !! k = Some line /\ k < 50
    /\ row = previewRow (delimiterOf text) (headersOf text) line.
Proof.
  intros Hs Hrow.
  destruct (parseCSV_resolved text s Hs) as (_ & _ & _ & ->).
  cbn [DatasetSummary.preview] in Hrow.
  rewrite list_lookup_fmap in Hrow.
  destruct (slice 1 51 (nonBlankLines text) !! k) as [line|] eqn:Hline;
    [|discriminate].
  injection Hrow as <-. exists line.
  unfold slice in Hline. fold (dataLinesOf text) in Hline.
  assert (Hk : k < 50).
  { apply lookup_lt_Some in Hline. rewrite length_firstn in Hline. lia. }
  rewrite lookup_take_lt in Hline by exact Hk.
  split; [exact Hline|]. split; [exact Hk | reflexivity].
Qed.

(** X8. A preview row of a resolved profile is built from the data line of
    its rank, among the first 50. Its properties are the header names;
    reading the name [h] of a column that no later column shares yields the
    field of that column in the line, or [undefined] when the line is too
    short: of columns that share a name, the last one is kept. The name
    [__proto__], whose assignment JavaScript does not store as a property,
    is left aside. *)
Theorem preview_row_lookup (text : jsstring) (s : DatasetSummary.t)
  (k : nat) (row : list (jsstring * option jsstring)) :
  parseCSV text = Resolved s ->
  DatasetSummary.preview s !! k = Some row ->
  exists line,
    dataLinesOf text !! k = Some line /\ k < 50
    /\ (forall h, h <> js "__proto__" ->
                  (In h (List.map fst row) <-> In h (headersOf text)))
    /\ forall i h,
         nth_error (headersOf text) i = Some h ->
         (forall j, i < j -> nth_error (headersOf text) j <> Some h) ->
         h <> js "__proto__" ->
         JSObject.get h row
         = Some (nth_error (splitLine (delimiterOf text) line) i).
Proof.
  intros Hs Hrow.
  destruct (preview_lookup text s k row Hs Hrow) as (line & Hline & Hk & ->).
  exists line. split; [exact Hline|]. split; [exact Hk|]. split.
  - intros h _. apply previewRow_keys.
  - intros i h Hi Hlast _. apply previewRow_get; assumption.
Qed.

(** X18. The CSV export of a resolved profile is the header names joined by
    commas, followed by one line per preview row. The line of a row, read
    back with the comma as delimiter, has one field per header; the field
    of a column whose name no later column shares is the field that column
    had in the data line, with every double quote doubled, and the empty
    string when the data line was too short; a field without a double
    quote reads back unchanged. The name [__proto__] is left aside. *)
Theorem export_reads_back (text : jsstring) (s : DatasetSummary.t)
  (k : nat) (row : list (jsstring * option jsstring)) :
  parseCSV text = Resolved s ->
  DatasetSummary.preview s !! k = Some row ->
  exists (rows : list jsstring) (line dataLine : jsstring),
    Dashboard.handleDownloadCSV s = Some (joinFields LF rows)
    /\ length rows = S (length (DatasetSummary.preview s))
    /\ nth_error rows 0 = Some (joinFields COMMA (headersOf text))
    /\ nth_error rows (S k) = Some line
    /\ dataLinesOf text !! k = Some dataLine
    /\ length (splitLine COMMA line) = length (headersOf text)
    /\ (forall i h,
          nth_error (headersOf text) i = Some h ->
          (forall j, i < j -> nth_error (headersOf text) j <> Some h) ->
          h <> js "__proto__" ->
          nth_error (splitLine COMMA line) i
          = Some (Dashboard.escapeQuotes
                    (default [] (nth_error
                                   (splitLine (delimiterOf text) dataLine)
                                   i))))
    /\ forall v, includes DQUOTE v = false -> Dashboard.escapeQuotes v = v.
Proof.
  intros Hs Hrow.
  destruct (preview_lookup text s k row Hs Hrow)
    as (dataLine & Hline & Hk & Hrow_eq).
  destruct (parseCSV_resolved text s Hs) as (_ & _ & _ & Hs_eq).
  assert (Hnames : List.map ColumnInfo.name (DatasetSummary.columns s)
                   = headersOf text).
  { rewrite Hs_eq. cbn [DatasetSummary.columns].
    apply names_imap. intros i h. reflexivity. }
  pose proof (splitLine_length (delimiterOf text) (firstLineOf text)) as Hh.
  fold (headersOf text) in Hh.
  exists (Dashboard.csvRows s),
         (joinFields COMMA
            (List.map (Dashboard.quotedValue row) (headersOf text))),
         dataLine.
  assert (Hread :
    splitLine COMMA
      (joinFields COMMA
         (List.map (Dashboard.quotedValue row) (headersOf text)))
    = List.map Dashboard.escapeQuotes
        (List.map (fun h => match JSObject.get h row with
                            | Some (Some v) => v
                            | _ => []
                            end) (headersOf text))).
  { rewrite <- quoted_line_reads_back.
    - rewrite List.map_map. reflexivity.
    - destruct (headersOf text); [simpl in Hh; lia | discriminate]. }
  split; [|split; [|split; [|split; [|split; [|split; [|split]]]]]].
  - unfold Dashboard.handleDownloadCSV.
    destruct (DatasetSummary.preview s); [discriminate | reflexivity].
  - unfold Dashboard.csvRows. simpl. rewrite length_map. reflexivity.
  - unfold Dashboard.csvRows. rewrite Hnames. reflexivity.
  - unfold Dashboard.csvRows. rewrite Hnames. simpl.
    rewrite nth_error_map.
    replace (nth_error (DatasetSummary.preview s) k) with (Some row);
      [reflexivity|].
    symmetry. clear -Hrow. revert k Hrow.
    induction (DatasetSummary.preview s) as [|r rs IH]; intros [|k] H;
      try discriminate; [exact H | apply IH; exact H].
  - exact Hline.
  - rewrite Hread, !length_map. reflexivity.
  - intros i h Hi Hlast _. rewrite Hread, !nth_error_map, Hi. simpl.
    rewrite Hrow_eq, (previewRow_get _ _ _ i h Hi Hlast).
    destruct (nth_error (splitLine (delimiterOf text) dataLine) i);
      reflexivity.
  - intros v Hv. apply escapeQuotes_no_quote.
    intros Hin. apply includes_In in Hin. congruence.
Qed.

(** [parseCSV] reads the text through the encoding check and the non-blank
    lines only. *)
Lemma parseCSV_lines (text1 text2 : jsstring) :
  includes REPLACEMENT_CHARACTER text1 = includes REPLACEMENT_CHARACTER text2 ->
  nonBlankLines text1 = nonBlankLines text2 ->
  parseCSV text1 = parseCSV text2.
Proof.
  intros Henc Hlines. rewrite !parseCSV_eq.
  unfold headersOf, validationLimitOf, sampleLimitOf, dataLinesOf, delimiterOf,
    firstLineOf.
  rewrite Henc, Hlines. reflexivity.
Qed.

(** X10. Line endings do not matter: the same lines ended by carriage return
    and line feed, or by line feed alone, settle [parseCSV] the same way. *)
Theorem line_endings_do_not_matter (ls : list jsstring) :
  forallb plainLine ls = true ->
  parseCSV (unlinesCRLF ls) = parseCSV (unlines ls).
Proof.
  intros H. apply parseCSV_lines.
  - rewrite includes_unlines, includes_unlinesCRLF. reflexivity.
  - rewrite nonBlankLines_unlines by exact H.
    apply nonBlankLines_unlinesCRLF. exact H.
Qed.

(** X11. Blank lines are dropped wherever they stand: a text and the text
    without its lines that are empty or hold white space only settle
    [parseCSV] the same way. *)
Theorem blank_lines_are_dropped (ls : list jsstring) :
  forallb plainLine ls = true ->
  parseCSV (unlines ls)
  = parseCSV (unlines (List.filter (fun l => negb (isBlank l)) ls)).
Proof.
  intros H.
  assert (H' : forallb plainLine
                 (List.filter (fun l => negb (isBlank l)) ls) = true).
  { apply forallb_forall. intros l Hl. apply List.filter_In in Hl as [Hl _].
    rewrite forallb_forall in H. exact (H l Hl). }
  apply parseCSV_lines.
  - rewrite !includes_unlines.
    clear. induction ls as [|l ls IH]; [reflexivity|].
    simpl. destruct (isBlank l) eqn:Hb; simpl; rewrite IH; [|reflexivity].
    replace (includes REPLACEMENT_CHARACTER l) with false; [reflexivity|].
    symmetry. apply blank_line_no_replacement. exact Hb.
  - rewrite !nonBlankLines_unlines by assumption.
    clear. induction ls as [|l ls IH]; [reflexivity|].
    simpl. destruct (isBlank l) eqn:Hb; simpl; [exact IH|].
    rewrite Hb. simpl. f_equal. exact IH.
Qed.

(** The columns of a profile, over the column samples. *)
Lemma columns_of_samples (text : jsstring) :
  imap (analyzeColumn Date_parse toFixed1 numberToString isoDay
          (sampleLimitOf text)
          (collectColumnValues (delimiterOf text) (length (headersOf text))
             (dataLinesOf text) (sampleLimitOf text)))
       (headersOf text)
  = imap (fun i header =>
            ColumnInfo.mk header
              (columnType Date_parse (ColumnSample text i))
              (Z.of_nat (sampleLimitOf text)
               - Z.of_nat (length (ColumnSample text i)))%Z
              (size (list_to_set (ColumnSample text i) : gset (jsstring)))
              (hd_error (ColumnSample text i))
              (columnStats Date_parse toFixed1 numberToString isoDay
                 (ColumnSample text i)))
         (headersOf text).
Proof.
  apply imap_ext. intros i header Hheader.
  apply lookup_lt_Some in Hheader. rewrite analyzeColumn_eq. cbn zeta.
  rewrite collectColumnValues_lookup by exact Hheader. reflexivity.
Qed.

(** X9. Column analysis and preview never look past the first 2000 data
    rows: of two texts whose first 2001 non-blank lines agree, if one is
    resolved then so is the other, provided it passes the encoding check,
    and the two profiles have the same columns and the same preview. *)
Theorem columns_read_first_2000_rows (text1 text2 : jsstring)
  (s1 : DatasetSummary.t) :
  firstn 2001 (nonBlankLines text1) = firstn 2001 (nonBlankLines text2) ->
  includes REPLACEMENT_CHARACTER text2 = false ->
  parseCSV text1 = Resolved s1 ->
  exists s2,
    parseCSV text2 = Resolved s2
    /\ DatasetSummary.columns s2 = DatasetSummary.columns s1
    /\ DatasetSummary.preview s2 = DatasetSummary.preview s1.
Proof.
  intros Hview Henc Hs1.
  destruct (parseCSV_resolved text1 s1 Hs1) as (_ & Hlines & Hmal & ->).
  assert (Hfirst : firstLineOf text2 = firstLineOf text1).
  { symmetry. apply (firstn_eq_head _ _ 2000). exact Hview. }
  assert (Hdelim : delimiterOf text2 = delimiterOf text1).
  { unfold delimiterOf. rewrite Hfirst. reflexivity. }
  assert (Hheaders : headersOf text2 = headersOf text1).
  { unfold headersOf. rewrite Hfirst, Hdelim. reflexivity. }
  assert (Hdata : firstn 2000 (dataLinesOf text2)
                  = firstn 2000 (dataLinesOf text1)).
  { symmetry. apply firstn_eq_skipn. exact Hview. }
  assert (Hcount : Nat.min (length (nonBlankLines text2)) 2001
                   = Nat.min (length (nonBlankLines text1)) 2001).
  { symmetry. apply firstn_eq_length. exact Hview. }
  assert (Hlimit : validationLimitOf text2 = validationLimitOf text1).
  { unfold validationLimitOf. lia. }
  assert (Hsample : sampleLimitOf text2 = sampleLimitOf text1).
  { unfold sampleLimitOf. apply firstn_eq_length. exact Hdata. }
  assert (Hmalformed : malformedRows text2 = malformedRows text1).
  { unfold malformedRows, validatedRows. rewrite Hlimit.
    rewrite (firstn_eq_le (dataLinesOf text2) (dataLinesOf text1)
               (validationLimitOf text1 - 1) 2000);
      [|unfold validationLimitOf; lia | exact Hdata].
    f_equal. apply List.filter_ext. intros line.
    unfold isMalformed. rewrite Hdelim, Hheaders. reflexivity. }
  assert (Hcolumn : forall i, ColumnSample text2 i = ColumnSample text1 i).
  { intros i. unfold ColumnSample, sampleWindow.
    rewrite Hdelim, Hdata. reflexivity. }
  rewrite parseCSV_eq, Henc.
  destruct (Nat.ltb_spec (length (nonBlankLines text2)) 2); [lia|].
  pose proof (splitLine_length (delimiterOf text2) (firstLineOf text2)) as Hh.
  fold (headersOf text2) in Hh.
  destruct (Nat.ltb_spec (length (headersOf text2)) 1); [lia|].
  rewrite countMalformed_eq, Hmalformed, Hlimit.
  pose proof (malformedRows_le text1) as Hle.
  rewrite tooManyMalformed_spec by (unfold validationLimitOf in *; lia).
  destruct (Nat.ltb_spec (validationLimitOf text1) (5 * malformedRows text1));
    [lia|].
  eexists. split; [reflexivity|].
  cbn [DatasetSummary.columns DatasetSummary.preview]. split.
  - rewrite !columns_of_samples, Hheaders, Hsample.
    apply imap_ext. intros i header _. rewrite Hcolumn. reflexivity.
  - rewrite Hdelim, Hheaders. f_equal. unfold slice.
    fold (dataLinesOf text1) (dataLinesOf text2).
    apply (firstn_eq_le _ _ _ 2000); [lia | exact Hdata].
Qed.

(** X14. The top values of a string column are its distinct sampled values
    ranked by frequency: there is a ranking of all the distinct values of
    the column sample, each with the number of its occurrences, in
    descending order of that number, of which the top values are the first
    20 entries, or all of them when the column has fewer distinct values,
    under their display names and with their counts. The ranking has as
    many entries as the column's unique count. No display name exceeds 18
    code units and every count is at least one. Samples holding a name that
    every object inherits from [Object.prototype] are left aside. *)
Theorem top_values_by_frequency (text : jsstring) (s : DatasetSummary.t)
  (i : nat) (col : ColumnInfo.t) :
  parseCSV text = Resolved s ->
  DatasetSummary.columns s !! i = Some col ->
  ColumnInfo.type col = type_string ->
  forallb (fun v => negb (isInherited v)) (ColumnSample text i) = true ->
  exists (ranked : list (jsstring * nat)) (topValues : list Bin.t),
    List.NoDup (List.map fst ranked)
    /\ (forall v, In v (List.map fst ranked) <-> In v (ColumnSample text i))
    /\ Forall (fun e => snd e = occurrences (fst e) (ColumnSample text i))
              ranked
    /\ descendingCounts ranked
    /\ length ranked = ColumnInfo.unique col
    /\ ColumnStats.topValues (ColumnInfo.stats col) = Some topValues
    /\ topValues = List.map (fun e => Bin.mk (displayName (fst e)) (snd e))
                            (firstn 20 ranked)
    /\ length topValues = Nat.min (ColumnInfo.unique col) 20
    /\ Forall (fun bin => length (Bin.name bin) <= 18 /\ 1 <= Bin.value bin)
              topValues.
Proof.
  intros Hs Hcol Htype _.
  destruct (profile_column _ _ _ _ _ text s i col Hs Hcol)
    as (_ & header & _ & ->).
  cbn [ColumnInfo.type ColumnInfo.stats ColumnInfo.unique] in *.
  pose proof (ColumnSample_length text i) as Hlen.
  assert (Hlimit : sampleLimitOf text <= 2000)
    by (unfold sampleLimitOf; lia).
  rewrite columnType_eq in Htype. rewrite columnStats_eq.
  destruct (isNumeric Date_parse (ColumnSample text i)); [discriminate|].
  destruct (isDate Date_parse (ColumnSample text i)); [discriminate|].
  destruct (topValues_ranking (ColumnSample text i) ltac:(lia))
    as (ranked & Hnodup & Hkeys & Hcounts & Hsorted & Hunique & Htop).
  exists ranked. eexists.
  split; [exact Hnodup|]. split; [exact Hkeys|].
  split; [exact Hcounts|]. split; [exact Hsorted|].
  split; [exact Hunique|].
  split; [unfold stringStats; cbn [ColumnStats.topValues]; reflexivity|].
  split; [exact Htop|]. split.
  - rewrite Htop, length_map, length_firstn, <- Hunique. lia.
  - rewrite Htop. apply List.Forall_forall. intros bin Hbin.
    apply in_map_iff in Hbin as ([v c] & <- & Hin). simpl.
    split; [apply displayName_length|].
    apply In_firstn in Hin.
    rewrite List.Forall_forall in Hcounts.
    pose proof (Hcounts (v, c) Hin) as Hc. simpl in Hc. rewrite Hc.
    apply occurrences_pos, Hkeys.
    apply (in_map fst) in Hin. exact Hin.
Qed.


Lemma dateValues_length (values : list jsstring) :
  length (dateValues Date_parse values)
  = length (List.filter (parsesAsDate Date_parse) values).
Proof. unfold dateValues. apply length_map. Qed.

Lemma dateValues_notNaN (values : list jsstring) :
  Forall (fun x => isNaN x = false) (dateValues Date_parse values).
Proof.
  unfold dateValues. apply List.Forall_forall. intros x Hx.
  apply in_map_iff in Hx as (v & <- & Hv).
  apply List.filter_In in Hv as [_ Hv]. unfold parsesAsDate in Hv.
  apply andb_true_iff in Hv as [_ Hv]. apply negb_true_iff, Hv.
Qed.

(** X15. For every date column, the values that count as dates (longer than
    five units, no numbers, accepted by [Date.parse]) are more than three
    fifths of the sample; min and max are the least and the greatest of
    their timestamps; the histogram is built over these timestamps, from
    min to max, with day labels; and mean, quantiles and top values are
    absent. *)
Theorem date_column_statistics (text : jsstring) (s : DatasetSummary.t)
  (i : nat) (col : ColumnInfo.t) :
  parseCSV text = Resolved s ->
  DatasetSummary.columns s !! i = Some col ->
  ColumnInfo.type col = type_date ->
  let sample := ColumnSample text i in
  let stamps := dateValues Date_parse sample in
  3 * length sample < 5 * length stamps
  /\ 5 * length (List.filter parsesAsNumber sample) <= 4 * length sample
  /\ exists lowest highest,
       ColumnInfo.stats col
       = ColumnStats.mk
           (Some (buildHistogram isoDay isoDay stamps lowest highest))
           None (Some lowest) (Some highest) None None
       /\ In lowest stamps /\ In highest stamps
       /\ Forall (fun x => (lowest <=? x)%float = true
                           /\ (x <=? highest)%float = true) stamps.
Proof.
  intros Hs Hcol Htype sample stamps. subst sample stamps.
  destruct (profile_column _ _ _ _ _ text s i col Hs Hcol)
    as (_ & header & _ & ->).
  cbn [ColumnInfo.type ColumnInfo.stats] in *.
  pose proof (ColumnSample_nonempty_values text i) as Hvalues.
  pose proof (ColumnSample_length text i) as Hlen.
  assert (Hlimit : sampleLimitOf text <= 2000)
    by (unfold sampleLimitOf; lia).
  rewrite columnType_eq in Htype. rewrite columnStats_eq.
  destruct (isNumeric Date_parse (ColumnSample text i)) eqn:Hnum;
    [discriminate|].
  destruct (isDate Date_parse (ColumnSample text i)) eqn:Hdate;
    [|discriminate].
  rewrite tally_sample by exact Hvalues. cbn [dateParsed].
  destruct (ColumnSample text i) as [|v sample] eqn:Hsample;
    [discriminate|].
  rewrite <- Hsample in *.
  assert (Hpos : 1 <= length (ColumnSample text i))
    by (rewrite Hsample; simpl; lia).
  destruct (columnType_spec Date_parse (ColumnSample text i) Hvalues
              ltac:(lia)) as [Hnum' Hdate'].
  rewrite Hnum' in Hnum. rewrite Hdate', Hnum', Hnum in Hdate.
  apply Nat.ltb_ge in Hnum. apply Nat.ltb_lt in Hdate.
  rewrite dateValues_length. split; [exact Hdate|]. split; [exact Hnum|].
  assert (Hne : dateValues Date_parse (ColumnSample text i) <> []).
  { intros Hnil. apply (f_equal (@length _)) in Hnil.
    rewrite dateValues_length in Hnil. simpl in Hnil. lia. }
  pose proof (dateValues_notNaN (ColumnSample text i)) as Hnan.
  destruct (Math_min_spec _ Hne Hnan) as [Hmin_in Hmin].
  destruct (Math_max_spec _ Hne Hnan) as [Hmax_in Hmax].
  exists (Math_min (dateValues Date_parse (ColumnSample text i))),
         (Math_max (dateValues Date_parse (ColumnSample text i))).
  split; [reflexivity|]. split; [exact Hmin_in|]. split; [exact Hmax_in|].
  rewrite List.Forall_forall in *. auto.
Qed.

(** X16. A numeric column all of whose parsed values are one and the same
    number has that number as min and max and a histogram of a single bin,
    labelled by the number's [toString] and holding every parsed value. *)
Theorem constant_numeric_column (text : jsstring) (s : DatasetSummary.t)
  (i : nat) (col : ColumnInfo.t) (x : number) :
  parseCSV text = Resolved s ->
  DatasetSummary.columns s !! i = Some col ->
  ColumnInfo.type col = type_numeric ->
  Forall (eq x) (numericValues (ColumnSample text i)) ->
  ColumnStats.min (ColumnInfo.stats col) = Some x
  /\ ColumnStats.max (ColumnInfo.stats col) = Some x
  /\ ColumnStats.histogram (ColumnInfo.stats col)
     = Some [Bin.mk (numberToString x)
                    (length (numericValues (ColumnSample text i)))].
Proof.
  intros Hs Hcol Htype Hsame.
  destruct (numeric_column _ _ _ _ _ text s i col Hs Hcol Htype)
    as [-> Hlen].
  assert (Hne : numericValues (ColumnSample text i) <> []).
  { destruct (numericValues (ColumnSample text i));
      [simpl in Hlen; lia | discriminate]. }
  pose proof (numericValues_notNaN (ColumnSample text i)) as Hnan.
  destruct (Math_min_max_constant _ x Hne Hnan Hsame) as [Hmin Hmax].
  unfold numericStats.
  cbn [ColumnStats.min ColumnStats.max ColumnStats.histogram].
  rewrite Hmin, Hmax.
  split; [reflexivity|]. split; [reflexivity|].
  rewrite buildHistogram_single_bin. do 3 f_equal.
  apply Permutation_length. unfold sortAscending. apply sort_perm.
Qed.

(** X24. Values of white space count as the number zero: a column whose
    sample is not empty and holds nothing but strings of white space, as
    quoted blanks leave them, is numeric with min and max [+0], every
    sampled value being among its parsed values. *)
Theorem blank_values_count_as_zero (text : jsstring) (s : DatasetSummary.t)
  (i : nat) (col : ColumnInfo.t) :
  parseCSV text = Resolved s ->
  DatasetSummary.columns s !! i = Some col ->
  ColumnSample text i <> [] ->
  forallb (forallb isWhiteSpace) (ColumnSample text i) = true ->
  ColumnInfo.type col = type_numeric
  /\ numericValues (ColumnSample text i)
     = repeat zero (length (ColumnSample text i))
  /\ ColumnStats.min (ColumnInfo.stats col) = Some zero
  /\ ColumnStats.max (ColumnInfo.stats col) = Some zero.
Proof.
  intros Hs Hcol Hne Hblank.
  destruct (profile_column _ _ _ _ _ text s i col Hs Hcol)
    as (_ & header & _ & ->).
  cbn [ColumnInfo.type ColumnInfo.stats].
  pose proof (ColumnSample_nonempty_values text i) as Hvalues.
  pose proof (ColumnSample_length text i) as Hlen.
  assert (Hlimit : sampleLimitOf text <= 2000)
    by (unfold sampleLimitOf; lia).
  assert (Hpos : 1 <= length (ColumnSample text i))
    by (destruct (ColumnSample text i); [congruence | simpl; lia]).
  rewrite forallb_forall in Hblank.
  assert (Hparsed : numericValues (ColumnSample text i)
                    = repeat zero (length (ColumnSample text i))).
  { clear -Hblank. unfold numericValues.
    induction (ColumnSample text i) as [|v l IH]; [reflexivity|].
    cbn [List.map List.filter length repeat].
    rewrite (Number_whitespace v (Hblank v (or_introl eq_refl))).
    change (negb (isNaN zero)) with true. cbv iota. f_equal.
    apply IH. intros x Hx. apply Hblank. right. exact Hx. }
  assert (Hcount : length (List.filter parsesAsNumber (ColumnSample text i))
                   = length (ColumnSample text i)).
  { rewrite <- numericValues_length, Hparsed. apply repeat_length. }
  destruct (columnType_spec Date_parse (ColumnSample text i) Hvalues
              ltac:(lia)) as [Hnum _].
  rewrite Hcount in Hnum.
  assert (Htrue : isNumeric Date_parse (ColumnSample text i) = true)
    by (rewrite Hnum; apply Nat.ltb_lt; lia).
  rewrite columnType_eq, columnStats_eq, Htrue.
  rewrite tally_sample by exact Hvalues. cbn [numericParsed].
  split; [reflexivity|]. split; [exact Hparsed|].
  unfold numericStats. cbn [ColumnStats.min ColumnStats.max].
  destruct (Math_min_max_constant (numericValues (ColumnSample text i)) zero)
    as [Hmin Hmax].
  - rewrite Hparsed. destruct (length (ColumnSample text i));
      [lia | discriminate].
  - apply numericValues_notNaN.
  - rewrite Hparsed. apply List.Forall_forall. intros x Hx.
    apply repeat_spec in Hx. congruence.
  - rewrite Hmin, Hmax. split; reflexivity.
Qed.

(** X17. For every numeric column the five summary numbers are in order:
    min is at most q1, q1 at most the median, the median at most q3 and q3
    at most max, and all five are among the parsed values of the column. *)
Theorem quantiles_between_min_and_max (text : jsstring)
  (s : DatasetSummary.t) (i : nat) (col : ColumnInfo.t) :
  parseCSV text = Resolved s ->
  DatasetSummary.columns s !! i = Some col ->
  ColumnInfo.type col = type_numeric ->
  exists lowest q1 median q3 highest,
    ColumnStats.min (ColumnInfo.stats col) = Some lowest
    /\ ColumnStats.max (ColumnInfo.stats col) = Some highest
    /\ ColumnStats.quantiles (ColumnInfo.stats col)
       = Some (Quantiles.mk (Some q1) (Some median) (Some q3))
    /\ Forall (fun x => In x (numericValues (ColumnSample text i)))
              [lowest; q1; median; q3; highest]
    /\ (lowest <=? q1)%float = true /\ (q1 <=? median)%float = true
    /\ (median <=? q3)%float = true /\ (q3 <=? highest)%float = true.
Proof.
  intros Hs Hcol Htype.
  destruct (numeric_column _ _ _ _ _ text s i col Hs Hcol Htype)
    as [-> Hlen].
  assert (Hne : numericValues (ColumnSample text i) <> []).
  { destruct (numericValues (ColumnSample text i));
      [simpl in Hlen; lia | discriminate]. }
  pose proof (numericValues_notNaN (ColumnSample text i)) as Hnan.
  set (parsed := numericValues (ColumnSample text i)) in *.
  set (n := length parsed) in *.
  destruct (Math_min_spec _ Hne Hnan) as [Hmin_in Hmin].
  destruct (Math_max_spec _ Hne Hnan) as [Hmax_in Hmax].
  destruct (sortAscending_spec parsed Hnan) as [Hperm Hsorted].
  assert (Hn : length (sortAscending parsed) = n)
    by (apply Permutation_length, Hperm).
  assert (Hsorted_nan : Forall (fun x => isNaN x = false)
                               (sortAscending parsed)).
  { apply List.Forall_forall. intros x Hx.
    apply (Permutation_in _ Hperm) in Hx.
    rewrite List.Forall_forall in Hnan. exact (Hnan x Hx). }
  destruct (quartile_index_spec n ltac:(lia)) as (H1 & H2 & H3).
  assert (Hlt : n / 4 <= n / 2 /\ n / 2 <= 3 * n / 4 /\ 3 * n / 4 < n).
  { pose proof (Nat.div_mod_eq n 4). pose proof (Nat.div_mod_eq n 2).
    pose proof (Nat.div_mod_eq (3 * n) 4).
    pose proof (Nat.mod_upper_bound n 4). pose proof (Nat.mod_upper_bound n 2).
    pose proof (Nat.mod_upper_bound (3 * n) 4). lia. }
  destruct Hlt as (L1 & L2 & L3).
  destruct (nth_error (sortAscending parsed) (n / 4)) as [a|] eqn:Ha;
    [|apply nth_error_None in Ha; lia].
  destruct (nth_error (sortAscending parsed) (n / 2)) as [b|] eqn:Hb;
    [|apply nth_error_None in Hb; lia].
  destruct (nth_error (sortAscending parsed) (3 * n / 4)) as [c|] eqn:Hc;
    [|apply nth_error_None in Hc; lia].
  exists (Math_min parsed), a, b, c, (Math_max parsed).
  assert (Ina : In a parsed)
    by (apply (Permutation_in _ Hperm), (nth_error_In _ _ Ha)).
  assert (Inb : In b parsed)
    by (apply (Permutation_in _ Hperm), (nth_error_In _ _ Hb)).
  assert (Inc : In c parsed)
    by (apply (Permutation_in _ Hperm), (nth_error_In _ _ Hc)).
  rewrite List.Forall_forall in Hmin, Hmax.
  split; [reflexivity|]. split; [reflexivity|]. split.
  { rewrite numericStats_quantiles. cbn zeta.
    unfold atFloor. rewrite Hn, H1, H2, H3, Ha, Hb, Hc. reflexivity. }
  split; [repeat constructor; assumption|].
  split; [apply Hmin, Ina|].
  split; [apply (ascending_nth _ _ _ _ _ Hsorted Hsorted_nan L1 Ha Hb)|].
  split; [apply (ascending_nth _ _ _ _ _ Hsorted Hsorted_nan L2 Hb Hc)|].
  apply Hmax, Inc.
Qed.

(** X19. The chart data of a column of a resolved profile is its histogram
    when the column is numeric or a date and its top values when it is a
    string column, never the empty fallback for a missing statistic. It
    has at most 10 entries in the default view and at most 20 in the
    alternative view, and it is empty exactly when no sampled row has a
    value in the column. Samples holding a name that every object inherits
    from [Object.prototype] are left aside. *)
Theorem chart_data_of_a_column (text : jsstring) (s : DatasetSummary.t)
  (i : nat) (col : ColumnInfo.t) (vizType : Chart.VizType) :
  parseCSV text = Resolved s ->
  DatasetSummary.columns s !! i = Some col ->
  forallb (fun v => negb (isInherited v)) (ColumnSample text i) = true ->
  (exists bins,
      match ColumnInfo.type col with
      | type_string => ColumnStats.topValues (ColumnInfo.stats col)
      | _ => ColumnStats.histogram (ColumnInfo.stats col)
      end = Some bins
      /\ Chart.graphData col vizType
         = match ColumnInfo.type col, vizType with
           | type_string, Chart.viz_default => firstn 10 bins
           | _, _ => bins
           end)
  /\ length (Chart.graphData col vizType)
     <= match vizType with
        | Chart.viz_default => 10
        | Chart.viz_alternative => 20
        end
  /\ (Chart.graphData col vizType = [] <-> ColumnSample text i = []).
Proof.
  intros Hs Hcol _.
  destruct (profile_column _ _ _ _ _ text s i col Hs Hcol)
    as (_ & header & _ & ->).
  pose proof (ColumnSample_length text i) as Hlen.
  assert (Hlimit : sampleLimitOf text <= 2000)
    by (unfold sampleLimitOf; lia).
  unfold Chart.graphData. cbn [ColumnInfo.type ColumnInfo.stats].
  rewrite columnType_eq, columnStats_eq.
  assert (Hnonempty : forall label single values lowest highest
                             (sample : list jsstring),
             (0 <? length sample) = true ->
             buildHistogram label single values lowest highest = []
             <-> sample = []).
  { intros label single values lowest highest sample Hpos.
    apply Nat.ltb_lt in Hpos. split.
    - intros H. apply (f_equal (@length _)) in H.
      destruct (buildHistogram_length label single values lowest highest)
        as [H1|H10]; simpl in H; lia.
    - intros ->. simpl in Hpos. lia. }
  destruct (isNumeric Date_parse (ColumnSample text i)) eqn:Hnum.
  { rewrite isNumeric_eq in Hnum. apply andb_true_iff in Hnum as [Hpos _].
    unfold numericStats.
    cbn [ColumnStats.histogram ColumnStats.topValues].
    split; [eexists; split; reflexivity|]. split.
    - destruct (buildHistogram_length toFixed1 numberToString
                  (sortAscending
                     (numericParsed (tally Date_parse (ColumnSample text i))))
                  (Math_min
                     (numericParsed (tally Date_parse (ColumnSample text i))))
                  (Math_max
                     (numericParsed (tally Date_parse (ColumnSample text i)))))
        as [H|H]; rewrite H; destruct vizType; lia.
    - apply Hnonempty, Hpos. }
  destruct (isDate Date_parse (ColumnSample text i)) eqn:Hdate.
  { rewrite isDate_eq in Hdate. apply andb_true_iff in Hdate as [_ Hdate].
    apply andb_true_iff in Hdate as [Hpos _].
    unfold dateStats.
    cbn [ColumnStats.histogram ColumnStats.topValues].
    split; [eexists; split; reflexivity|]. split.
    - destruct (buildHistogram_length isoDay isoDay
                  (dateParsed (tally Date_parse (ColumnSample text i)))
                  (Math_min
                     (dateParsed (tally Date_parse (ColumnSample text i))))
                  (Math_max
                     (dateParsed (tally Date_parse (ColumnSample text i)))))
        as [H|H]; rewrite H; destruct vizType; lia.
    - apply Hnonempty, Hpos. }
  unfold stringStats. cbn [ColumnStats.histogram ColumnStats.topValues].
  pose proof (buildTopValues_length (ColumnSample text i) ltac:(lia)) as Htop.
  pose proof (unique_zero (ColumnSample text i)) as Hzero.
  split; [|split].
  - eexists. split; [reflexivity|]. destruct vizType; reflexivity.
  - destruct vizType; [rewrite length_firstn|]; lia.
  - rewrite <- Hzero. split.
    + intros H. apply (f_equal (@length _)) in H.
      change (length (@nil Bin.t)) with 0 in H.
      destruct vizType; [rewrite length_firstn in H|]; lia.
    + intros H. rewrite H in Htop. simpl in Htop.
      destruct (buildTopValues (ColumnSample text i));
        [destruct vizType; reflexivity | discriminate].
Qed.

End Profiles.

(** ** The file intake *)

Section IntakeProperties.
Variable toLowerCase : jsstring -> jsstring.
Variable Date_parse : jsstring -> number.
Variable toFixed1 : number -> jsstring.
Variable numberToString : number -> jsstring.
Variable isoDay : number -> jsstring.

Local Abbreviation parse :=
  (fun f : App.File => parseCSV Date_parse toFixed1 numberToString isoDay
                                (App.name f) (App.text f)).
Local Abbreviation processCSVs :=
  (App.processCSVs Date_parse toFixed1 numberToString isoDay).
Local Abbreviation handleFilesSelect :=
  (App.handleFilesSelect toLowerCase Date_parse toFixed1 numberToString
                         isoDay).

(** The loop stops at the first CSV file that [parseCSV] rejects. *)
Lemma processCSVs_rejected (csvFiles : list App.File) (st : App.Intake)
  (e : Error) :
  processCSVs csvFiles st = inl e
  <-> exists before f after,
        csvFiles = before ++ f :: after
        /\ Forall (fun g => exists s, parse g = Resolved s) before
        /\ parse f = Rejected e.
Proof.
  revert st. induction csvFiles as [|csv rest IH]; intros st.
  - simpl. split; [discriminate|].
    intros (before & f & after & H & _). destruct before; discriminate.
  - cbn [App.processCSVs].
    destruct (parseCSV Date_parse toFixed1 numberToString isoDay
                (App.name csv) (App.text csv)) as [summary|e'] eqn:Hcsv.
    + assert (Hrest : forall st', processCSVs rest st' = inl e
                <-> exists before f after,
                      csv :: rest = before ++ f :: after
                      /\ Forall (fun g => exists s, parse g = Resolved s)
                                before
                      /\ parse f = Rejected e).
      { intros st'. rewrite IH. split.
        - intros (before & f & after & -> & Hb & Hf).
          exists (csv :: before), f, after. split; [reflexivity|].
          split; [|exact Hf]. constructor; [eauto | exact Hb].
        - intros (before & f & after & Heq & Hb & Hf).
          destruct before as [|b before].
          + injection Heq as <- _. rewrite Hcsv in Hf. discriminate.
          + injection Heq as <- ->. inversion Hb; subst.
            exists before, f, after. auto. }
      destruct (App.largestSize st <? App.size csv); apply Hrest.
    + split.
      * intros [= ->]. exists [], csv, rest. auto.
      * intros (before & f & after & Heq & Hb & Hf).
        destruct before as [|b before].
        -- injection Heq as <- _. rewrite Hcsv in Hf. congruence.
        -- injection Heq as <- _. inversion Hb as [|? ? [s Hs] _]; subst.
           rewrite Hcsv in Hs. discriminate.
Qed.

(** When every CSV file is parsed, the loop appends their summaries to the
    context in file order, and it keeps the primary it started with unless
    a file is larger than [largestSize], in which case it ends on the
    first file of the greatest size. *)
Lemma processCSVs_resolved (csvFiles : list App.File) (st final : App.Intake) :
  processCSVs csvFiles st = inr final ->
  Forall (fun g => exists s, parse g = Resolved s) csvFiles
  /\ List.map App.entryName (App.additionalContext final)
     = List.map App.entryName (App.additionalContext st)
       ++ List.map App.name csvFiles
  /\ ((App.primarySummary final = App.primarySummary st
       /\ App.largestSize final = App.largestSize st
       /\ Forall (fun g => App.size g <= App.largestSize st) csvFiles)
      \/ exists before f after primary,
           csvFiles = before ++ f :: after
           /\ parse f = Resolved primary
           /\ App.primarySummary final = Some primary
           /\ App.largestSize final = App.size f
           /\ App.largestSize st < App.size f
           /\ Forall (fun g => App.size g < App.size f) before
           /\ Forall (fun g => App.size g <= App.size f) after).
Proof.
  revert st. induction csvFiles as [|csv rest IH]; intros st.
  - simpl. intros [= <-]. split; [constructor|].
    split; [rewrite app_nil_r; reflexivity|]. left. auto.
  - cbn [App.processCSVs].
    destruct (parseCSV Date_parse toFixed1 numberToString isoDay
                (App.name csv) (App.text csv)) as [summary|e'] eqn:Hcsv;
      [|discriminate].
    destruct (Nat.ltb_spec (App.largestSize st) (App.size csv)) as [Hlt|Hge];
      intros Hfinal; apply IH in Hfinal as (Hall & Hctx & Hprimary);
      cbn [App.primarySummary App.largestSize App.additionalContext] in *.
    + split; [constructor; eauto|]. split.
      { rewrite Hctx, List.map_app, <- app_assoc. reflexivity. }
      right. destruct Hprimary
        as [(Hp & Hl & Hle)
           |(before & f & after & primary & -> & Hf & Hp & Hl & Hgt & Hb & Ha)].
      * exists [], csv, rest, summary. repeat split; auto.
      * exists (csv :: before), f, after, primary.
        repeat split; auto; try lia;
          try (constructor; [lia || assumption | assumption]).
    + split; [constructor; eauto|]. split.
      { rewrite Hctx, List.map_app, <- app_assoc. reflexivity. }
      destruct Hprimary
        as [(Hp & Hl & Hle)
           |(before & f & after & primary & -> & Hf & Hp & Hl & Hgt & Hb & Ha)].
      * left. repeat split; auto.
      * right. exists (csv :: before), f, after, primary.
        repeat split; auto; try lia;
          try (constructor; [lia || assumption | assumption]).
Qed.

Lemma handleFilesSelect_eq (files : list App.File) :
  handleFilesSelect files
  = let csvFiles := List.filter (App.isCSV toLowerCase) files in
    let textFiles := List.filter (App.isText toLowerCase) files in
    if length csvFiles =? 0 then inl App.NoCSVFile else
    match processCSVs csvFiles
            (App.mkIntake None 0
               (List.map (fun txt => App.TextContent (App.name txt)
                                                     (App.text txt))
                         textFiles)) with
    | inl e => inl (App.ParseFailure e)
    | inr st =>
        match App.primarySummary st with
        | None => inl App.NoPrimaryDataset
        | Some primary => inr (primary, App.additionalContext st)
        end
    end.
Proof. reflexivity. Qed.

Lemma parseCSV_empty (fileName : jsstring) :
  parseCSV Date_parse toFixed1 numberToString isoDay fileName []
  = Rejected InsufficientDataError.
Proof. reflexivity. Qed.

(** X20. When the intake succeeds, every CSV file among the selected files
    was parsed, and the primary dataset is the summary of the first CSV
    file, in selection order, among those of the greatest size, which is
    not zero. The context handed to the analysis names the text files,
    then the CSV files, each in selection order. *)
Theorem primary_is_first_largest_csv (files : list App.File)
  (primary : DatasetSummary.t) (context : list App.ContextEntry) :
  handleFilesSelect files = inr (primary, context) ->
  exists before f after,
    List.filter (App.isCSV toLowerCase) files = before ++ f :: after
    /\ parse f = Resolved primary
    /\ 0 < App.size f
    /\ Forall (fun g => App.size g < App.size f) before
    /\ Forall (fun g => App.size g <= App.size f) after
    /\ Forall (fun g => exists s, parse g = Resolved s)
              (List.filter (App.isCSV toLowerCase) files)
    /\ List.map App.entryName context
       = List.map App.name (List.filter (App.isText toLowerCase) files)
         ++ List.map App.name (List.filter (App.isCSV toLowerCase) files).
Proof.
  rewrite handleFilesSelect_eq. cbn zeta.
  destruct (length (List.filter (App.isCSV toLowerCase) files) =? 0);
    [discriminate|].
  destruct (processCSVs _ _) as [e|st] eqn:Hloop; [discriminate|].
  apply processCSVs_resolved in Hloop as (Hall & Hctx & Hprimary).
  cbn [App.primarySummary App.largestSize App.additionalContext] in *.
  destruct (App.primarySummary st) as [p|] eqn:Hp; [|discriminate].
  intros [= <- <-].
  destruct Hprimary
    as [(Hnone & _)
       |(before & f & after & primary & Heq & Hf & Hsome & _ & Hgt & Hb & Ha)];
    [discriminate|].
  injection Hsome as <-.
  exists before, f, after. rewrite Hctx, List.map_map. simpl.
  repeat split; auto.
Qed.

(** X21. The intake fails for want of a CSV file exactly when no selected
    file has a name that ends, in lower case, in [.csv]; it fails with an
    error of [parseCSV] exactly when that is the error of the first CSV
    file that [parseCSV] rejects; and the failure for want of a primary
    dataset never occurs when every file of size zero has an empty
    text. *)
Theorem intake_failures (files : list App.File) :
  (handleFilesSelect files = inl App.NoCSVFile
   <-> List.filter (App.isCSV toLowerCase) files = [])
  /\ (forall e,
        handleFilesSelect files = inl (App.ParseFailure e)
        <-> exists before f after,
              List.filter (App.isCSV toLowerCase) files = before ++ f :: after
              /\ Forall (fun g => exists s, parse g = Resolved s) before
              /\ parse f = Rejected e)
  /\ ((forall f, In f files -> App.size f = 0 -> App.text f = []) ->
      handleFilesSelect files <> inl App.NoPrimaryDataset).
Proof.
  rewrite handleFilesSelect_eq. cbn zeta.
  set (csvFiles := List.filter (App.isCSV toLowerCase) files).
  assert (Hin : forall f, In f csvFiles -> In f files).
  { intros f Hf. apply List.filter_In in Hf. tauto. }
  clearbody csvFiles.
  destruct csvFiles as [|csv rest].
  - simpl. split; [tauto|]. split; [|discriminate].
    intros e. split; [discriminate|].
    intros (before & f & after & H & _). destruct before; discriminate.
  - cbn [length Nat.eqb].
    destruct (processCSVs (csv :: rest) _) as [e'|st] eqn:Hloop.
    + split; [split; discriminate|]. split; [|discriminate].
      intros e. rewrite <- (processCSVs_rejected (csv :: rest)), Hloop.
      split; congruence.
    + assert (Hnone : forall e,
                ~ exists before f after,
                    csv :: rest = before ++ f :: after
                    /\ Forall (fun g => exists s, parse g = Resolved s) before
                    /\ parse f = Rejected e).
      { intros e H.
        match type of Hloop with
        | App.processCSVs _ _ _ _ _ ?st0 = _ =>
            apply (proj2 (processCSVs_rejected (csv :: rest) st0 e)) in H
        end.
        rewrite Hloop in H. discriminate. }
      apply processCSVs_resolved in Hloop as (Hall & _ & Hprimary).
      cbn [App.primarySummary App.largestSize] in Hprimary.
      split; [destruct (App.primarySummary st); split; discriminate|].
      split.
      * intros e. split; [|intros H; destruct (Hnone e H)].
        destruct (App.primarySummary st); discriminate.
      * intros Hsize.
        destruct (App.primarySummary st) eqn:Hp; [discriminate|].
        destruct Hprimary as [(_ & _ & Hle)|(? & ? & ? & ? & _ & _ & ? & _)];
          [|congruence].
        inversion Hle as [|? ? Hzero _]; subst.
        inversion Hall as [|? ? [s Hs] _]; subst.
        rewrite (Hsize csv (Hin csv (or_introl eq_refl)) ltac:(lia)) in Hs.
        rewrite parseCSV_empty in Hs. discriminate.
Qed.

End IntakeProperties.

(** ** The progress steps *)

(** X22. While the analysis runs, the steps the progress panel draws are, in
    their order, completed up to the current stage, active at it and
    pending after it; once the stage is [COMPLETE] all four are
    completed. *)
Theorem steps_before_active_after (stage : AgentProgress.AgentStage) :
  (stage = AgentProgress.COMPLETE
   /\ List.map (AgentProgress.getStepStatus stage) AgentProgress.steps
      = repeat AgentProgress.completed 4)
  \/ exists before after,
       AgentProgress.steps = before ++ stage :: after
       /\ List.map (AgentProgress.getStepStatus stage) AgentProgress.steps
          = repeat AgentProgress.completed (length before)
            ++ AgentProgress.active
               :: repeat AgentProgress.pending (length after).
Proof.
  destruct stage; [right|right|right|right|left; split; reflexivity].
  - exists [], [AgentProgress.ACTION; AgentProgress.VALIDATION;
                AgentProgress.REVISION]. split; reflexivity.
  - exists [AgentProgress.PLANNING],
           [AgentProgress.VALIDATION; AgentProgress.REVISION].
    split; reflexivity.
  - exists [AgentProgress.PLANNING; AgentProgress.ACTION],
           [AgentProgress.REVISION]. split; reflexivity.
  - exists [AgentProgress.PLANNING; AgentProgress.ACTION;
            AgentProgress.VALIDATION], []. split; reflexivity.
Qed.

(** ** Further instances on the sample hosts *)

(** X2 on a header line alone. *)
Lemma X2_witness :
  SampleHost.profile (js "a,b,c") = Rejected InsufficientDataError.
Proof.
  apply (single_line_is_insufficient
           SampleHost.Date_parse SampleHost.toFixed1
           SampleHost.numberToString SampleHost.isoDay SampleHost.fileName).
  - reflexivity.
  - reflexivity.
Defined.

(** X3 on three lines of spaces and tabs. *)
Lemma X3_witness :
  SampleHost.profile (unlines [[32%N; 32%N]; [TAB]; []])
  = Rejected InsufficientDataError.
Proof.
  apply (blank_text_is_insufficient
           SampleHost.Date_parse SampleHost.toFixed1
           SampleHost.numberToString SampleHost.isoDay SampleHost.fileName).
  reflexivity.
Defined.

(** X4 on the header of three fields followed by 21 rows of two fields
    and 78 rows of three. *)
Lemma X4_witness :
  100 = Nat.min (length (nonBlankLines (raggedText 21))) 100
  /\ 2 <= 100 <= 100
  /\ 3 = length (headersOf (raggedText 21))
  /\ 1 <= 3
  /\ 21 = malformedRows (raggedText 21)
  /\ 21 < 100
  /\ 100 < 5 * 21.
Proof.
  apply (integrity_error_payload
           SampleHost.Date_parse SampleHost.toFixed1
           SampleHost.numberToString SampleHost.isoDay SampleHost.fileName
           (raggedText 21)).
  vm_compute. reflexivity.
Defined.

(** X5 on the scenario text. *)
Lemma X5_witness :
  exists s,
    SampleHost.profile scenarioText = Resolved s
    /\ List.map ColumnInfo.name (DatasetSummary.columns s)
       = headersOf scenarioText
    /\ 1 <= length (DatasetSummary.columns s)
    /\ DatasetSummary.rowCount s = length (nonBlankLines scenarioText) - 1
    /\ 1 <= DatasetSummary.rowCount s
    /\ length (DatasetSummary.preview s)
       = Nat.min (DatasetSummary.rowCount s) 50
    /\ DatasetSummary.fileName s = SampleHost.fileName.
Proof.
  eexists. split; [vm_compute; reflexivity|].
  eapply (resolved_summary_shape
            SampleHost.Date_parse SampleHost.toFixed1
            SampleHost.numberToString SampleHost.isoDay SampleHost.fileName
            scenarioText).
  vm_compute. reflexivity.
Defined.

(** X6 on the first column of the scenario text. *)
Lemma X6_witness :
  exists s col,
    SampleHost.profile scenarioText = Resolved s
    /\ DatasetSummary.columns s !! 0 = Some col
    /\ (0 <= ColumnInfo.missing col
        <= Z.of_nat (Nat.min (DatasetSummary.rowCount s) 2000))%Z
    /\ (ColumnInfo.example col = None
        <-> ColumnInfo.missing col
            = Z.of_nat (Nat.min (DatasetSummary.rowCount s) 2000))
    /\ (ColumnInfo.example col = None <-> ColumnInfo.unique col = 0)
    /\ (forall v, ColumnInfo.example col = Some v ->
                  v <> [] /\ In v (ColumnSample scenarioText 0)).
Proof.
  do 2 eexists. split; [vm_compute; reflexivity|]. split; [reflexivity|].
  eapply (missing_example_unique
            SampleHost.Date_parse SampleHost.toFixed1
            SampleHost.numberToString SampleHost.isoDay SampleHost.fileName
            scenarioText).
  - vm_compute. reflexivity.
  - reflexivity.
Defined.

(** X7 on the second column of the scenario text, a string column. *)
Lemma X7_witness :
  exists s col,
    SampleHost.profile scenarioText = Resolved s
    /\ DatasetSummary.columns s !! 1 = Some col
    /\ statsShape (ColumnInfo.type col) (ColumnInfo.stats col).
Proof.
  do 2 eexists. split; [vm_compute; reflexivity|]. split; [reflexivity|].
  eapply (stats_shape_by_type
            SampleHost.Date_parse SampleHost.toFixed1
            SampleHost.numberToString SampleHost.isoDay SampleHost.fileName
            scenarioText _ 1).
  - vm_compute. reflexivity.
  - reflexivity.
Defined.

(** X8 on the first preview row of the scenario text. *)
Lemma X8_witness :
  exists s row,
    SampleHost.profile scenarioText = Resolved s
    /\ DatasetSummary.preview s !! 0 = Some row
    /\ exists line,
         dataLinesOf scenarioText !! 0 = Some line /\ 0 < 50
         /\ (forall h, h <> js "__proto__" ->
                       (In h (List.map fst row)
                        <-> In h (headersOf scenarioText)))
         /\ forall i h,
              nth_error (headersOf scenarioText) i = Some h ->
              (forall j, i < j ->
                         nth_error (headersOf scenarioText) j <> Some h) ->
              h <> js "__proto__" ->
              JSObject.get h row
              = Some (nth_error
                        (splitLine (delimiterOf scenarioText) line) i).
Proof.
  do 2 eexists. split; [vm_compute; reflexivity|]. split; [reflexivity|].
  eapply (preview_row_lookup
            SampleHost.Date_parse SampleHost.toFixed1
            SampleHost.numberToString SampleHost.isoDay SampleHost.fileName
            scenarioText).
  - vm_compute. reflexivity.
  - reflexivity.
Defined.

(** X9 on the scenario text and the same text with a blank line after the
    header. *)
Lemma X9_witness :
  exists s1 s2,
    SampleHost.profile scenarioText = Resolved s1
    /\ SampleHost.profile scenarioWithBlankLine = Resolved s2
    /\ DatasetSummary.columns s2 = DatasetSummary.columns s1
    /\ DatasetSummary.preview s2 = DatasetSummary.preview s1.
Proof.
  assert (H1 : exists s1, SampleHost.profile scenarioText = Resolved s1)
    by (eexists; vm_compute; reflexivity).
  destruct H1 as [s1 H1].
  destruct (columns_read_first_2000_rows
              SampleHost.Date_parse SampleHost.toFixed1
              SampleHost.numberToString SampleHost.isoDay SampleHost.fileName
              scenarioText scenarioWithBlankLine s1)
    as (s2 & H2 & Hcolumns & Hpreview).
  - vm_compute. reflexivity.
  - reflexivity.
  - exact H1.
  - exists s1, s2. auto.
Defined.

(** X10 and X11 on the lines of the scenario text with a blank line. *)
Lemma X10_witness :
  SampleHost.profile
    (unlinesCRLF [js "a,b"; js "  "; js "1,x"; js "2,y"; js "3,x"])
  = SampleHost.profile
      (unlines [js "a,b"; js "  "; js "1,x"; js "2,y"; js "3,x"]).
Proof.
  apply (line_endings_do_not_matter
           SampleHost.Date_parse SampleHost.toFixed1
           SampleHost.numberToString SampleHost.isoDay SampleHost.fileName).
  reflexivity.
Defined.

Lemma X11_witness :
  SampleHost.profile
    (unlines [js "a,b"; js "  "; js "1,x"; js "2,y"; js "3,x"])
  = SampleHost.profile
      (unlines (List.filter (fun l => negb (isBlank l))
                  [js "a,b"; js "  "; js "1,x"; js "2,y"; js "3,x"])).
Proof.
  apply (blank_lines_are_dropped
           SampleHost.Date_parse SampleHost.toFixed1
           SampleHost.numberToString SampleHost.isoDay SampleHost.fileName).
  reflexivity.
Defined.

(** X14 on the second column of the scenario text. *)
Lemma X14_witness :
  exists s col,
    SampleHost.profile scenarioText = Resolved s
    /\ DatasetSummary.columns s !! 1 = Some col
    /\ ColumnInfo.type col = type_string
    /\ exists (ranked : list (jsstring * nat)) (topValues : list Bin.t),
         List.NoDup (List.map fst ranked)
         /\ (forall v, In v (List.map fst ranked)
                       <-> In v (ColumnSample scenarioText 1))
         /\ Forall (fun e => snd e
                             = occurrences (fst e) (ColumnSample scenarioText 1))
                   ranked
         /\ descendingCounts ranked
         /\ length ranked = ColumnInfo.unique col
         /\ ColumnStats.topValues (ColumnInfo.stats col) = Some topValues
         /\ topValues
            = List.map (fun e => Bin.mk (displayName (fst e)) (snd e))
                       (firstn 20 ranked)
         /\ length topValues = Nat.min (ColumnInfo.unique col) 20
         /\ Forall (fun bin => length (Bin.name bin) <= 18
                               /\ 1 <= Bin.value bin)
                   topValues.
Proof.
  do 2 eexists. split; [vm_compute; reflexivity|]. split; [reflexivity|].
  split; [reflexivity|].
  eapply (top_values_by_frequency
            SampleHost.Date_parse SampleHost.toFixed1
            SampleHost.numberToString SampleHost.isoDay SampleHost.fileName
            scenarioText _ 1).
  - vm_compute. reflexivity.
  - reflexivity.
  - reflexivity.
  - vm_compute. reflexivity.
Defined.

(** X15 on a column of two dates. *)
Lemma X15_witness :
  exists s col,
    SampleDateHost.profile twoDates = Resolved s
    /\ DatasetSummary.columns s !! 0 = Some col
    /\ ColumnInfo.type col = type_date
    /\ 3 * length (ColumnSample twoDates 0)
       < 5 * length (dateValues SampleDateHost.Date_parse
                                (ColumnSample twoDates 0))
    /\ 5 * length (List.filter parsesAsNumber (ColumnSample twoDates 0))
       <= 4 * length (ColumnSample twoDates 0)
    /\ exists lowest highest,
         ColumnInfo.stats col
         = ColumnStats.mk
             (Some (buildHistogram SampleHost.isoDay SampleHost.isoDay
                      (dateValues SampleDateHost.Date_parse
                                  (ColumnSample twoDates 0))
                      lowest highest))
             None (Some lowest) (Some highest) None None
         /\ In lowest (dateValues SampleDateHost.Date_parse
                                  (ColumnSample twoDates 0))
         /\ In highest (dateValues SampleDateHost.Date_parse
                                   (ColumnSample twoDates 0))
         /\ Forall (fun x => (lowest <=? x)%float = true
                             /\ (x <=? highest)%float = true)
                   (dateValues SampleDateHost.Date_parse
                               (ColumnSample twoDates 0)).
Proof.
  do 2 eexists. split; [vm_compute; reflexivity|]. split; [reflexivity|].
  split; [reflexivity|].
  eapply (date_column_statistics
            SampleDateHost.Date_parse SampleHost.toFixed1
            SampleHost.numberToString SampleHost.isoDay SampleHost.fileName
            twoDates _ 0).
  - vm_compute. reflexivity.
  - reflexivity.
  - reflexivity.
Defined.

(** X16 on a column that spells the number seven in three ways. *)
Lemma X16_witness :
  exists s col,
    SampleHost.profile threeSevens = Resolved s
    /\ DatasetSummary.columns s !! 0 = Some col
    /\ ColumnStats.min (ColumnInfo.stats col) = Some 7%float
    /\ ColumnStats.max (ColumnInfo.stats col) = Some 7%float
    /\ ColumnStats.histogram (ColumnInfo.stats col)
       = Some [Bin.mk (SampleHost.numberToString 7%float)
                 (length (numericValues (ColumnSample threeSevens 0)))].
Proof.
  do 2 eexists. split; [vm_compute; reflexivity|]. split; [reflexivity|].
  eapply (constant_numeric_column
            SampleHost.Date_parse SampleHost.toFixed1
            SampleHost.numberToString SampleHost.isoDay SampleHost.fileName
            threeSevens _ 0).
  - vm_compute. reflexivity.
  - reflexivity.
  - reflexivity.
  - vm_compute. repeat constructor.
Defined.

(** X17 on the column of [oneToTen]. *)
Lemma X17_witness :
  exists s col,
    SampleHost.profile oneToTen = Resolved s
    /\ DatasetSummary.columns s !! 0 = Some col
    /\ exists lowest q1 median q3 highest,
         ColumnStats.min (ColumnInfo.stats col) = Some lowest
         /\ ColumnStats.max (ColumnInfo.stats col) = Some highest
         /\ ColumnStats.quantiles (ColumnInfo.stats col)
            = Some (Quantiles.mk (Some q1) (Some median) (Some q3))
         /\ Forall (fun x => In x (numericValues (ColumnSample oneToTen 0)))
                   [lowest; q1; median; q3; highest]
         /\ (lowest <=? q1)%float = true /\ (q1 <=? median)%float = true
         /\ (median <=? q3)%float = true /\ (q3 <=? highest)%float = true.
Proof.
  do 2 eexists. split; [vm_compute; reflexivity|]. split; [reflexivity|].
  eapply (quantiles_between_min_and_max
            SampleHost.Date_parse SampleHost.toFixed1
            SampleHost.numberToString SampleHost.isoDay SampleHost.fileName
            oneToTen _ 0).
  - vm_compute. reflexivity.
  - reflexivity.
  - reflexivity.
Defined.

(** X18 on the first preview row of the scenario text. *)
Lemma X18_witness :
  exists s row,
    SampleHost.profile scenarioText = Resolved s
    /\ DatasetSummary.preview s !! 0 = Some row
    /\ exists (rows : list jsstring) (line dataLine : jsstring),
         Dashboard.handleDownloadCSV s = Some (joinFields LF rows)
         /\ length rows = S (length (DatasetSummary.preview s))
         /\ nth_error rows 0 = Some (joinFields COMMA (headersOf scenarioText))
         /\ nth_error rows 1 = Some line
         /\ dataLinesOf scenarioText !! 0 = Some dataLine
         /\ length (splitLine COMMA line) = length (headersOf scenarioText)
         /\ (forall i h,
               nth_error (headersOf scenarioText) i = Some h ->
               (forall j, i < j ->
                          nth_error (headersOf scenarioText) j <> Some h) ->
               h <> js "__proto__" ->
               nth_error (splitLine COMMA line) i
               = Some (Dashboard.escapeQuotes
                         (default [] (nth_error
                                        (splitLine (delimiterOf scenarioText)
                                                   dataLine) i))))
         /\ forall v, includes DQUOTE v = false ->
                      Dashboard.escapeQuotes v = v.
Proof.
  do 2 eexists. split; [vm_compute; reflexivity|]. split; [reflexivity|].
  eapply (export_reads_back
            SampleHost.Date_parse SampleHost.toFixed1
            SampleHost.numberToString SampleHost.isoDay SampleHost.fileName
            scenarioText).
  - vm_compute. reflexivity.
  - reflexivity.
Defined.

(** X19 on the second column of the scenario text, in the default view. *)
Lemma X19_witness :
  exists s col,
    SampleHost.profile scenarioText = Resolved s
    /\ DatasetSummary.columns s !! 1 = Some col
    /\ (exists bins,
          match ColumnInfo.type col with
          | type_string => ColumnStats.topValues (ColumnInfo.stats col)
          | _ => ColumnStats.histogram (ColumnInfo.stats col)
          end = Some bins
          /\ Chart.graphData col Chart.viz_default
             = match ColumnInfo.type col, Chart.viz_default with
               | type_string, Chart.viz_default => firstn 10 bins
               | _, _ => bins
               end)
    /\ length (Chart.graphData col Chart.viz_default) <= 10
    /\ (Chart.graphData col Chart.viz_default = []
        <-> ColumnSample scenarioText 1 = []).
Proof.
  do 2 eexists. split; [vm_compute; reflexivity|]. split; [reflexivity|].
  eapply (chart_data_of_a_column
            SampleHost.Date_parse SampleHost.toFixed1
            SampleHost.numberToString SampleHost.isoDay SampleHost.fileName
            scenarioText _ 1 _ Chart.viz_default).
  - vm_compute. reflexivity.
  - reflexivity.
  - vm_compute. reflexivity.
Defined.

(** X20 on the sample selection, where [first.csv] and [second.csv] are
    the largest. *)
Lemma X20_witness :
  exists primary context,
    SampleIntake.handleFilesSelect SampleIntake.files = inr (primary, context)
    /\ exists before f after,
         List.filter (App.isCSV SampleIntake.toLowerCase) SampleIntake.files
         = before ++ f :: after
         /\ parseCSV SampleHost.Date_parse SampleHost.toFixed1
                     SampleHost.numberToString SampleHost.isoDay
                     (App.name f) (App.text f)
            = Resolved primary
         /\ 0 < App.size f
         /\ Forall (fun g => App.size g < App.size f) before
         /\ Forall (fun g => App.size g <= App.size f) after
         /\ Forall (fun g => exists s,
                       parseCSV SampleHost.Date_parse SampleHost.toFixed1
                                SampleHost.numberToString SampleHost.isoDay
                                (App.name g) (App.text g)
                       = Resolved s)
                   (List.filter (App.isCSV SampleIntake.toLowerCase)
                                SampleIntake.files)
         /\ List.map App.entryName context
            = List.map App.name
                (List.filter (App.isText SampleIntake.toLowerCase)
                             SampleIntake.files)
              ++ List.map App.name
                   (List.filter (App.isCSV SampleIntake.toLowerCase)
                                SampleIntake.files).
Proof.
  do 2 eexists. split; [vm_compute; reflexivity|].
  eapply (primary_is_first_largest_csv
            SampleIntake.toLowerCase SampleHost.Date_parse
            SampleHost.toFixed1 SampleHost.numberToString SampleHost.isoDay
            SampleIntake.files).
  vm_compute. reflexivity.
Defined.

(** X13 on the scenario text, whose header holds no quote. *)
Lemma X13_witness :
  length (headersOf scenarioText)
  = S (delimiterCount (firstLineOf scenarioText) (delimiterOf scenarioText)).
Proof.
  apply (proj2 (header_count_from_detection scenarioText)).
  reflexivity.
Defined.

(** X21 on the sample selection, where no file has size zero. *)
Lemma X21_witness :
  SampleIntake.handleFilesSelect SampleIntake.files <> inl App.NoPrimaryDataset.
Proof.
  apply (proj2 (proj2 (intake_failures
                         SampleIntake.toLowerCase SampleHost.Date_parse
                         SampleHost.toFixed1 SampleHost.numberToString
                         SampleHost.isoDay SampleIntake.files))).
  intros f [<-|[<-|[<-|[<-|[]]]]] Hsize; simpl in Hsize; discriminate.
Defined.


(** X24 on a column of two quoted blanks. *)
Lemma X24_witness :
  exists s col,
    SampleHost.profile quotedBlanks = Resolved s
    /\ DatasetSummary.columns s !! 0 = Some col
    /\ ColumnSample quotedBlanks 0 = [js " "; js "  "]
    /\ ColumnInfo.type col = type_numeric
    /\ numericValues (ColumnSample quotedBlanks 0)
       = repeat zero (length (ColumnSample quotedBlanks 0))
    /\ ColumnStats.min (ColumnInfo.stats col) = Some zero
    /\ ColumnStats.max (ColumnInfo.stats col) = Some zero.
Proof.
  do 2 eexists. split; [vm_compute; reflexivity|]. split; [reflexivity|].
  split; [vm_compute; reflexivity|].
  eapply (blank_values_count_as_zero
            SampleHost.Date_parse SampleHost.toFixed1
            SampleHost.numberToString SampleHost.isoDay SampleHost.fileName
            quotedBlanks _ 0).
  - vm_compute. reflexivity.
  - reflexivity.
  - vm_compute. discriminate.
  - vm_compute. reflexivity.
Defined.
